(** * trident: SpectrumGenerator (trident/spectrum_generator.py)

    A shallow embedding of the post-processing pipeline of
    [SpectrumGenerator]: instrument resolution, ion-field fallback parsing,
    template interpolation, line-spread-function convolution, noise
    injection and spectrum persistence.

    Number model.  The generator as a whole is embedded over exact
    rationals: wavelengths and tabulated values are in [Q], and a flux
    value is an [npfloat], a rational or the mark [NonFinite], which stands
    for the [inf]/[nan] that numpy produces on a division by zero and that
    every later sum and product keeps non-finite.  Rounding and overflow
    of IEEE doubles are not represented there, so a statement about the
    value or the sign of an interpolated entry holds of that embedding in
    exact arithmetic only.  Where rounding decides, the two template
    stages are embedded a second time, on IEEE doubles, in [Binary64]. *)

From Stdlib Require Import ZArith QArith Lqa Lia List String Ascii Bool.
From Stdlib Require Floats.PrimFloat Floats.SpecFloat Floats.FloatOps.
From Stdlib Require Floats.FloatAxioms.
From stdpp Require Import base gmap strings list.

Local Open Scope Q_scope.

(** ** Python exceptions and the error monad *)

Module Py.

Inductive exn : Type :=
| RuntimeError (msg : string)
| ValueError (msg : string)
| TypeError (msg : string)
| IndexError (msg : string)
| KeyError (msg : string)
| NameError (msg : string)
| UnboundLocalError (msg : string)
| ZeroDivisionError (msg : string)
| AttributeError (msg : string)
| IOError (msg : string)
| OSError (msg : string).

Definition result (A : Type) : Type := exn + A.

Definition ok {A} (a : A) : result A := inr a.
Definition raise {A} (e : exn) : result A := inl e.

Definition bind {A B} (m : result A) (k : A -> result B) : result B :=
  match m with
  | inl e => inl e
  | inr a => k a
  end.


End Py.

Import Py.

Notation "'let*' x := m 'in' k" := (Py.bind m (fun x => k))
  (at level 10, x pattern, m at level 100, k at level 200).

(** ** The part of numpy the generator calls *)

Module NumPy.

(** A double as the model sees it. *)
Inductive npfloat : Type :=
| Finite (q : Q)
| NonFinite.

Definition fadd (a b : npfloat) : npfloat :=
  match a, b with
  | Finite x, Finite y => Finite (x + y)
  | _, _ => NonFinite
  end.

Definition fmul (a b : npfloat) : npfloat :=
  match a, b with
  | Finite x, Finite y => Finite (x * y)
  | _, _ => NonFinite
  end.

(** Quotient of two finite values: division by zero gives [inf] or [nan]. *)
Definition qdiv (x y : Q) : npfloat :=
  if Qeq_bool y 0 then NonFinite else Finite (x / y).

Definition Qlt_bool (x y : Q) : bool := negb (Qle_bool y x).

(** Equality of flux values as numbers. *)
Definition feq (a b : npfloat) : Prop :=
  match a, b with
  | Finite x, Finite y => x == y
  | NonFinite, NonFinite => True
  | _, _ => False
  end.

(** The FluxField invariant of the data model: a non-negative real. *)
Definition nonneg (a : npfloat) : Prop :=
  match a with
  | Finite x => 0 <= x
  | NonFinite => False
  end.

(** [check_array_monotonic] of numpy's [digitize]: [1] for a non-decreasing
    array (also a constant or empty one), [-1] for a non-increasing one,
    [0] otherwise. *)
Fixpoint no_descent (last : Q) (a : list Q) : bool :=
  match a with
  | [] => true
  | next :: r => if Qlt_bool next last then false else no_descent next r
  end.

Fixpoint no_ascent (last : Q) (a : list Q) : bool :=
  match a with
  | [] => true
  | next :: r => if Qlt_bool last next then false else no_ascent next r
  end.

Fixpoint skip_repeated (last : Q) (a : list Q) : list Q :=
  match a with
  | [] => []
  | x :: r => if Qeq_bool x last then skip_repeated last r else a
  end.

Definition check_array_monotonic (a : list Q) : Z :=
  match a with
  | [] => 1%Z
  | last :: r =>
      match skip_repeated last r with
      | [] => 1%Z
      | next :: r' =>
          if Qlt_bool last next
          then (if no_descent next r' then 1%Z else 0%Z)
          else (if no_ascent next r' then (-1)%Z else 0%Z)
      end
  end.

(** A table as [digitize] is meant to see it: each entry below the next. *)
Fixpoint strictly_increasing (a : list Q) : bool :=
  match a with
  | [] => true
  | x :: r =>
      match r with
      | [] => true
      | y :: _ => Qlt_bool x y && strictly_increasing r
      end
  end.


(** [searchsorted(bins, x, side='right')] on a non-decreasing array: the
    number of entries [<= x]. *)
Definition searchsorted_right (bins : list Q) (x : Q) : nat :=
  List.length (List.filter (fun b => Qle_bool b x) bins).

(** [np.digitize(x, bins)] with [right=False]: for increasing bins the index
    [i] with [bins[i-1] <= x < bins[i]], for decreasing bins the one with
    [bins[i-1] > x >= bins[i]], which numpy finds by searching the reversed
    bins; bins that are not monotonic are refused. *)
Definition digitize1 (mono : Z) (bins : list Q) (x : Q) : Z :=
  if (mono =? -1)%Z
  then (Z.of_nat (List.length bins)
        - Z.of_nat (searchsorted_right (List.rev bins) x))%Z
  else Z.of_nat (searchsorted_right bins x).

Definition digitize (xs bins : list Q) : result (list Z) :=
  let mono := check_array_monotonic bins in
  if (mono =? 0)%Z
  then raise (ValueError "bins must be monotonically increasing or decreasing")
  else ok (List.map (digitize1 mono bins) xs).

(** [np.clip(a, a_min, a_max)] is [minimum(a_max, maximum(a, a_min))]. *)
Definition clip1 (a_min a_max i : Z) : Z := Z.min a_max (Z.max i a_min).

Definition clip (a : list Z) (a_min a_max : Z) : list Z :=
  List.map (clip1 a_min a_max) a.

(** Indexing one entry, [a[i]]: a negative index counts from the end. *)
Definition getitem {A} (a : list A) (i : Z) : result A :=
  let n := Z.of_nat (List.length a) in
  let j := if (i <? 0)%Z then (i + n)%Z else i in
  if ((j <? 0) || (n <=? j))%Z
  then raise (IndexError "index out of bounds")
  else match a !! Z.to_nat j with
       | Some v => ok v
       | None => raise (IndexError "index out of bounds")
       end.

Fixpoint mapM {A B} (f : A -> result B) (l : list A) : result (list B) :=
  match l with
  | [] => ok []
  | a :: r => let* b := f a in let* bs := mapM f r in ok (b :: bs)
  end.

End NumPy.

Import NumPy.

(** ** Python strings *)

Module PyStr.

Local Open Scope string_scope.

(** [s.startswith(prefix)] *)
Fixpoint startswith (s prefix : string) : bool :=
  match prefix, s with
  | EmptyString, _ => true
  | String a p', String b s' => Ascii.eqb a b && startswith s' p'
  | String _ _, EmptyString => false
  end.

(** [s.find(sub)]: the first index at which [sub] occurs, or [-1]. *)
Fixpoint find_from (i : nat) (s sub : string) : Z :=
  if startswith s sub then Z.of_nat i
  else match s with
       | EmptyString => (-1)%Z
       | String _ s' => find_from (S i) s' sub
       end.

Definition find (s sub : string) : Z := find_from 0 s sub.

Fixpoint take_chars (n : nat) (s : string) : string :=
  match n, s with
  | S n', String c s' => String c (take_chars n' s')
  | _, _ => EmptyString
  end.

(** [s[:k]]: a negative [k] counts from the end. *)
Definition slice_to (s : string) (k : Z) : string :=
  let n := Z.of_nat (String.length s) in
  let k' := if (k <? 0)%Z then Z.max 0 (n + k) else k in
  take_chars (Z.to_nat k') s.

(** [s[1:]] *)
Definition slice_from_1 (s : string) : string :=
  match s with
  | EmptyString => EmptyString
  | String _ s' => s'
  end.

(** [s.split(c)] for a separator of one character. *)
Fixpoint split (c : ascii) (s : string) : list string :=
  match s with
  | EmptyString => [EmptyString]
  | String a s' =>
      if Ascii.eqb a c then EmptyString :: split c s'
      else match split c s' with
           | h :: t => String a h :: t
           | [] => [String a EmptyString]
           end
  end.

Definition is_space (c : ascii) : bool :=
  let n := nat_of_ascii c in
  (Nat.eqb n 32 || (Nat.leb 9 n && Nat.leb n 13))%bool.

Definition is_digit (c : ascii) : bool :=
  let n := nat_of_ascii c in (Nat.leb 48 n && Nat.leb n 57)%bool.

Fixpoint lstrip (s : string) : string :=
  match s with
  | String c s' => if is_space c then lstrip s' else s
  | EmptyString => EmptyString
  end.

Definition strip (s : string) : string :=
  let r := lstrip (string_of_list_ascii (List.rev (list_ascii_of_string s))) in
  lstrip (string_of_list_ascii (List.rev (list_ascii_of_string r))).

Fixpoint digits_value (acc : Z) (s : string) : option Z :=
  match s with
  | EmptyString => Some acc
  | String c s' =>
      if is_digit c
      then digits_value (10 * acc + (Z.of_nat (nat_of_ascii c) - 48))%Z s'
      else None
  end.

Definition unsigned_value (s : string) : option Z :=
  match s with
  | EmptyString => None
  | _ => digits_value 0 s
  end.

(** [int(s)] for a string: blanks around, an optional sign, decimal digits. *)
Definition int (s : string) : result Z :=
  let bad := raise (ValueError "invalid literal for int() with base 10") in
  match strip s with
  | String "-" r => match unsigned_value r with Some v => ok (- v)%Z | None => bad end
  | String "+" r => match unsigned_value r with Some v => ok v | None => bad end
  | r => match unsigned_value r with Some v => ok v | None => bad end
  end.

End PyStr.

(** ** The world outside the generator: files, log, random generator *)

(** An HDF5 file is a set of named datasets; a text file is a table of
    numbers; anything else is opaque to this module. *)
Inductive file : Type :=
| TextFile (rows : list (list Q))
| Hdf5File (datasets : gmap string (list npfloat))
| OtherFile (tag : string).

Inductive level : Type := INFO | WARNING.

Record World : Type := mkWorld {
  files : gmap string file;
  directories : gmap string (list string);
  log : list (level * string);
  (** the global [np.random] state, as the standard normal variates it is
      going to deliver *)
  rng : nat -> Q;
  (** the states the operating system's entropy gives when the generator
      is seeded without a seed, each again as its variates *)
  urandom : nat -> nat -> Q;
  (** [os.path.dirname(__file__)] *)
  module_dir : string
}.

Definition set_files (w : World) (fs : gmap string file) : World :=
  mkWorld fs (directories w) (log w) (rng w) (urandom w) (module_dir w).

Definition set_rng (w : World) (r : nat -> Q) (u : nat -> nat -> Q) : World :=
  mkWorld (files w) (directories w) (log w) r u (module_dir w).

(** [mylog.info], [mylog.warn] *)
Definition mylog_info (msg : string) (w : World) : World :=
  mkWorld (files w) (directories w) (log w ++ [(INFO, msg)])
          (rng w) (urandom w) (module_dir w).

Definition mylog_warn (msg : string) (w : World) : World :=
  mkWorld (files w) (directories w) (log w ++ [(WARNING, msg)])
          (rng w) (urandom w) (module_dir w).

(** [os.path.join] of a directory with relative components. *)
Definition path_join (a b : string) : string :=
  if String.eqb a "" then b
  else if String.eqb (String.substring (String.length a - 1) 1 a) "/"
       then a +:+ b
       else a +:+ "/" +:+ b.

Fixpoint endswith_rev (s suffix : list ascii) : bool :=
  match suffix, s with
  | [], _ => true
  | c :: suffix', d :: s' => Ascii.eqb c d && endswith_rev s' suffix'
  | _ :: _, [] => false
  end.

(** [str.endswith] *)
Definition endswith (s suffix : string) : bool :=
  endswith_rev (List.rev (list_ascii_of_string s))
               (List.rev (list_ascii_of_string suffix)).

(** [np.loadtxt]: the rows of a numeric text file; rows of unequal width
    are refused. *)
Definition loadtxt (w : World) (filename : string) : result (list (list Q)) :=
  match files w !! filename with
  | Some (TextFile rows) =>
      match rows with
      | [] => ok []
      | r :: rest =>
          if forallb (fun r' => Nat.eqb (List.length r') (List.length r)) rest
          then ok rows
          else raise (ValueError "Wrong number of columns")
      end
  | Some _ => raise (ValueError "could not convert string to float")
  | None => raise (IOError "No such file or directory")
  end.

(** [data[:, c]] on what [np.loadtxt] returned.  [loadtxt] squeezes its
    result, so a file of fewer than two rows or of a single column gives
    an array of fewer than two dimensions, which cannot be indexed with
    two indices. *)
Definition column (data : list (list Q)) (c : nat) : result (list Q) :=
  match data with
  | r0 :: _ :: _ =>
      if (List.length r0 <? 2)%nat
      then raise (IndexError "too many indices for array")
      else if (c <? List.length r0)%nat
           then ok (List.map (fun r => List.nth c r 0) data)
           else raise (IndexError "index out of bounds")
  | _ => raise (IndexError "too many indices for array")
  end.

(** ** Instruments *)

(** Modelled from the spec: class [Instrument] (instrument.py is not among
    the sources).  Section 3: a grid is "derived from either (lambda_min,
    lambda_max, n_lambda) or (lambda_min, lambda_max, dlambda); exactly one
    of n_lambda/dlambda must be supplied"; an instrument has a name, that
    grid and an optional LSF-kernel reference.  The record keeps the
    constructor's arguments as they were supplied. *)
Record Instrument : Type := mkInstrument {
  lambda_min : Q;
  lambda_max : Q;
  n_lambda : option Z;
  dlambda : option Q;
  lsf_kernel : option string;
  name : string
}.

(** Modelled from the spec: the constructor of [Instrument].  Section 4.1:
    a custom range has to be fully specified, which section 3 spells out as
    both extrema and exactly one of n_lambda and dlambda. *)
Definition Instrument_init (lambda_min lambda_max : option Q)
    (n_lambda : option Z) (dlambda : option Q)
    (lsf_kernel : option string) (name : string) : result Instrument :=
  match lambda_min, lambda_max, n_lambda, dlambda with
  | Some lo, Some hi, Some n, None =>
      ok (mkInstrument lo hi (Some n) None lsf_kernel name)
  | Some lo, Some hi, None, Some d =>
      ok (mkInstrument lo hi None (Some d) lsf_kernel name)
  | _, _, _, _ =>
      raise (RuntimeError "custom wavelength range is not fully specified")
  end.

(** The five presets, [Instrument(1150, 1450, dlambda=0.01, ...)] and so on. *)
Definition preset (lo hi : Q) (d : Q) (k : option string) (nm : string)
  : Instrument := mkInstrument lo hi None (Some d) k nm.

(** [valid_instruments], in the order of the source. *)
Definition valid_instruments : list (string * Instrument) :=
  [ ("COS",   preset 1150 1450 (1 # 100) (Some "avg_COS.txt") "COS");
    ("HIRES", preset 1200 1400 (1 # 100) None "HIRES");
    ("UVES",  preset 1200 1400 (1 # 100) None "UVES");
    ("MODS",  preset 1200 1400 (1 # 100) None "MODS");
    ("SDSS",  preset 1200 1400 (1 # 100) None "SDSS") ]%string.

Fixpoint dict_get {V} (d : list (string * V)) (k : string) : option V :=
  match d with
  | [] => None
  | (k', v) :: r => if String.eqb k' k then Some v else dict_get r k
  end.

(** What a caller may pass as [instrument]. *)
Inductive instrument_arg : Type :=
| ArgNone
| ArgStr (s : string)
| ArgInstrument (i : Instrument)
| ArgOther.

(** ** More of numpy: arithmetic in place, convolution, random numbers *)

Module NumPyOps.

Fixpoint map2 {A B C} (f : A -> B -> C) (a : list A) (b : list B) : list C :=
  match a, b with
  | x :: a', y :: b' => f x y :: map2 f a' b'
  | _, _ => []
  end.

(** [np.op(out, other, out=out)], also written [out op= other]: [other] must
    have the shape of [out] or a single entry, which is then used for every
    entry of [out]. *)
Definition inplace (op : npfloat -> npfloat -> npfloat)
    (out other : list npfloat) : result (list npfloat) :=
  if Nat.eqb (List.length other) (List.length out)
  then ok (map2 op out other)
  else match other with
       | [y] => ok (List.map (fun x => op x y) out)
       | _ => raise (ValueError "operands could not be broadcast together")
       end.

Fixpoint add_pad (a b : list npfloat) : list npfloat :=
  match a, b with
  | [], _ => b
  | _, [] => a
  | x :: a', y :: b' => fadd x y :: add_pad a' b'
  end.

(** The full linear convolution, [full[j]] the sum of the [a[i] * v[j - i]]. *)
Fixpoint convolve_full (a v : list npfloat) : list npfloat :=
  match a with
  | [] => []
  | x :: a' =>
      match List.map (fmul x) v with
      | [] => []
      | p :: ps => p :: add_pad ps (convolve_full a' v)
      end
  end.

(** [np.convolve(a, v, 'same')]: empty operands are refused, the longer
    operand is taken first, and the result is the centred part of the full
    convolution that is as long as the longer operand. *)
Definition convolve_same (a v : list npfloat) : result (list npfloat) :=
  match a, v with
  | [], _ => raise (ValueError "a cannot be empty")
  | _, [] => raise (ValueError "v cannot be empty")
  | _, _ =>
      let '(a, v) := if (List.length a <? List.length v)%nat then (v, a) else (a, v) in
      let n1 := List.length a in
      let n2 := List.length v in
      ok (List.firstn n1 (List.skipn ((n2 - 1) / 2)%nat (convolve_full a v)))
  end.

(** [np.random.seed(seed)]: a seed fixes the state, one outside 32 bits is
    refused, and no seed takes the state from the operating system. *)
Definition random_seed (gauss_stream : Z -> nat -> Q) (seed : option Z)
    (w : World) : result World :=
  match seed with
  | None => ok (set_rng w (urandom w 0%nat) (fun k => urandom w (S k)))
  | Some s =>
      if ((0 <=? s) && (s <? 2 ^ 32))%Z
      then ok (set_rng w (gauss_stream s) (urandom w))
      else raise (ValueError "Seed must be between 0 and 2**32 - 1")
  end.

(** [np.random.normal(loc, scale, size)]: [size] variates [loc + scale * g]
    from the global state, which moves on by [size]. *)
Definition random_normal (loc scale : Q) (size : Z) (w : World)
  : result (list npfloat * World) :=
  if Qlt_bool scale 0 then raise (ValueError "scale < 0")
  else if (size <? 0)%Z then raise (ValueError "negative dimensions are not allowed")
  else
    let n := Z.to_nat size in
    ok (List.map (fun k => Finite (loc + scale * rng w k)) (List.seq 0 n),
        set_rng w (fun k => rng w (n + k)%nat) (urandom w)).

End NumPyOps.

Import NumPyOps.

(** ** The generator *)

(** Modelled from the spec: a transition of the line database
    (line_database.py is not among the sources), section 3. *)
Record Line : Type := mkLine {
  identifier : string;
  field : string;
  wavelength : Q;
  f_value : Q;
  gamma : Q;
  element : string
}.

(** A line as [add_line] registers it with the deposition engine. *)
Record RegisteredLine : Type := mkRegisteredLine {
  reg_label : string;
  reg_field : string;
  reg_wavelength : Q;
  reg_f_value : Q;
  reg_gamma : Q;
  reg_atomic_mass : Q;
  reg_label_threshold : Q
}.

Record SpectrumGenerator : Type := mkGenerator {
  instrument : Instrument;
  lambda_bins : list Q;
  (** [None] until a spectrum has been made or loaded *)
  flux_field : option (list npfloat);
  line_database : list Line;
  ionization_table : string;
  line_list : list RegisteredLine
}.

Definition with_instrument (g : SpectrumGenerator) (i : Instrument) :=
  mkGenerator i (lambda_bins g) (flux_field g) (line_database g)
              (ionization_table g) (line_list g).

Definition with_flux_field (g : SpectrumGenerator) (f : option (list npfloat)) :=
  mkGenerator (instrument g) (lambda_bins g) f (line_database g)
              (ionization_table g) (line_list g).

Definition with_spectrum (g : SpectrumGenerator) (l : list Q)
    (f : option (list npfloat)) :=
  mkGenerator (instrument g) l f (line_database g)
              (ionization_table g) (line_list g).

Definition with_line (g : SpectrumGenerator) (r : RegisteredLine) :=
  mkGenerator (instrument g) (lambda_bins g) (flux_field g) (line_database g)
              (ionization_table g) (line_list g ++ [r]).

(** *** set_instrument *)

(** The error of [set_instrument]; its second argument, the names of the
    presets, is left out. *)
Definition set_instrument_error : exn :=
  RuntimeError
    "set_instrument accepts only Instrument objects or the names of valid instruments: ".

(** The object [set_instrument] binds to [self.instrument], or its error. *)
Definition set_instrument_value (instrument : instrument_arg) : result Instrument :=
  match instrument with
  | ArgStr s =>
      match dict_get valid_instruments s with
      | None => raise set_instrument_error
      | Some i => ok i
      end
  | ArgInstrument i => ok i
  | _ => raise set_instrument_error
  end.

Definition set_instrument (g : SpectrumGenerator) (instrument : instrument_arg)
  : result SpectrumGenerator :=
  let* i := set_instrument_value instrument in ok (with_instrument g i).

(** *** Methods that read or change the world *)

(** A method body: it may raise, and what it did to the world before
    raising stays done. *)
Definition M (A : Type) : Type := World -> result A * World.

Definition Mret {A} (a : A) : M A := fun w => (ok a, w).

Definition Mbind {A B} (m : M A) (k : A -> M B) : M B :=
  fun w => match m w with
           | (inl e, w') => (inl e, w')
           | (inr a, w') => k a w'
           end.

Definition lift {A} (r : result A) : M A := fun w => (r, w).

(** Reading the world without changing it. *)
Definition reading {A} (f : World -> result A) : M A := fun w => (f w, w).

Definition info (msg : string) : M unit := fun w => (ok tt, mylog_info msg w).
Definition warn (msg : string) : M unit := fun w => (ok tt, mylog_warn msg w).

Notation "'let!' x := m 'in' k" := (Mbind m (fun x => k))
  (at level 10, x pattern, m at level 100, k at level 200).

(** *** Template interpolation *)

(** One entry of [my_flux]: the slope of the segment that ends at row
    [i], applied from that row.  The expression of the source is evaluated
    here without rounding; [Binary64.interpolate1] is the same expression
    on doubles, each operation rounded as numpy rounds it. *)
Definition interpolate1 (lam flux : list Q) (x : Q) (i : Z) : result npfloat :=
  let* f_i := getitem flux i in
  let* f_p := getitem flux (i - 1)%Z in
  let* l_i := getitem lam i in
  let* l_p := getitem lam (i - 1)%Z in
  let slope := qdiv (f_i - f_p) (l_i - l_p) in
  ok (fadd (fmul slope (Finite (x - l_i))) (Finite f_i)).

(** The four statements that [_get_qso_spectrum] and
    [_get_milky_way_foreground] have in common: [digitize], [clip], [slope],
    [my_flux]. *)
Definition interpolate (lam flux targets : list Q) : result (list npfloat) :=
  let* index := digitize targets lam in
  let index := clip index 1 (Z.of_nat (List.length lam) - 1) in
  mapM (fun xi => interpolate1 lam flux (fst xi) (snd xi))
       (List.combine targets index).

(** The row that [interpolate] uses for a target. *)
Definition row_of (lam : list Q) (x : Q) : Z :=
  clip1 1 (Z.of_nat (List.length lam) - 1)
        (digitize1 (check_array_monotonic lam) lam x).

Definition template_path (w : World) (file : string) : string :=
  path_join (path_join (path_join (path_join (module_dir w) "..") "data")
                       "spectral_templates") file.

(** [if filename is None: filename = ...] *)
Definition or_default (filename : option string) (default : string) : string :=
  match filename with
  | None => default
  | Some f => f
  end.

Definition _get_qso_spectrum (g : SpectrumGenerator) (redshift : Q)
    (filename : option string) (w : World) : result (list npfloat) :=
  let filename := or_default filename (template_path w "qso_background_COS_HST.txt") in
  let* data := loadtxt w filename in
  let* qso_lambda := column data 0 in
  let qso_lambda := List.map (fun l => l + l * redshift) qso_lambda in
  let* qso_flux := column data 1 in
  interpolate qso_lambda qso_flux (lambda_bins g).

(** The bound beyond which the Milky-Way template has no data. *)
Definition MW_limit : Q := 17999444 # 10000.

Definition _get_milky_way_foreground (g : SpectrumGenerator)
    (filename : option string) (w : World) : result (list npfloat) :=
  let filename := or_default filename (template_path w "mw_foreground_COS.txt") in
  let* data := loadtxt w filename in
  let* MW_lambda := column data 0 in
  let* MW_flux := column data 1 in
  let* my_flux := interpolate MW_lambda MW_flux (lambda_bins g) in
  ok (map2 (fun x y => if Qlt_bool MW_limit x then Finite 1 else y)
           (lambda_bins g) my_flux).

(** The array a stage works on: the one passed, or the generator's own. *)
Definition target_array (g : SpectrumGenerator) (arg : option (list npfloat))
  : option (list npfloat) :=
  match arg with
  | None => flux_field g
  | Some a => Some a
  end.

(** The generator after its target array was changed in place: its own
    flux field changes only when that was the target.  An array that is
    passed explicitly is taken to be another object than the generator's
    own flux field. *)
Definition after_update (g : SpectrumGenerator) (arg : option (list npfloat))
    (new : list npfloat) : SpectrumGenerator :=
  match arg with
  | None => with_flux_field g (Some new)
  | Some _ => g
  end.

Definition multiply_in_place (target : option (list npfloat))
    (spectrum : list npfloat) : result (list npfloat) :=
  match target with
  | None => raise (TypeError "unsupported operand type(s) for *=: 'NoneType'")
  | Some f => inplace fmul f spectrum
  end.

(** [add_milky_way_foreground] and [add_qso_spectrum] return nothing; the
    model returns the generator and the content of the array they changed
    in place. *)
Definition add_milky_way_foreground (g : SpectrumGenerator)
    (flux_field : option (list npfloat)) (filename : option string)
    (w : World) : result (SpectrumGenerator * list npfloat) :=
  let target := target_array g flux_field in
  let* MW_spectrum := _get_milky_way_foreground g filename w in
  let* new := multiply_in_place target MW_spectrum in
  ok (after_update g flux_field new, new).

Definition add_qso_spectrum (g : SpectrumGenerator)
    (flux_field : option (list npfloat)) (redshift : Q)
    (filename : option string) (w : World)
  : result (SpectrumGenerator * list npfloat) :=
  let target := target_array g flux_field in
  let* qso_spectrum := _get_qso_spectrum g redshift filename w in
  let* new := multiply_in_place target qso_spectrum in
  ok (after_update g flux_field new, new).

(** *** Noise *)

Definition add_in_place (target : option (list npfloat))
    (noise : list npfloat) : result (list npfloat) :=
  match target with
  | None => raise (TypeError "unsupported operand type(s) for +: 'NoneType'")
  | Some f => inplace fadd f noise
  end.

Section Noise.

(** The standard normal variates that the generator delivers after
    [np.random.seed(s)]. *)
Variable gauss_stream : Z -> nat -> Q.

(** Returns [out], here with the generator as the call leaves it. *)
Definition add_gaussian_noise (g : SpectrumGenerator) (snr : Q)
    (n_bins : option Z) (out : option (list npfloat)) (seed : option Z)
  : M (SpectrumGenerator * list npfloat) :=
  let! _ := (fun w => match random_seed gauss_stream seed w with
                      | inl e => (inl e, w)
                      | inr w' => (ok tt, w')
                      end) in
  let n_bins :=
    match n_bins with
    | None => Z.of_nat (List.length (lambda_bins g))
    | Some n => n
    end in
  let target := target_array g out in
  let! scale := lift (if Qeq_bool snr 0
                      then raise (ZeroDivisionError "float division by zero")
                      else ok (1 / snr)) in
  let! noise := (fun w => match random_normal 0 scale n_bins w with
                          | inl e => (inl e, w)
                          | inr (a, w') => (ok a, w')
                          end) in
  let! new := lift (add_in_place target noise) in
  Mret (after_update g out new, new).

End Noise.

(** What a caller of a stage gets to see of its array: the array as the
    call left it, or the error. *)
Definition returned_array (r : result (SpectrumGenerator * list npfloat) * World)
  : result (list npfloat) :=
  match fst r with
  | inl e => inl e
  | inr ga => inr (snd ga)
  end.

(** *** make_flat_spectrum *)

Definition make_flat_spectrum (g : SpectrumGenerator)
  : SpectrumGenerator * (list Q * list npfloat) :=
  let flux := List.repeat (Finite 1) (List.length (lambda_bins g)) in
  (with_flux_field g (Some flux), (lambda_bins g, flux)).

(** *** Line-spread function *)

Section LineSpread.

(** The kernel that [LSF(function=..., width=..., filename=...)] builds or
    reads (lsf.py is not among the sources), or its error. *)
Variable LSF_kernel :
  option string -> option Z -> option string -> World -> result (list Q).

Definition apply_lsf (g : SpectrumGenerator) (function : option string)
    (width : option Z) (filename : option string) : M SpectrumGenerator :=
  let! kernel :=
    match function, width, filename with
    | None, None, None =>
        match lsf_kernel (instrument g) with
        | None =>
            lift (raise (RuntimeError
              "To apply a line spread function, you must specify one or use an instrument where one is defined."))
        | Some k =>
            let! _ := info ("Applying default line spread function for "
                            +:+ name (instrument g) +:+ ".") in
            reading (LSF_kernel None None (Some k))
        end
    | _, _, _ =>
        let! _ := info "Applying specified line spread function." in
        reading (LSF_kernel function width filename)
    end in
  let! flux :=
    lift match flux_field g with
         | None => raise (TypeError "unsupported operand type(s) for *: 'NoneType'")
         | Some f => convolve_same (List.map Finite kernel) f
         end in
  Mret (with_flux_field g (Some flux)).

End LineSpread.

(** *** Loading and saving *)

Fixpoint finite_values (a : list npfloat) : option (list Q) :=
  match a with
  | [] => Some []
  | Finite q :: r =>
      match finite_values r with
      | Some qs => Some (q :: qs)
      | None => None
      end
  | NonFinite :: _ => None
  end.

(** [h5py.File(filename, "r")] *)
Definition h5py_open (w : World) (filename : string)
  : result (gmap string (list npfloat)) :=
  match files w !! filename with
  | Some (Hdf5File d) => ok d
  | Some _ => raise (IOError "unable to open file (file signature not found)")
  | None => raise (IOError "unable to open file (no such file)")
  end.

(** [in_file[key].value] *)
Definition h5py_value (d : gmap string (list npfloat)) (key : string)
  : result (list npfloat) :=
  match d !! key with
  | Some a => ok a
  | None => raise (KeyError "unable to open object")
  end.

(** The wavelengths of the generator are rationals: a stored wavelength
    that is not finite is outside the number model and refused here. *)
Definition load_spectrum (g : SpectrumGenerator) (filename : option string)
    (w : World) : result SpectrumGenerator :=
  match filename with
  | None => raise (AttributeError "'NoneType' object has no attribute 'endswith'")
  | Some filename =>
      if negb (endswith filename ".h5")
      then raise (RuntimeError "Only hdf5 format supported for loading spectra.")
      else
        let* in_file := h5py_open w filename in
        let* wavelength := h5py_value in_file "wavelength" in
        let* flux := h5py_value in_file "flux" in
        match finite_values wavelength with
        | Some l => ok (with_spectrum g l (Some flux))
        | None => raise (ValueError "wavelength is not finite")
        end
  end.

Section Writers.

(** The three writers that the generator inherits from yt's
    [AbsorptionSpectrum]. *)
Variable _write_spectrum_hdf5 : SpectrumGenerator -> string -> M unit.
Variable _write_spectrum_fits : SpectrumGenerator -> string -> M unit.
Variable _write_spectrum_ascii : SpectrumGenerator -> string -> M unit.

Definition save_spectrum (g : SpectrumGenerator) (filename : string)
    (format : option string) : M unit :=
  match format with
  | None =>
      if endswith filename ".h5" then _write_spectrum_hdf5 g filename
      else if endswith filename ".fits" then _write_spectrum_fits g filename
      else _write_spectrum_ascii g filename
  | Some fmt =>
      if String.eqb fmt "HDF5" then _write_spectrum_hdf5 g filename
      else if String.eqb fmt "FITS" then _write_spectrum_fits g filename
      else if String.eqb fmt "ASCII" then _write_spectrum_ascii g filename
      else
        let! _ := warn "Invalid format.  Must be 'HDF5', 'FITS', 'ASCII'. Defaulting to ASCII." in
        _write_spectrum_ascii g filename
  end.

End Writers.

(** Modelled from the spec: the binary writer, which the generator inherits
    and which is not among the sources.  Section 6: the persisted spectrum
    holds "two named arrays, wavelength and flux".  A generator without a
    flux field has nothing to write. *)
Definition write_hdf5 (g : SpectrumGenerator) (filename : string) : M unit :=
  fun w =>
    match flux_field g with
    | None => (raise (TypeError "Object dtype has no native HDF5 equivalent"), w)
    | Some f =>
        let d : gmap string (list npfloat) :=
          <["flux" := f]> (<["wavelength" := List.map Finite (lambda_bins g)]> ∅) in
        (ok tt, set_files w (<[filename := Hdf5File d]> (files w)))
    end.

(** Stand-ins for the other two writers, used where a concrete world is
    run: each leaves a file that is not HDF5. *)
Definition write_other (tag : string) (g : SpectrumGenerator)
    (filename : string) : M unit :=
  fun w => (ok tt, set_files w (<[filename := OtherFile tag]> (files w))).

(** *** Construction *)

Section Construction.

(** yt's [AbsorptionSpectrum.__init__], called with the instrument's
    [lambda_min], [lambda_max] and [n_lambda]: the wavelength bins it lays
    out.  It leaves the flux field unset and the line list empty. *)
Variable AbsorptionSpectrum_init : Instrument -> result (list Q).

(** [LineDatabase(line_database)] (line_database.py is not among the
    sources). *)
Variable LineDatabase_init : string -> World -> result (list Line).

(** [os.listdir] *)
Definition listdir (dir : string) (w : World) : result (list string) :=
  match directories w !! dir with
  | Some l => ok l
  | None => raise (OSError "No such file or directory")
  end.

Definition ion_balance_path (w : World) (file : string) : string :=
  path_join (path_join (path_join (path_join (module_dir w) "..") "data")
                       "ion_balance") file.

(** The instrument that [__init__] hands to [set_instrument]. *)
Definition init_instrument (instrument : instrument_arg)
    (lambda_min lambda_max : option Q) (n_lambda : option Z)
    (dlambda : option Q) (lsf_kernel : option string) : M instrument_arg :=
  match instrument, lambda_min with
  | ArgNone, None =>
      let! _ := info "No parameters specified, defaulting to COS instrument." in
      Mret (ArgStr "COS")
  | ArgNone, _ =>
      let! i := lift (Instrument_init lambda_min lambda_max n_lambda dlambda
                                      lsf_kernel "Custom") in
      Mret (ArgInstrument i)
  | _, _ => Mret instrument
  end.

(** The choice of the ionization table when none is named. *)
Definition default_ionization_table : M string :=
  fun w =>
    let table_dir := path_join (module_dir w) "../data/ion_balance" in
    match listdir table_dir w with
    | inl e => (inl e, w)
    | inr filelist =>
        let ion_files := List.filter (fun i => endswith i ".h5") filelist in
        if existsb (String.eqb "hm2012_hr.h5") ion_files
        then (ok (ion_balance_path w "hm2012_hr.h5"), w)
        else if existsb (String.eqb "hm2012_lr.h5") ion_files
        then (ok (ion_balance_path w "hm2012_lr.h5"), w)
        else match ion_files with
             | [] => (raise (IndexError "list index out of range"), w)
             | f :: _ =>
                 (ok (ion_balance_path w f),
                  mylog_info ("No ionization file specified, using " +:+ f) w)
             end
    end.

(** The first statements of [__init__], up to [self.set_instrument]. *)
Definition resolve_instrument (instrument : instrument_arg)
    (lambda_min lambda_max : option Q) (n_lambda : option Z)
    (dlambda : option Q) (lsf_kernel : option string) : M Instrument :=
  let! instrument := init_instrument instrument lambda_min lambda_max
                                     n_lambda dlambda lsf_kernel in
  lift (set_instrument_value instrument).

Definition __init__ (instrument : instrument_arg)
    (lambda_min lambda_max : option Q) (n_lambda : option Z)
    (dlambda : option Q) (lsf_kernel : option string)
    (line_database : string) (ionization_table : option string)
  : M SpectrumGenerator :=
  let! self_instrument := resolve_instrument instrument lambda_min lambda_max
                                             n_lambda dlambda lsf_kernel in
  let! _ := info ("Setting instrument to " +:+ name self_instrument) in
  let! bins := lift (AbsorptionSpectrum_init self_instrument) in
  let! db := reading (LineDatabase_init line_database) in
  let! table :=
    match ionization_table with
    | Some _ => lift (raise (NameError "global name 'filename' is not defined"))
    | None => default_ionization_table
    end in
  Mret (mkGenerator self_instrument bins None db table []).

End Construction.

(** *** Field resolution in make_spectrum *)

(** The element and the level that the fallback reads off a field name:
    [on_ion] and [my_lev]. *)
Definition ion_of_field (field : string) : result (list string * Z) :=
  let my_ion := PyStr.slice_to field (PyStr.find field "number_density") in
  let on_ion := PyStr.split "_" my_ion in
  let* suffix := getitem on_ion 1 in
  match suffix with
  | EmptyString => ok (on_ion, 1%Z)
  | _ =>
      let* n := PyStr.int (PyStr.slice_from_1 suffix) in
      ok (on_ion, (n + 1)%Z)
  end.

(** A name part as the convention has it: no underscore inside. *)
Fixpoint no_underscore (s : string) : bool :=
  match s with
  | EmptyString => true
  | String c s' => negb (Ascii.eqb c "_") && no_underscore s'
  end.

Section Synthesis.

(** The dataset of the sightline, which belongs to yt. *)
Variable Dataset : Type.
(** Whether [ad._determine_fields(field)] finds the field. *)
Variable determine_fields : Dataset -> string -> bool.
Variable derived_field_list : Dataset -> list string.
(** The ion-balance collaborator (ion_balance.py is not among the
    sources). *)
Variable add_ion_number_density_field :
  string -> Z -> string -> Dataset -> result Dataset.
Variable atomic_mass : list (string * Q).

(** The local variables [on_ion] and [my_lev], unbound at first. *)
Definition locals : Type := option (list string) * option Z.

Definition unbound (v : string) : exn :=
  UnboundLocalError ("local variable '" +:+ v +:+ "' referenced before assignment").

(** The [except] branch of the loop body. *)
Definition derive_field (g : SpectrumGenerator) (loc : locals)
    (field : string) (ds : Dataset) : result (locals * Dataset) :=
  let* loc :=
    if negb (existsb (String.eqb field) (derived_field_list ds))
    then let* r := ion_of_field field in ok (Some (fst r), Some (snd r))
    else ok loc in
  let* on_ion := match fst loc with Some o => ok o | None => raise (unbound "on_ion") end in
  let* element := getitem on_ion 0 in
  let* my_lev := match snd loc with Some l => ok l | None => raise (unbound "my_lev") end in
  let* ds := add_ion_number_density_field element my_lev (ionization_table g) ds in
  ok (loc, ds).

(** One turn of the loop over the active lines. *)
Definition resolve_line (st : SpectrumGenerator * locals * Dataset) (line : Line)
  : result (SpectrumGenerator * locals * Dataset) :=
  let '(g, loc, ds) := st in
  let* r := if determine_fields ds (field line) then ok (loc, ds)
            else derive_field g loc (field line) ds in
  let* mass := match dict_get atomic_mass (element line) with
               | Some m => ok m
               | None => raise (KeyError (element line))
               end in
  ok (with_line g (mkRegisteredLine (identifier line) (field line)
                     (wavelength line) (f_value line) (gamma line) mass 1000),
      fst r, snd r).

Fixpoint resolve_lines (st : SpectrumGenerator * locals * Dataset)
    (active_lines : list Line) : result (SpectrumGenerator * locals * Dataset) :=
  match active_lines with
  | [] => ok st
  | line :: rest => let* st := resolve_line st line in resolve_lines st rest
  end.

(** [line_database.parse_subset] and the deposition engine,
    [AbsorptionSpectrum.make_spectrum]. *)
Variable parse_subset : list Line -> option (list string) -> result (list Line).
Variable deposit : SpectrumGenerator -> Dataset -> result (list npfloat).

Definition make_spectrum (g : SpectrumGenerator) (input_ds : Dataset)
    (lines : option (list string)) : result (SpectrumGenerator * Dataset) :=
  let* active_lines := parse_subset (line_database g) lines in
  let* st := resolve_lines (g, (None, None), input_ds) active_lines in
  let g := fst (fst st) in
  let ds := snd st in
  let* flux := deposit g ds in
  ok (with_flux_field g (Some flux), ds).

End Synthesis.

(** ** The template stages on IEEE doubles

    numpy computes with binary64.  This module repeats
    [_get_qso_spectrum], [_get_milky_way_foreground] and the two stages
    that multiply by them on primitive doubles: every subtraction,
    division, product and sum is a separate element-wise operation that
    rounds to the nearest double.  The table is the array [data] that
    [np.loadtxt] returned, given by its rows, which are of one width; the
    bins and the flux field are the arrays of the generator.  The search
    of [digitize] is given by what it returns on monotonic bins when
    neither the bins nor the target are [nan], for which numpy has an
    ordering of its own; the properties below ask for arrays without
    [nan]. *)

Module Binary64.

Import PrimFloat.

#[local] Set Warnings "-inexact-float".

(** [a >= 0], which [-0.0] and [inf] satisfy and [nan] does not. *)
Definition nonneg (a : float) : bool := leb zero a.

(** Neither [nan] nor [inf]. *)
Definition finite (a : float) : bool := ltb (abs a) infinity.

(** An array without [nan], the only double that differs from itself. *)
Definition no_nan (a : list float) : bool := forallb (fun v => eqb v v) a.

Fixpoint no_descent (last : float) (a : list float) : bool :=
  match a with
  | [] => true
  | next :: r => if ltb next last then false else no_descent next r
  end.

Fixpoint no_ascent (last : float) (a : list float) : bool :=
  match a with
  | [] => true
  | next :: r => if ltb last next then false else no_ascent next r
  end.

Fixpoint skip_repeated (last : float) (a : list float) : list float :=
  match a with
  | [] => []
  | x :: r => if eqb x last then skip_repeated last r else a
  end.

Definition check_array_monotonic (a : list float) : Z :=
  match a with
  | [] => 1%Z
  | last :: r =>
      match skip_repeated last r with
      | [] => 1%Z
      | next :: r' =>
          if ltb last next
          then (if no_descent next r' then 1%Z else 0%Z)
          else (if no_ascent next r' then (-1)%Z else 0%Z)
      end
  end.

Definition searchsorted_right (bins : list float) (x : float) : nat :=
  List.length (List.filter (fun b => leb b x) bins).

Definition digitize1 (mono : Z) (bins : list float) (x : float) : Z :=
  if (mono =? -1)%Z
  then (Z.of_nat (List.length bins)
        - Z.of_nat (searchsorted_right (List.rev bins) x))%Z
  else Z.of_nat (searchsorted_right bins x).

Definition digitize (xs bins : list float) : result (list Z) :=
  let mono := check_array_monotonic bins in
  if (mono =? 0)%Z
  then raise (ValueError "bins must be monotonically increasing or decreasing")
  else ok (List.map (digitize1 mono bins) xs).

(** [data[:, c]] *)
Definition column (data : list (list float)) (c : nat) : result (list float) :=
  match data with
  | r0 :: _ :: _ =>
      if (List.length r0 <? 2)%nat
      then raise (IndexError "too many indices for array")
      else if (c <? List.length r0)%nat
           then ok (List.map (fun r => List.nth c r zero) data)
           else raise (IndexError "index out of bounds")
  | _ => raise (IndexError "too many indices for array")
  end.

(** [slope], for one entry *)
Definition slope (f_i f_p l_i l_p : float) : float :=
  ((f_i - f_p) / (l_i - l_p))%float.

(** One entry of [my_flux]. *)
Definition interpolate1 (lam flux : list float) (x : float) (i : Z)
  : result float :=
  let* f_i := getitem flux i in
  let* f_p := getitem flux (i - 1)%Z in
  let* l_i := getitem lam i in
  let* l_p := getitem lam (i - 1)%Z in
  ok (slope f_i f_p l_i l_p * (x - l_i) + f_i)%float.

Definition interpolate (lam flux targets : list float) : result (list float) :=
  let* index := digitize targets lam in
  let index := clip index 1 (Z.of_nat (List.length lam) - 1) in
  mapM (fun xi => interpolate1 lam flux (fst xi) (snd xi))
       (List.combine targets index).

(** The row that [interpolate] uses for a target. *)
Definition row_of (lam : list float) (x : float) : Z :=
  clip1 1 (Z.of_nat (List.length lam) - 1)
        (digitize1 (check_array_monotonic lam) lam x).

(** [qso_lambda += qso_lambda * redshift] *)
Definition shifted (redshift : float) (qso_lambda : list float) : list float :=
  List.map (fun l => (l + l * redshift)%float) qso_lambda.

Definition _get_qso_spectrum (lambda_bins : list float)
    (data : list (list float)) (redshift : float) : result (list float) :=
  let* qso_lambda := column data 0 in
  let qso_lambda := shifted redshift qso_lambda in
  let* qso_flux := column data 1 in
  interpolate qso_lambda qso_flux lambda_bins.

Definition MW_limit : float := 1799.9444%float.

Definition _get_milky_way_foreground (lambda_bins : list float)
    (data : list (list float)) : result (list float) :=
  let* MW_lambda := column data 0 in
  let* MW_flux := column data 1 in
  let* my_flux := interpolate MW_lambda MW_flux lambda_bins in
  ok (map2 (fun x y => if ltb MW_limit x then one else y) lambda_bins my_flux).

(** [flux_field *= spectrum] *)
Definition multiply_in_place (out other : list float) : result (list float) :=
  if Nat.eqb (List.length other) (List.length out)
  then ok (map2 mul out other)
  else match other with
       | [y] => ok (List.map (fun x => mul x y) out)
       | _ => raise (ValueError "operands could not be broadcast together")
       end.

(** The two stages, returning the content of [flux_field] as they leave
    it. *)
Definition add_qso_spectrum (flux_field lambda_bins : list float)
    (data : list (list float)) (redshift : float) : result (list float) :=
  let* qso_spectrum := _get_qso_spectrum lambda_bins data redshift in
  multiply_in_place flux_field qso_spectrum.

Definition add_milky_way_foreground (flux_field lambda_bins : list float)
    (data : list (list float)) : result (list float) :=
  let* MW_spectrum := _get_milky_way_foreground lambda_bins data in
  multiply_in_place flux_field MW_spectrum.

(** Tables and grids for concrete runs. *)

(** Rows (1000, 0.1) and (1003, 0.7). *)
Definition rising_rows : list (list float) :=
  [ [1000%float; 0.1%float]; [1003%float; 0.7%float] ].

(** Rows (1000, 0) and (1007, 0.9): no flux is negative. *)
Definition ramp_rows : list (list float) :=
  [ [1000%float; 0%float]; [1007%float; 0.9%float] ].

(** Rows (1003, 0.7), (1000, 0.1) and (990, 0.3), read downwards. *)
Definition falling_rows : list (list float) :=
  [ [1003%float; 0.7%float]; [1000%float; 0.1%float]; [990%float; 0.3%float] ].

(** A foreground, rows (1799.9, 0.7) and (1799.9444, 0.8). *)
Definition mw_rows : list (list float) :=
  [ [1799.9%float; 0.7%float]; [1799.9444%float; 0.8%float] ].



Definition minus_half_epsilon : float := (-1.1102230246251565e-16)%float.

Definition at_1000 : list float := [1000%float].

Definition at_1003 : list float := [1003%float].

Definition at_1800 : list float := [1800%float].

Definition unit_flux : list float := [one].

End Binary64.

(** ** Concrete worlds and generators *)

Module Examples.

Local Open Scope string_scope.

Definition COS : Instrument :=
  preset 1150 1450 (1 # 100) (Some "avg_COS.txt") "COS".

Definition world_of (fs : gmap string file) : World :=
  mkWorld fs (<["trident/../data/ion_balance" := ["hm2012_hr.h5"; "README"]]> ∅)
          [] (fun k => inject_Z (Z.of_nat k) - 1) (fun _ _ => 0) "trident".

Definition generator (bins : list Q) (flux : option (list npfloat))
  : SpectrumGenerator := mkGenerator COS bins flux [] "hm2012_hr.h5" [].

(** A foreground table whose last row sits at the coverage limit. *)
Definition mw_rows : list (list Q) :=
  [ [17999 # 10; 7 # 10]; [17999444 # 10000; 8 # 10] ].

Definition mw_world : World := world_of (<["mw.txt" := TextFile mw_rows]> ∅).

(** A continuum that falls from 1 to 0 between 1000 and 1001 angstrom. *)
Definition qso_rows : list (list Q) := [ [1000; 1]; [1001; 0] ].

Definition qso_world : World := world_of (<["qso.txt" := TextFile qso_rows]> ∅).

(** A boxcar of width three. *)
Definition boxcar3 : list Q := [1 # 3; 1 # 3; 1 # 3].

(** Collaborators for a concrete run: a grid of the two extrema, an empty
    line database, a kernel reader that knows the boxcar. *)
Definition two_point_grid (i : Instrument) : result (list Q) :=
  ok [lambda_min i; lambda_max i].

Definition no_lines (file : string) (w : World) : result (list Line) := ok [].

(** Some variates for a seed, and a second world whose random state and
    entropy differ from those of [world_of]. *)
Definition variates (s : Z) (k : nat) : Q :=
  (inject_Z (s mod 7) - 3) / inject_Z (Z.of_nat k + 1).

Definition other_world : World :=
  mkWorld ∅ ∅ [] (fun k => inject_Z (Z.of_nat k) + 40) (fun _ _ => 1 # 3) "trident".

Definition boxcar_reader (function : option string) (width : option Z)
    (filename : option string) (w : World) : result (list Q) := ok boxcar3.





Definition falling_rows : list (list Q) := [ [1001; 0]; [1000; 1]; [990; 3] ].


(** A sharpening kernel: its side lobes are negative. *)
Definition sharpening : list Q := [- (1 # 2); 2; - (1 # 2)].

Definition sharpening_reader (function : option string) (width : option Z)
    (filename : option string) (w : World) : result (list Q) := ok sharpening.

End Examples.

(** * Properties *)

(** ** The error monad and indexing *)

Lemma getitem_in_range {A} (a : list A) (i : Z) :
  (0 <= i < Z.of_nat (List.length a))%Z ->
  exists v, getitem a i = ok v /\ a !! Z.to_nat i = Some v.
Proof.
  intros [Hlo Hhi]. unfold getitem.
  destruct (Z.ltb_spec i 0) as [Hneg|_]; [lia|].
  destruct (Z.ltb_spec i 0) as [Hneg|_]; [lia|].
  destruct (Z.leb_spec (Z.of_nat (List.length a)) i) as [Hge|_]; [lia|].
  cbn [orb].
  destruct (a !! Z.to_nat i) as [v|] eqn:Hv.
  - exists v; split; reflexivity.
  - apply lookup_ge_None in Hv. lia.
Qed.

Lemma ok_inj {A} (a b : A) : @ok A a = ok b -> a = b.
Proof. intros H; injection H; trivial. Qed.

Lemma mapM_Forall2 {A B} (f : A -> result B) (l : list A) (r : list B) :
  mapM f l = ok r <-> Forall2 (fun a b => f a = ok b) l r.
Proof.
  revert r. induction l as [|a l IH]; intros r; cbn.
  - split.
    + intros H; injection H as <-; constructor.
    + intros H; inversion H; reflexivity.
  - split.
    + destruct (f a) as [e|b] eqn:Hfa; cbn; [discriminate|].
      destruct (mapM f l) as [e|bs] eqn:Hm; cbn; [discriminate|].
      intros H; injection H as <-. constructor; [assumption|].
      apply IH; reflexivity.
    + intros H; inversion H as [|? b ? bs Hfa Hrest]; subst.
      rewrite Hfa; cbn. apply IH in Hrest. rewrite Hrest; reflexivity.
Qed.

Lemma mapM_total {A B} (f : A -> result B) (l : list A) :
  (forall a, a ∈ l -> exists b, f a = ok b) ->
  exists r, mapM f l = ok r.
Proof.
  induction l as [|a l IH]; intros H; cbn.
  - eexists; reflexivity.
  - destruct (H a) as [b Hb]; [left|]. rewrite Hb; cbn.
    destruct IH as [r Hr]; [intros a' Ha'; apply H; right; exact Ha'|].
    rewrite Hr; cbn. eexists; reflexivity.
Qed.

Lemma column_length (data : list (list Q)) (c : nat) (l : list Q) :
  column data c = ok l ->
  List.length l = List.length data /\ (2 <= List.length data)%nat.
Proof.
  unfold column. destruct data as [|r0 [|r1 rest]]; try discriminate.
  destruct (List.length r0 <? 2)%nat; [discriminate|].
  destruct (c <? List.length r0)%nat; [|discriminate].
  intros H; injection H as <-. cbn. rewrite List.length_map. split; lia.
Qed.

Lemma clip1_range (hi i : Z) :
  (1 <= hi)%Z -> (1 <= clip1 1 hi i <= hi)%Z.
Proof. unfold clip1. lia. Qed.

(** ** Interpolation always finds its rows *)

Lemma interpolate1_rows (lam flux : list Q) (x : Q) (i : Z) :
  List.length lam = List.length flux ->
  (1 <= i <= Z.of_nat (List.length lam) - 1)%Z ->
  exists f_i f_p l_i l_p,
    flux !! Z.to_nat i = Some f_i /\
    flux !! Z.to_nat (i - 1) = Some f_p /\
    lam !! Z.to_nat i = Some l_i /\
    lam !! Z.to_nat (i - 1) = Some l_p /\
    interpolate1 lam flux x i =
      ok (fadd (fmul (qdiv (f_i - f_p) (l_i - l_p)) (Finite (x - l_i)))
               (Finite f_i)).
Proof.
  intros Hlen Hi. unfold interpolate1.
  destruct (getitem_in_range flux i) as [f_i [E1 L1]]; [lia|].
  destruct (getitem_in_range flux (i - 1)) as [f_p [E2 L2]]; [lia|].
  destruct (getitem_in_range lam i) as [l_i [E3 L3]]; [lia|].
  destruct (getitem_in_range lam (i - 1)) as [l_p [E4 L4]]; [lia|].
  exists f_i, f_p, l_i, l_p.
  rewrite E1, E2, E3, E4. cbn. repeat split; assumption.
Qed.

Lemma row_of_range (lam : list Q) (x : Q) :
  (2 <= List.length lam)%nat ->
  (1 <= row_of lam x <= Z.of_nat (List.length lam) - 1)%Z.
Proof. intros H. unfold row_of. apply clip1_range. lia. Qed.

Lemma combine_map_r {A B} (f : A -> B) (l : list A) :
  List.combine l (List.map f l) = List.map (fun a => (a, f a)) l.
Proof. induction l as [|a l IH]; cbn; [reflexivity|]. now rewrite IH. Qed.

Lemma interpolate_rows (lam flux targets : list Q) :
  List.length lam = List.length flux ->
  (2 <= List.length lam)%nat ->
  check_array_monotonic lam <> 0%Z ->
  exists r,
    interpolate lam flux targets = ok r /\
    Forall2 (fun x y => interpolate1 lam flux x (row_of lam x) = ok y) targets r.
Proof.
  intros Hlen Hn Hmono. unfold interpolate, digitize.
  destruct (Z.eqb_spec (check_array_monotonic lam) 0) as [E|_]; [contradiction|].
  cbn. unfold clip. rewrite List.map_map, combine_map_r.
  destruct (mapM_total
              (fun xi : Q * Z => interpolate1 lam flux (fst xi) (snd xi))
              (List.map (fun a => (a, row_of lam a)) targets)) as [r Hr].
  { intros [x i] Hin. apply list_elem_of_In, List.in_map_iff in Hin.
    destruct Hin as [a [Ha _]]. injection Ha as <- <-. cbn.
    destruct (interpolate1_rows lam flux a (row_of lam a) Hlen
                (row_of_range lam a Hn)) as (?&?&?&?&_&_&_&_&E).
    eexists; exact E. }
  exists r. split; [exact Hr|].
  apply mapM_Forall2 in Hr.
  apply Forall2_fmap_l in Hr. exact Hr.
Qed.

Lemma map2_length {A B C} (f : A -> B -> C) (a : list A) (b : list B) :
  List.length a = List.length b ->
  List.length (map2 f a b) = List.length a.
Proof.
  revert b. induction a as [|x a IH]; intros [|y b] H; cbn in *; try lia.
  rewrite IH; lia.
Qed.

Lemma map2_lookup {A B C} (f : A -> B -> C) (a : list A) (b : list B)
    (i : nat) (x : A) (y : B) :
  a !! i = Some x -> b !! i = Some y -> map2 f a b !! i = Some (f x y).
Proof.
  revert b i. induction a as [|x' a IH]; intros [|y' b] [|i] Ha Hb;
    cbn in *; try discriminate.
  - congruence.
  - apply IH; assumption.
Qed.

(** ** C1: the Milky-Way foreground beyond its coverage limit *)




(** ** C9: set_instrument *)



(** ** C4: construction without an instrument *)

(** C4, as stated, fails: with neither an instrument nor a lower bound
    the constructor does not raise; it logs the default and builds a COS
    generator. *)
Lemma construction_defaults_to_COS :
  __init__ Examples.two_point_grid Examples.no_lines
           ArgNone None None None None None "lines.txt" None
           (Examples.world_of ∅)
  = (ok (mkGenerator Examples.COS [1150; 1450] None []
                     "trident/../data/ion_balance/hm2012_hr.h5" []),
     mylog_info "Setting instrument to COS"
       (mylog_info "No parameters specified, defaulting to COS instrument."
          (Examples.world_of ∅))).
Proof. vm_compute. reflexivity. Qed.

(** C4 (amended): resolving the instrument raises the RuntimeError of
    [set_instrument] for a name that is not a preset and for an argument
    that is neither a name nor an instrument; with no instrument but a
    lower bound the outcome is that of the [Instrument] constructor; and
    with neither an instrument nor a lower bound it does not fail but
    selects the COS preset and logs that default. *)
Theorem resolve_instrument_outcomes
    (lambda_max : option Q) (n_lambda : option Z) (dlambda : option Q)
    (kernel : option string) (w : World) :
  resolve_instrument ArgNone None lambda_max n_lambda dlambda kernel w
    = (ok Examples.COS,
       mylog_info "No parameters specified, defaulting to COS instrument." w) /\
  (forall (s : string) (lambda_min : option Q),
     dict_get valid_instruments s = None ->
     resolve_instrument (ArgStr s) lambda_min lambda_max n_lambda dlambda kernel w
       = (raise set_instrument_error, w)) /\
  (forall lambda_min : option Q,
     resolve_instrument ArgOther lambda_min lambda_max n_lambda dlambda kernel w
       = (raise set_instrument_error, w)) /\
  (forall lo : Q,
     resolve_instrument ArgNone (Some lo) lambda_max n_lambda dlambda kernel w
       = (Instrument_init (Some lo) lambda_max n_lambda dlambda kernel "Custom", w)).
Proof.
  split; [reflexivity|]. split; [|split].
  - intros s lo Hs.
    cbv beta iota delta [resolve_instrument Mbind init_instrument Mret lift
                         set_instrument_value ok].
    rewrite Hs; reflexivity.
  - intros [lo|]; reflexivity.
  - intros lo. unfold resolve_instrument, Mbind, init_instrument, lift.
    destruct (Instrument_init _ _ _ _ _ _); reflexivity.
Qed.

Lemma resolve_instrument_outcomes_witness :
  resolve_instrument (ArgStr "bogus") None None None None None (Examples.world_of ∅)
    = (raise set_instrument_error, Examples.world_of ∅).
Proof.
  apply (resolve_instrument_outcomes None None None None (Examples.world_of ∅)).
  reflexivity.
Defined.

(** ** C10: the format of a saved spectrum *)

Section SaveFormat.

Variables hdf5 fits ascii : SpectrumGenerator -> string -> M unit.

(** C10: an explicit format other than 'HDF5', 'FITS' and 'ASCII' logs a
    warning and then runs the ASCII writer, adding no failure of its own;
    each of the three recognised formats selects its writer whatever the
    file name ends in. *)
Theorem save_spectrum_explicit_format
    (g : SpectrumGenerator) (filename : string) (w : World) :
  (forall fmt : string,
     fmt <> "HDF5"%string -> fmt <> "FITS"%string -> fmt <> "ASCII"%string ->
     save_spectrum hdf5 fits ascii g filename (Some fmt) w
       = ascii g filename
           (mylog_warn
              "Invalid format.  Must be 'HDF5', 'FITS', 'ASCII'. Defaulting to ASCII." w)) /\
  save_spectrum hdf5 fits ascii g filename (Some "HDF5"%string) w = hdf5 g filename w /\
  save_spectrum hdf5 fits ascii g filename (Some "FITS"%string) w = fits g filename w /\
  save_spectrum hdf5 fits ascii g filename (Some "ASCII"%string) w = ascii g filename w.
Proof.
  split; [|repeat split; reflexivity].
  intros fmt H1 H2 H3. unfold save_spectrum.
  destruct (String.eqb_spec fmt "HDF5"); [contradiction|].
  destruct (String.eqb_spec fmt "FITS"); [contradiction|].
  destruct (String.eqb_spec fmt "ASCII"); [contradiction|].
  reflexivity.
Qed.

End SaveFormat.

Lemma save_spectrum_explicit_format_witness :
  save_spectrum write_hdf5 (write_other "fits") (write_other "ascii")
      (Examples.generator [1150; 1450] (Some [Finite 1; Finite 1]))
      "spectrum.h5" (Some "csv"%string) (Examples.world_of ∅)
  = write_other "ascii"
      (Examples.generator [1150; 1450] (Some [Finite 1; Finite 1]))
      "spectrum.h5"
      (mylog_warn
         "Invalid format.  Must be 'HDF5', 'FITS', 'ASCII'. Defaulting to ASCII."
         (Examples.world_of ∅)).
Proof.
  apply (save_spectrum_explicit_format write_hdf5 (write_other "fits")
           (write_other "ascii")); discriminate.
Defined.

(** ** C7: saving to HDF5 and loading again *)

Lemma finite_values_Finite (l : list Q) :
  finite_values (List.map Finite l) = Some l.
Proof. induction l as [|q l IH]; cbn; [reflexivity|]. now rewrite IH. Qed.

(** What the reader needs of a written file. *)
Lemma load_spectrum_of_datasets (g0 : SpectrumGenerator) (filename : string)
    (w : World) (d : gmap string (list npfloat)) (l : list Q) (f : list npfloat) :
  endswith filename ".h5" = true ->
  files w !! filename = Some (Hdf5File d) ->
  d !! "wavelength"%string = Some (List.map Finite l) ->
  d !! "flux"%string = Some f ->
  load_spectrum g0 (Some filename) w = ok (with_spectrum g0 l (Some f)).
Proof.
  intros Hext Hfile Hl Hf. unfold load_spectrum, h5py_open, h5py_value.
  rewrite Hext, Hfile; cbn. rewrite Hl; cbn. rewrite Hf; cbn.
  rewrite finite_values_Finite. reflexivity.
Qed.

Section RoundTrip.

Variables fits ascii : SpectrumGenerator -> string -> M unit.

(** C7: a generator that holds a spectrum saves it to a name ending in
    '.h5' (format left to the extension, or 'HDF5') without error, and
    loading that file gives back the wavelength array and the flux array
    entry for entry. *)
Theorem save_then_load_h5
    (g g0 : SpectrumGenerator) (filename : string) (format : option string)
    (f : list npfloat) (w : World) :
  endswith filename ".h5" = true ->
  format = None \/ format = Some "HDF5"%string ->
  flux_field g = Some f ->
  exists w' g',
    save_spectrum write_hdf5 fits ascii g filename format w = (ok tt, w') /\
    load_spectrum g0 (Some filename) w' = ok g' /\
    lambda_bins g' = lambda_bins g /\
    flux_field g' = flux_field g.
Proof.
  intros Hext Hfmt Hflux.
  assert (Hsave : save_spectrum write_hdf5 fits ascii g filename format w
                  = write_hdf5 g filename w).
  { destruct Hfmt as [-> | ->]; unfold save_spectrum; [rewrite Hext|]; reflexivity. }
  rewrite Hsave. unfold write_hdf5. rewrite Hflux.
  eexists. exists (with_spectrum g0 (lambda_bins g) (Some f)).
  split; [reflexivity|]. split; [|split; reflexivity].
  eapply load_spectrum_of_datasets; [exact Hext | | |].
  - cbn. apply lookup_insert_eq.
  - rewrite lookup_insert_ne by discriminate. apply lookup_insert_eq.
  - apply lookup_insert_eq.
Qed.

End RoundTrip.

Lemma save_then_load_h5_witness :
  exists w' g',
    save_spectrum write_hdf5 (write_other "fits") (write_other "ascii")
        (Examples.generator [1150; 1450] (Some [Finite 1; Finite (1 # 2)]))
        "x.h5" None (Examples.world_of ∅) = (ok tt, w') /\
    load_spectrum (Examples.generator [] None) (Some "x.h5"%string) w' = ok g' /\
    lambda_bins g' = [1150; 1450] /\
    flux_field g' = Some [Finite 1; Finite (1 # 2)].
Proof.
  apply (save_then_load_h5 (write_other "fits") (write_other "ascii")
           (Examples.generator [1150; 1450] (Some [Finite 1; Finite (1 # 2)]))
           (Examples.generator [] None) "x.h5" None [Finite 1; Finite (1 # 2)]).
  - reflexivity.
  - left; reflexivity.
  - reflexivity.
Defined.

(** ** C5: seeded noise *)

(** What a call of [add_gaussian_noise] returns: [out], or the error. *)
Lemma noise_outcome_eq (gauss_stream : Z -> nat -> Q)
    (g : SpectrumGenerator) (snr : Q) (n_bins : option Z)
    (out : option (list npfloat)) (s : Z) (w : World) :
  fst (add_gaussian_noise gauss_stream g snr n_bins out (Some s) w)
  = (if ((0 <=? s) && (s <? 2 ^ 32))%Z
     then
       if Qeq_bool snr 0 then raise (ZeroDivisionError "float division by zero")
       else
         let n := match n_bins with
                  | None => Z.of_nat (List.length (lambda_bins g))
                  | Some n => n
                  end in
         if Qlt_bool (1 / snr) 0 then raise (ValueError "scale < 0")
         else if (n <? 0)%Z
              then raise (ValueError "negative dimensions are not allowed")
              else
                let* new :=
                  add_in_place (target_array g out)
                    (List.map (fun k => Finite (0 + (1 / snr) * gauss_stream s k))
                              (List.seq 0 (Z.to_nat n))) in
                ok (after_update g out new, new)
     else raise (ValueError "Seed must be between 0 and 2**32 - 1")).
Proof.
  unfold add_gaussian_noise, Mbind, random_seed, lift, random_normal, Mret,
    Py.bind, ok, raise.
  destruct ((0 <=? s) && (s <? 2 ^ 32))%Z; [|reflexivity].
  destruct (Qeq_bool snr 0); [reflexivity|].
  destruct (Qlt_bool (1 / snr) 0); [reflexivity|].
  match goal with |- context [(?n <? 0)%Z] => destruct (n <? 0)%Z end;
    [reflexivity|].
  cbn [rng set_rng].
  destruct (add_in_place _ _); reflexivity.
Qed.

(** C5: with a seed, what [add_gaussian_noise] returns depends on the seed,
    [snr], the number of draws and the input array only: two calls that
    agree on these return the same array (or raise the same error),
    whatever the state of the random generator and of the rest of the world
    was before each call. *)
Theorem seeded_noise_reproducible (gauss_stream : Z -> nat -> Q)
    (g1 g2 : SpectrumGenerator) (snr : Q) (n_bins : option Z)
    (out1 out2 : option (list npfloat)) (s : Z) (w1 w2 : World) :
  target_array g1 out1 = target_array g2 out2 ->
  (n_bins = None -> List.length (lambda_bins g1) = List.length (lambda_bins g2)) ->
  returned_array (add_gaussian_noise gauss_stream g1 snr n_bins out1 (Some s) w1)
  = returned_array (add_gaussian_noise gauss_stream g2 snr n_bins out2 (Some s) w2).
Proof.
  intros Hout Hn. unfold returned_array.
  rewrite !noise_outcome_eq.
  assert (Hsize : match n_bins with
                  | None => Z.of_nat (List.length (lambda_bins g1))
                  | Some n => n
                  end
                  = match n_bins with
                    | None => Z.of_nat (List.length (lambda_bins g2))
                    | Some n => n
                    end).
  { destruct n_bins; [reflexivity|]. now rewrite Hn. }
  cbv zeta. rewrite Hsize, Hout.
  destruct ((0 <=? s) && (s <? 2 ^ 32))%Z; [|reflexivity].
  destruct (Qeq_bool snr 0); [reflexivity|].
  destruct (Qlt_bool (1 / snr) 0); [reflexivity|].
  match goal with |- context [(?n <? 0)%Z] => destruct (n <? 0)%Z end;
    [reflexivity|].
  destruct (add_in_place _ _); reflexivity.
Qed.

Lemma seeded_noise_reproducible_witness :
  returned_array
    (add_gaussian_noise Examples.variates
       (Examples.generator [1150; 1300; 1450] (Some [Finite 1; Finite 1; Finite 1]))
       10 None None (Some 42%Z) (Examples.world_of ∅))
  = returned_array
      (add_gaussian_noise Examples.variates
         (Examples.generator [1; 2; 3] None)
         10 None (Some [Finite 1; Finite 1; Finite 1]) (Some 42%Z)
         Examples.other_world).
Proof.
  apply seeded_noise_reproducible; reflexivity.
Defined.


(** The seeded call of the witness does return an array: each flux plus
    a tenth of its variate. *)
Example seeded_noise_values :
  returned_array
    (add_gaussian_noise Examples.variates
       (Examples.generator [1150; 1300; 1450] (Some [Finite 1; Finite 1; Finite 1]))
       10 None None (Some 42%Z) (Examples.world_of ∅))
  = ok [Finite (7 # 10); Finite (17 # 20); Finite (27 # 30)].
Proof. vm_compute. reflexivity. Qed.

(** ** Convolution: lengths and signs *)

Lemma add_pad_length (a b : list npfloat) :
  List.length (add_pad a b) = Nat.max (List.length a) (List.length b).
Proof.
  revert b. induction a as [|x a IH]; intros [|y b]; cbn; try reflexivity.
  now rewrite IH.
Qed.

Lemma convolve_full_length (a v : list npfloat) :
  a <> [] -> v <> [] ->
  List.length (convolve_full a v) = (List.length a + List.length v - 1)%nat.
Proof.
  intros Ha Hv. induction a as [|x a IH]; [contradiction|].
  destruct v as [|y v]; [contradiction|]. cbn [convolve_full List.map].
  cbn [List.length]. rewrite add_pad_length, List.length_map.
  destruct a as [|x' a].
  - cbn. lia.
  - rewrite IH by discriminate. cbn [List.length]. lia.
Qed.

Lemma convolve_same_length (a v r : list npfloat) :
  convolve_same a v = ok r ->
  List.length r = Nat.max (List.length a) (List.length v).
Proof.
  unfold convolve_same.
  destruct a as [|x a]; [discriminate|]. destruct v as [|y v]; [discriminate|].
  destruct (Nat.ltb_spec (List.length (x :: a)) (List.length (y :: v))) as [Hlt|Hge];
    intros H; apply ok_inj in H; subst r;
    rewrite List.length_firstn, List.length_skipn, convolve_full_length
      by discriminate.
  - set (d := ((List.length (x :: a) - 1) / 2)%nat).
    assert (d <= List.length (x :: a) - 1)%nat
      by (apply Nat.Div0.div_le_upper_bound; lia).
    clearbody d. cbn [List.length] in *. lia.
  - set (d := ((List.length (y :: v) - 1) / 2)%nat).
    assert (d <= List.length (y :: v) - 1)%nat
      by (apply Nat.Div0.div_le_upper_bound; lia).
    clearbody d. cbn [List.length] in *. lia.
Qed.

Lemma convolve_same_total (a v : list npfloat) :
  a <> [] -> v <> [] -> exists r, convolve_same a v = ok r.
Proof.
  intros Ha Hv. unfold convolve_same.
  destruct a; [contradiction|]. destruct v; [contradiction|].
  destruct (_ <? _)%nat; eexists; reflexivity.
Qed.

Lemma nonneg_fmul (a b : npfloat) : nonneg a -> nonneg b -> nonneg (fmul a b).
Proof.
  destruct a as [x|], b as [y|]; cbn; try contradiction.
  apply Qmult_le_0_compat.
Qed.

Lemma nonneg_fadd (a b : npfloat) : nonneg a -> nonneg b -> nonneg (fadd a b).
Proof.
  destruct a as [x|], b as [y|]; cbn; try contradiction.
  intros Hx Hy. lra.
Qed.

Lemma add_pad_nonneg (a b : list npfloat) :
  Forall nonneg a -> Forall nonneg b -> Forall nonneg (add_pad a b).
Proof.
  intros Ha. revert b. induction Ha as [|x a Hx Ha IH]; intros b Hb; [exact Hb|].
  destruct Hb as [|y b Hy Hb]; cbn.
  - constructor; assumption.
  - constructor; [apply nonneg_fadd; assumption | apply IH; assumption].
Qed.

Lemma convolve_full_nonneg (a v : list npfloat) :
  Forall nonneg a -> Forall nonneg v -> Forall nonneg (convolve_full a v).
Proof.
  intros Ha Hv. induction Ha as [|x a Hx Ha IH]; cbn; [constructor|].
  assert (Hp : Forall nonneg (List.map (fmul x) v)).
  { clear IH. induction Hv as [|y v Hy Hv IHv]; cbn; constructor;
      [apply nonneg_fmul; assumption | exact IHv]. }
  destruct (List.map (fmul x) v) as [|p ps]; [constructor|].
  inversion Hp; subst. constructor; [assumption|].
  apply add_pad_nonneg; assumption.
Qed.

Lemma convolve_same_nonneg (a v r : list npfloat) :
  Forall nonneg a -> Forall nonneg v ->
  convolve_same a v = ok r -> Forall nonneg r.
Proof.
  intros Ha Hv. unfold convolve_same.
  destruct a as [|x a]; [discriminate|]. destruct v as [|y v]; [discriminate|].
  destruct (_ <? _)%nat; intros H; apply ok_inj in H; subst r;
    apply Forall_take, Forall_drop, convolve_full_nonneg; assumption.
Qed.

(** ** C2: the length of the convolved flux field *)

(** C2, as stated, fails for a kernel that is longer than the flux field:
    a boxcar of three weights over a flux field of two bins leaves a flux
    field of three entries. *)
Lemma apply_lsf_long_kernel_grows_flux :
  fst (apply_lsf Examples.boxcar_reader
         (Examples.generator [1150; 1450] (Some [Finite 1; Finite 1]))
         (Some "boxcar"%string) (Some 3%Z) None (Examples.world_of ∅))
  = ok (Examples.generator [1150; 1450]
          (Some [Finite (1 # 3); Finite (6 # 9); Finite (6 # 9)])) /\
  List.length [Finite (1 # 3); Finite (6 # 9); Finite (6 # 9)]
  <> List.length [Finite 1; Finite 1].
Proof. split; [vm_compute; reflexivity | discriminate]. Qed.

Lemma apply_lsf_outcome
    (LSF_kernel : option string -> option Z -> option string -> World -> result (list Q))
    (kernel : list Q) (g : SpectrumGenerator) (function : option string)
    (width : option Z) (filename : option string) (w : World) (f : list npfloat) :
  (forall a b c w', LSF_kernel a b c w' = ok kernel) ->
  (function = None -> width = None -> filename = None ->
   lsf_kernel (instrument g) <> None) ->
  flux_field g = Some f ->
  fst (apply_lsf LSF_kernel g function width filename w)
  = let* flux := convolve_same (List.map Finite kernel) f in
    ok (with_flux_field g (Some flux)).
Proof.
  intros HK Hsrc Hf. unfold apply_lsf, Mbind, reading, lift, info, Mret.
  rewrite Hf.
  destruct function, width, filename;
    try (rewrite HK; cbn; destruct (convolve_same _ f); reflexivity).
  destruct (lsf_kernel (instrument g)) as [k|] eqn:Hk.
  - rewrite HK; cbn; destruct (convolve_same _ f); reflexivity.
  - exfalso. apply Hsrc; reflexivity.
Qed.

(** C2 (amended): when a kernel is available, and neither it nor the flux
    field is empty, [apply_lsf] replaces the flux field by one whose length
    is the larger of the two lengths; it is the length of the input flux
    field whenever the kernel is not longer than that. *)
Theorem apply_lsf_length
    (LSF_kernel : option string -> option Z -> option string -> World -> result (list Q))
    (kernel : list Q) (g : SpectrumGenerator) (function : option string)
    (width : option Z) (filename : option string) (w : World) (f : list npfloat) :
  (forall a b c w', LSF_kernel a b c w' = ok kernel) ->
  (function = None -> width = None -> filename = None ->
   lsf_kernel (instrument g) <> None) ->
  flux_field g = Some f ->
  kernel <> [] -> f <> [] ->
  exists g' flux,
    fst (apply_lsf LSF_kernel g function width filename w) = ok g' /\
    flux_field g' = Some flux /\
    List.length flux = Nat.max (List.length kernel) (List.length f) /\
    ((List.length kernel <= List.length f)%nat ->
     List.length flux = List.length f).
Proof.
  intros HK Hsrc Hf Hk Hne.
  rewrite (apply_lsf_outcome _ kernel _ _ _ _ _ f HK Hsrc Hf).
  destruct (convolve_same_total (List.map Finite kernel) f) as [flux Hflux];
    [destruct kernel; [contradiction | discriminate] | exact Hne |].
  rewrite Hflux. cbn.
  exists (with_flux_field g (Some flux)), flux.
  split; [reflexivity|]. split; [reflexivity|].
  apply convolve_same_length in Hflux. rewrite List.length_map in Hflux.
  split; [exact Hflux | lia].
Qed.

Lemma apply_lsf_length_witness :
  exists g' flux,
    fst (apply_lsf Examples.boxcar_reader
           (Examples.generator [1; 2; 3; 4]
              (Some [Finite 1; Finite 1; Finite 0; Finite 1]))
           None None None (Examples.world_of ∅)) = ok g' /\
    flux_field g' = Some flux /\
    List.length flux = Nat.max 3 4 /\
    ((3 <= 4)%nat -> List.length flux = 4%nat).
Proof.
  apply (apply_lsf_length Examples.boxcar_reader Examples.boxcar3
           (Examples.generator [1; 2; 3; 4]
              (Some [Finite 1; Finite 1; Finite 0; Finite 1]))
           None None None (Examples.world_of ∅)
           [Finite 1; Finite 1; Finite 0; Finite 1]).
  - reflexivity.
  - discriminate.
  - reflexivity.
  - discriminate.
  - discriminate.
Defined.

(** ** Strings: finding the marker and splitting at underscores *)

Section FieldNames.

Local Open Scope string_scope.
Local Arguments String.append : simpl nomatch.

Local Abbreviation marker := "number_density" (only parsing).

Ltac step_prefix H :=
  change (String.append EmptyString ?x) with x in H;
  change (String.append (String ?c ?s) ?x) with (String c (String.append s x)) in H;
  cbn [PyStr.startswith] in H;
  match type of H with
  | context [Ascii.eqb ?a ?b] =>
      destruct (Ascii.eqb_spec a b) as [E|E];
      [try discriminate E; try subst; cbn [andb] in H
      | cbn [andb] in H; discriminate H]
  end.

(** The marker can start inside a part without underscores only if that
    part ends in "number" and "density" follows the underscore. *)
Lemma marker_across_underscore (s t : string) :
  no_underscore s = true ->
  PyStr.startswith (s +:+ String "_" t) marker = true ->
  PyStr.startswith t "density" = true.
Proof.
  intros Hs H.
  destruct s as [|c1 s]; [step_prefix H|]. step_prefix H.
  destruct s as [|c2 s]; [step_prefix H|]. step_prefix H.
  destruct s as [|c3 s]; [step_prefix H|]. step_prefix H.
  destruct s as [|c4 s]; [step_prefix H|]. step_prefix H.
  destruct s as [|c5 s]; [step_prefix H|]. step_prefix H.
  destruct s as [|c6 s]; [step_prefix H|]. step_prefix H.
  destruct s as [|c7 s].
  - step_prefix H. exact H.
  - step_prefix H. cbn in Hs. discriminate.
Qed.

Lemma find_from_skips_part (s t : string) (i : nat) :
  no_underscore s = true ->
  PyStr.startswith t "density" = false ->
  PyStr.find_from i (s +:+ String "_" t) marker
  = PyStr.find_from (i + String.length s + 1) t marker.
Proof.
  intros Hs Ht. revert i. induction s as [|c s IH]; intros i.
  - change ("" +:+ String "_" t) with (String "_" t).
    change (PyStr.find_from i (String "_" t) marker)
      with (PyStr.find_from (S i) t marker).
    f_equal. cbn [String.length]. lia.
  - assert (Hp : PyStr.startswith (String c s +:+ String "_" t) marker = false).
    { destruct (PyStr.startswith (String c s +:+ String "_" t) marker) eqn:E;
        [|reflexivity].
      apply marker_across_underscore in E; [congruence | exact Hs]. }
    change (String c s +:+ String "_" t) with (String c (s +:+ String "_" t)) in *.
    cbn [PyStr.find_from]. rewrite Hp.
    cbn [no_underscore] in Hs. apply andb_true_iff in Hs as [_ Hs].
    rewrite IH by exact Hs. f_equal. cbn [String.length]. lia.
Qed.

Lemma find_from_here (i : nat) : PyStr.find_from i marker marker = Z.of_nat i.
Proof. reflexivity. Qed.

Lemma take_chars_app (u t : string) :
  PyStr.take_chars (String.length u) (u +:+ t) = u.
Proof. induction u as [|c u IH]; simpl; [destruct t; reflexivity | now rewrite IH]. Qed.

Lemma slice_to_app (u t : string) :
  PyStr.slice_to (u +:+ t) (Z.of_nat (String.length u)) = u.
Proof.
  unfold PyStr.slice_to.
  destruct (Z.ltb_spec (Z.of_nat (String.length u)) 0) as [H|_]; [lia|].
  rewrite Nat2Z.id. apply take_chars_app.
Qed.

Lemma split_part (s t : string) :
  no_underscore s = true ->
  PyStr.split "_" (s +:+ String "_" t) = s :: PyStr.split "_" t.
Proof.
  induction s as [|c s IH]; intros Hs; [reflexivity|].
  cbn [no_underscore] in Hs. apply andb_true_iff in Hs as [Hc Hs].
  change (String c s +:+ String "_" t) with (String c (s +:+ String "_" t)).
  cbn [PyStr.split].
  destruct (Ascii.eqb c "_"); [discriminate|].
  rewrite IH by exact Hs. reflexivity.
Qed.

Lemma append_assoc (a b c : string) : (a +:+ b) +:+ c = a +:+ (b +:+ c).
Proof. induction a as [|x a IH]; simpl; [reflexivity | now rewrite IH]. Qed.

Lemma length_append (a b : string) :
  String.length (a +:+ b) = (String.length a + String.length b)%nat.
Proof. induction a as [|x a IH]; simpl; [reflexivity | now rewrite IH]. Qed.

(** [int] refuses a string that starts with a letter. *)
Lemma lstrip_keeps_last (l : list ascii) (c : ascii) :
  PyStr.is_space c = false ->
  exists l', PyStr.lstrip (string_of_list_ascii (l ++ [c])%list)
             = string_of_list_ascii (l' ++ [c])%list.
Proof.
  intros Hc. induction l as [|a l IH]; simpl.
  - rewrite Hc. exists []. reflexivity.
  - destruct (PyStr.is_space a); [exact IH|].
    exists (a :: l). reflexivity.
Qed.

Lemma strip_keeps_head (c : ascii) (s : string) :
  PyStr.is_space c = false ->
  exists r, PyStr.strip (String c s) = String c r.
Proof.
  intros Hc. unfold PyStr.strip.
  change (list_ascii_of_string (String c s)) with (c :: list_ascii_of_string s).
  change (List.rev (c :: list_ascii_of_string s))
    with (List.rev (list_ascii_of_string s) ++ [c])%list.
  destruct (lstrip_keeps_last (List.rev (list_ascii_of_string s)) c Hc) as [l' ->].
  rewrite list_ascii_of_string_of_list_ascii, List.rev_app_distr.
  simpl. rewrite Hc. eexists; reflexivity.
Qed.

Lemma int_refuses_e (s : string) (n : Z) :
  PyStr.int (String "e" s) = ok n -> False.
Proof.
  unfold PyStr.int.
  destruct (strip_keeps_head "e" s eq_refl) as [r ->].
  simpl. discriminate.
Qed.

Lemma level_suffix_is_not_density (c : ascii) (ds t : string) (n : Z) :
  PyStr.int ds = ok n ->
  PyStr.startswith (String c ds +:+ String "_" t) "density" = false.
Proof.
  intros Hint.
  destruct (PyStr.startswith (String c ds +:+ String "_" t) "density") eqn:H;
    [exfalso|reflexivity].
  step_prefix H.
  destruct ds as [|c2 ds]; [step_prefix H|]. step_prefix H.
  exact (int_refuses_e _ _ Hint).
Qed.

(** What the fallback reads off a name that follows the convention. *)
Lemma ion_of_field_with_level (e ds : string) (c : ascii) (n : Z) :
  no_underscore e = true ->
  no_underscore (String c ds) = true ->
  PyStr.int ds = ok n ->
  ion_of_field (e +:+ "_" +:+ String c ds +:+ "_number_density")
  = ok ([e; String c ds; ""], (n + 1)%Z).
Proof.
  intros He Hs Hint. unfold ion_of_field.
  change (e +:+ "_" +:+ String c ds +:+ "_number_density")
    with (e +:+ String "_" (String c ds +:+ String "_" marker)).
  unfold PyStr.find.
  rewrite (find_from_skips_part e _ 0 He
             (level_suffix_is_not_density c ds marker n Hint)).
  rewrite (find_from_skips_part (String c ds) marker _ Hs eq_refl).
  rewrite find_from_here.
  replace (e +:+ String "_" (String c ds +:+ String "_" marker))
    with ((e +:+ String "_" (String c ds +:+ "_")) +:+ marker).
  2:{ rewrite append_assoc. f_equal. simpl. f_equal.
      change (String c (ds +:+ "_")) with (String c ds +:+ "_").
      change (String c (ds +:+ String "_" marker))
        with (String c ds +:+ String "_" marker).
      rewrite append_assoc. reflexivity. }
  replace (0 + String.length e + 1 + String.length (String c ds) + 1)%nat
    with (String.length (e +:+ String "_" (String c ds +:+ "_"))).
  2:{ rewrite length_append. simpl. rewrite length_append. simpl. lia. }
  rewrite slice_to_app.
  rewrite (split_part e _ He).
  change (String c ds +:+ "_") with (String c ds +:+ String "_" "").
  rewrite (split_part (String c ds) "" Hs).
  simpl. rewrite Hint. reflexivity.
Qed.

Lemma ion_of_field_without_level (e : string) :
  no_underscore e = true ->
  ion_of_field (e +:+ "_number_density") = ok ([e; ""], 1%Z).
Proof.
  intros He. unfold ion_of_field.
  change (e +:+ "_number_density") with (e +:+ String "_" marker).
  unfold PyStr.find.
  rewrite (find_from_skips_part e marker 0 He eq_refl), find_from_here.
  replace (e +:+ String "_" marker) with ((e +:+ "_") +:+ marker)
    by (rewrite append_assoc; reflexivity).
  replace (0 + String.length e + 1)%nat with (String.length (e +:+ "_"))
    by (rewrite length_append; simpl; lia).
  rewrite slice_to_app.
  change (e +:+ "_") with (e +:+ String "_" "").
  rewrite (split_part e "" He). reflexivity.
Qed.

End FieldNames.

(** ** C8: the level that the fallback requests *)

Section FieldFallback.

Local Open Scope string_scope.

Variable Dataset : Type.
Variable derived_field_list : Dataset -> list string.
Variable add_ion_number_density_field :
  string -> Z -> string -> Dataset -> result Dataset.

(** C8: for a field named <element>_<suffix>_number_density that the
    dataset does not have, the fallback asks the ion-balance collaborator
    for that element at the level [int(suffix[1:]) + 1]; for a field named
    <element>_number_density it asks for level 1. *)
Theorem fallback_requests_level
    (g : SpectrumGenerator) (loc : locals) (ds0 : Dataset)
    (e : string) (c : ascii) (digits : string) (n : Z) :
  no_underscore e = true ->
  (no_underscore (String c digits) = true ->
   PyStr.int digits = ok n ->
   existsb (String.eqb (e +:+ "_" +:+ String c digits +:+ "_number_density"))
           (derived_field_list ds0) = false ->
   derive_field Dataset derived_field_list add_ion_number_density_field g loc
                (e +:+ "_" +:+ String c digits +:+ "_number_density") ds0
   = let* ds := add_ion_number_density_field e (n + 1)%Z (ionization_table g) ds0 in
     ok ((Some [e; String c digits; ""], Some (n + 1)%Z), ds)) /\
  (existsb (String.eqb (e +:+ "_number_density")) (derived_field_list ds0) = false ->
   derive_field Dataset derived_field_list add_ion_number_density_field g loc
                (e +:+ "_number_density") ds0
   = let* ds := add_ion_number_density_field e 1%Z (ionization_table g) ds0 in
     ok ((Some [e; ""], Some 1%Z), ds)).
Proof.
  intros He. split.
  - intros Hs Hint Habsent. unfold derive_field.
    rewrite Habsent, (ion_of_field_with_level e digits c n He Hs Hint).
    reflexivity.
  - intros Habsent. unfold derive_field.
    rewrite Habsent, (ion_of_field_without_level e He).
    reflexivity.
Qed.

End FieldFallback.

(** C_p3_number_density: carbon at level 4. *)
Lemma fallback_requests_level_witness :
  derive_field (list string) (fun ds => ds)
      (fun element level table ds =>
         ok (("ion " +:+ element +:+ " as listed")%string :: ds))
      (Examples.generator [] None) (None, None) "C_p3_number_density"
      ["density"; "temperature"]%string
  = ok ((Some ["C"; "p3"; ""], Some 4%Z),
        ["ion C as listed"; "density"; "temperature"])%string.
Proof.
  apply (fallback_requests_level (list string) (fun ds => ds)
           (fun element level table ds =>
              ok (("ion " +:+ element +:+ " as listed")%string :: ds))
           (Examples.generator [] None) (None, None)
           ["density"; "temperature"]%string "C" "p" "3" 3%Z);
    reflexivity.
Defined.

(** H_number_density: hydrogen at level 1. *)
Example fallback_for_neutral_hydrogen :
  ion_of_field "H_number_density" = ok (["H"; ""]%string, 1%Z) /\
  ion_of_field "C_p3_number_density" = ok (["C"; "p3"; ""]%string, 4%Z).
Proof. split; reflexivity. Qed.

(** ** Searching a strictly increasing table *)

Lemma Qlt_bool_iff (x y : Q) : Qlt_bool x y = true <-> x < y.
Proof.
  unfold Qlt_bool. rewrite negb_true_iff. split.
  - intros H. apply Qnot_le_lt. intros Hle.
    apply Qle_bool_iff in Hle. congruence.
  - intros H. destruct (Qle_bool y x) eqn:E; [|reflexivity].
    apply Qle_bool_iff in E. exfalso. exact (Qlt_not_le _ _ H E).
Qed.

Lemma Qle_bool_false (x y : Q) : Qle_bool x y = false <-> y < x.
Proof.
  rewrite <- Qlt_bool_iff. unfold Qlt_bool. rewrite negb_true_iff. reflexivity.
Qed.

Lemma strictly_increasing_tail (x : Q) (r : list Q) :
  strictly_increasing (x :: r) = true -> strictly_increasing r = true.
Proof.
  destruct r as [|y r]; [reflexivity|]. cbn [strictly_increasing].
  intros H. apply andb_true_iff in H as [_ H]. exact H.
Qed.

Lemma strictly_increasing_head (x : Q) (r : list Q) :
  strictly_increasing (x :: r) = true -> Forall (fun y => x < y) r.
Proof.
  revert x. induction r as [|y r IH]; intros x H; [constructor|].
  cbn [strictly_increasing] in H. apply andb_true_iff in H as [Hxy Hr].
  apply Qlt_bool_iff in Hxy. constructor; [exact Hxy|].
  eapply Forall_impl; [apply IH; exact Hr|].
  intros z Hz. cbn in Hz. lra.
Qed.

Lemma strictly_increasing_lookup (a : list Q) (i j : nat) (x y : Q) :
  strictly_increasing a = true ->
  a !! i = Some x -> a !! j = Some y -> (i < j)%nat -> x < y.
Proof.
  revert i j. induction a as [|h a IH]; intros i j Hs Hi Hj Hij;
    [discriminate|].
  destruct j as [|j]; [lia|]. cbn in Hj.
  destruct i as [|i]; cbn in Hi.
  - injection Hi as ->.
    pose proof (strictly_increasing_head _ _ Hs) as Hall.
    rewrite Forall_lookup in Hall. exact (Hall j y Hj).
  - apply (IH i j); [eapply strictly_increasing_tail; exact Hs | | | lia];
      assumption.
Qed.

(** The index that [searchsorted] returns splits the table: entries before
    it are at most [x], entries from it on are above [x]. *)
Lemma searchsorted_right_split (a : list Q) (x : Q) (i : nat) (y : Q) :
  strictly_increasing a = true ->
  a !! i = Some y ->
  ((i < searchsorted_right a x)%nat -> y <= x) /\
  ((searchsorted_right a x <= i)%nat -> x < y).
Proof.
  unfold searchsorted_right.
  revert i. induction a as [|h a IH]; intros i Hs Hi; [discriminate|].
  pose proof (strictly_increasing_tail _ _ Hs) as Hs'.
  cbn [List.filter].
  destruct (Qle_bool h x) eqn:E.
  - apply Qle_bool_iff in E. cbn [List.length].
    destruct i as [|i]; cbn in Hi.
    + injection Hi as <-. split; [intros _; exact E | lia].
    + destruct (IH i Hs' Hi) as [H1 H2]. split; intros H; [apply H1 | apply H2]; lia.
  - apply Qle_bool_false in E.
    assert (Hnone : List.filter (fun b => Qle_bool b x) a = []).
    { pose proof (strictly_increasing_head _ _ Hs) as Hall.
      clear -Hall E. induction Hall as [|z a Hz Hall IHa]; [reflexivity|].
      cbn [List.filter].
      assert (Ez : Qle_bool z x = false) by (apply Qle_bool_false; lra).
      rewrite Ez. exact IHa. }
    rewrite Hnone. cbn [List.length]. split; [lia|]. intros _.
    destruct i as [|i]; cbn in Hi.
    + injection Hi as <-. exact E.
    + pose proof (strictly_increasing_head _ _ Hs) as Hall.
      rewrite Forall_lookup in Hall. specialize (Hall i y Hi). cbn in Hall. lra.
Qed.

Lemma searchsorted_right_bound (a : list Q) (x : Q) :
  (searchsorted_right a x <= List.length a)%nat.
Proof. unfold searchsorted_right. apply List.filter_length_le. Qed.

Lemma no_descent_of_increasing (x : Q) (r : list Q) :
  strictly_increasing (x :: r) = true -> no_descent x r = true.
Proof.
  revert x. induction r as [|y r IH]; intros x H; [reflexivity|].
  cbn [strictly_increasing] in H. apply andb_true_iff in H as [Hxy Hr].
  cbn [no_descent].
  assert (E : Qlt_bool y x = false).
  { apply Qlt_bool_iff in Hxy. destruct (Qlt_bool y x) eqn:E; [|reflexivity].
    apply Qlt_bool_iff in E. lra. }
  rewrite E. apply IH. exact Hr.
Qed.

Lemma increasing_is_monotonic (a : list Q) :
  strictly_increasing a = true -> check_array_monotonic a = 1%Z.
Proof.
  destruct a as [|x [|y r]]; try reflexivity.
  intros H. pose proof H as H'.
  cbn [strictly_increasing] in H. apply andb_true_iff in H as [Hxy Hr].
  unfold check_array_monotonic. cbn [skip_repeated].
  assert (E : Qeq_bool y x = false).
  { apply Qlt_bool_iff in Hxy. destruct (Qeq_bool y x) eqn:E; [|reflexivity].
    apply Qeq_bool_iff in E. lra. }
  rewrite E, Hxy, (no_descent_of_increasing y r Hr). reflexivity.
Qed.

Lemma row_of_increasing (lam : list Q) (x : Q) :
  strictly_increasing lam = true ->
  row_of lam x
  = clip1 1 (Z.of_nat (List.length lam) - 1)
          (Z.of_nat (searchsorted_right lam x)).
Proof.
  intros H. unfold row_of, digitize1.
  rewrite (increasing_is_monotonic lam H). reflexivity.
Qed.


(** A target inside the tabulated range is bracketed by its row and the
    row before. *)
Lemma row_of_brackets (lam : list Q) (x lo hi : Q) :
  strictly_increasing lam = true ->
  (2 <= List.length lam)%nat ->
  lam !! 0%nat = Some lo ->
  lam !! (List.length lam - 1)%nat = Some hi ->
  lo <= x -> x <= hi ->
  exists l_p l_i,
    lam !! Z.to_nat (row_of lam x - 1) = Some l_p /\
    lam !! Z.to_nat (row_of lam x) = Some l_i /\
    l_p <= x /\ x <= l_i /\ l_p < l_i.
Proof.
  intros Hs Hn Hlo Hhi Hge Hle. rewrite (row_of_increasing lam x Hs).
  pose proof (searchsorted_right_bound lam x) as Hb.
  set (m := searchsorted_right lam x) in *.
  assert (Hm1 : (1 <= m)%nat).
  { destruct (Nat.le_gt_cases 1 m) as [H|H]; [exact H|]. exfalso.
    destruct (searchsorted_right_split lam x 0 lo Hs Hlo) as [_ H0].
    assert (x < lo) by (apply H0; fold m; lia). lra. }
  destruct (Nat.eq_dec m (List.length lam)) as [E|NE].
  - (* every entry is at most x: the last row *)
    replace (clip1 1 (Z.of_nat (List.length lam) - 1) (Z.of_nat m))
      with (Z.of_nat (List.length lam - 1)) by (unfold clip1; lia).
    replace (Z.of_nat (List.length lam - 1) - 1)%Z
      with (Z.of_nat (List.length lam - 2)) by lia.
    rewrite !Nat2Z.id.
    destruct (lookup_lt_is_Some_2 lam (List.length lam - 2)) as [l_p Hp]; [lia|].
    exists l_p, hi. split; [exact Hp|]. split; [exact Hhi|].
    pose proof (strictly_increasing_lookup lam _ _ l_p hi Hs Hp Hhi) as Hinc.
    assert (l_p < hi) by (apply Hinc; lia).
    destruct (searchsorted_right_split lam x _ hi Hs Hhi) as [Hin _].
    assert (hi <= x) by (apply Hin; fold m; lia).
    repeat split; lra.
  - replace (clip1 1 (Z.of_nat (List.length lam) - 1) (Z.of_nat m))
      with (Z.of_nat m) by (unfold clip1; lia).
    replace (Z.of_nat m - 1)%Z with (Z.of_nat (m - 1)) by lia.
    rewrite !Nat2Z.id.
    destruct (lookup_lt_is_Some_2 lam (m - 1)) as [l_p Hp]; [lia|].
    destruct (lookup_lt_is_Some_2 lam m) as [l_i Hi]; [lia|].
    exists l_p, l_i. split; [exact Hp|]. split; [exact Hi|].
    destruct (searchsorted_right_split lam x _ l_p Hs Hp) as [Hin _].
    destruct (searchsorted_right_split lam x _ l_i Hs Hi) as [_ Hout].
    assert (l_p <= x) by (apply Hin; fold m; lia).
    assert (x < l_i) by (apply Hout; fold m; lia).
    repeat split; lra.
Qed.

(** ** The interpolated value on a strictly increasing table *)

Lemma qdiv_nonzero (x y : Q) : ~ y == 0 -> qdiv x y = Finite (x / y).
Proof.
  intros H. unfold qdiv. destruct (Qeq_bool y 0) eqn:E; [|reflexivity].
  apply Qeq_bool_iff in E. contradiction.
Qed.

Lemma interpolate1_value (lam flux : list Q) (x : Q) (i : Z) :
  List.length lam = List.length flux ->
  strictly_increasing lam = true ->
  (1 <= i <= Z.of_nat (List.length lam) - 1)%Z ->
  exists f_i f_p l_i l_p,
    flux !! Z.to_nat i = Some f_i /\
    flux !! Z.to_nat (i - 1) = Some f_p /\
    lam !! Z.to_nat i = Some l_i /\
    lam !! Z.to_nat (i - 1) = Some l_p /\
    l_p < l_i /\
    interpolate1 lam flux x i
    = ok (Finite ((f_i - f_p) / (l_i - l_p) * (x - l_i) + f_i)).
Proof.
  intros Hlen Hs Hi.
  destruct (interpolate1_rows lam flux x i Hlen Hi)
    as (f_i & f_p & l_i & l_p & Hfi & Hfp & Hli & Hlp & E).
  exists f_i, f_p, l_i, l_p.
  assert (Hlt : l_p < l_i).
  { apply (strictly_increasing_lookup lam _ _ l_p l_i Hs Hlp Hli). lia. }
  repeat (split; [assumption|]).
  rewrite E, qdiv_nonzero by lra. reflexivity.
Qed.



Lemma segment_between_nonneg (f_i f_p l_i l_p x : Q) :
  l_p < l_i -> l_p <= x -> x <= l_i -> 0 <= f_p -> 0 <= f_i ->
  0 <= (f_i - f_p) / (l_i - l_p) * (x - l_i) + f_i.
Proof.
  intros Hlt H1 H2 Hp Hi.
  assert (E : (f_i - f_p) / (l_i - l_p) * (x - l_i) + f_i
              == (f_i * (x - l_p) + f_p * (l_i - x)) / (l_i - l_p))
    by (field; lra).
  rewrite E. apply Qle_shift_div_l; [lra|]. rewrite Qmult_0_l.
  assert (0 <= f_i * (x - l_p)) by (apply Qmult_le_0_compat; lra).
  assert (0 <= f_p * (l_i - x)) by (apply Qmult_le_0_compat; lra).
  lra.
Qed.

Lemma lookup_map {A B} (f : A -> B) (l : list A) (i : nat) :
  List.map f l !! i = option_map f (l !! i).
Proof.
  revert i. induction l as [|a l IH]; intros [|i]; cbn; try reflexivity.
  apply IH.
Qed.

(** ** Searching a strictly decreasing table *)











(** ** Doubles: what rounding cannot change *)

Section Doubles.

Import SpecFloat FloatOps FloatAxioms.

Local Open Scope Z_scope.

Lemma shr_1_nonneg (mrs : shr_record) :
  0 <= shr_m mrs -> 0 <= shr_m (shr_1 mrs).
Proof. destruct mrs as [m r s]; destruct m as [|[p|p|]|p]; cbn; lia. Qed.

Lemma iter_pos_invariant {A} (P : A -> Prop) (f : A -> A) :
  (forall x, P x -> P (f x)) -> forall p x, P x -> P (iter_pos f p x).
Proof. intros Hf. induction p as [p IH|p IH|]; cbn; intros x Hx; auto. Qed.

Lemma shr_nonneg (mrs : shr_record) (e n : Z) :
  0 <= shr_m mrs -> 0 <= shr_m (fst (shr mrs e n)).
Proof.
  intros H. destruct n; cbn; try exact H.
  apply (iter_pos_invariant (fun r => 0 <= shr_m r)); [exact shr_1_nonneg | exact H].
Qed.

Lemma shr_fexp_nonneg (m e : Z) (l : location) :
  0 <= m -> 0 <= shr_m (fst (shr_fexp prec emax m e l)).
Proof.
  intros H. unfold shr_fexp. apply shr_nonneg.
  destruct l as [|[]]; cbn; exact H.
Qed.

Lemma round_nearest_even_nonneg (m : Z) (l : location) :
  0 <= m -> 0 <= round_nearest_even m l.
Proof.
  intros H. destruct l as [|[]]; cbn; try lia. destruct (Z.even m); lia.
Qed.

(** Rounding a magnitude keeps the sign it was given and yields no [nan]. *)
Lemma binary_round_aux_sign (s : bool) (m e : Z) (l : location) :
  0 <= m ->
  match binary_round_aux prec emax s m e l with
  | S754_zero s' | S754_infinity s' | S754_finite s' _ _ => s' = s
  | S754_nan => False
  end.
Proof.
  intros H. unfold binary_round_aux.
  pose proof (shr_fexp_nonneg m e l H) as H1.
  destruct (shr_fexp prec emax m e l) as [mrs' e'].
  cbn [fst] in H1.
  pose proof (shr_fexp_nonneg _ e' loc_Exact
                (round_nearest_even_nonneg _ (loc_of_shr_record mrs') H1)) as H2.
  destruct (shr_fexp prec emax _ e' loc_Exact) as [mrs'' e''].
  cbn [fst] in H2.
  destruct (shr_m mrs'') as [|p|p]; [reflexivity | | lia].
  destruct (e'' <=? emax - prec); reflexivity.
Qed.

(** The product of two finite doubles that are not negative is not
    negative: it is a double [>= 0], [inf] if the product overflows. *)
Lemma mul_nonneg (a b : PrimFloat.float) :
  Binary64.nonneg a = true -> Binary64.finite a = true ->
  Binary64.nonneg b = true -> Binary64.finite b = true ->
  Binary64.nonneg (PrimFloat.mul a b) = true.
Proof.
  unfold Binary64.nonneg, Binary64.finite.
  rewrite !leb_spec, !ltb_spec, !abs_spec, mul_spec.
  replace (Prim2SF PrimFloat.zero) with (S754_zero false) by reflexivity.
  replace (Prim2SF PrimFloat.infinity) with (S754_infinity false) by reflexivity.
  intros Ha Fa Hb Fb.
  destruct (Prim2SF a) as [sa|sa| |[|] ma ea]; try discriminate;
    destruct (Prim2SF b) as [sb|sb| |[|] mb eb]; try discriminate;
    try reflexivity.
  unfold SF64mul, SFmul. cbn [xorb].
  pose proof (binary_round_aux_sign false (Z.pos (ma * mb)) (ea + eb) loc_Exact) as H.
  destruct (binary_round_aux prec emax false (Z.pos (ma * mb)) (ea + eb) loc_Exact)
    as [s|s| |s m e]; try (rewrite H by lia); try reflexivity.
  exfalso. apply H. lia.
Qed.




End Doubles.

(** ** The template stages on doubles find their rows *)





Lemma interpolate_length_binary64 (lam flux targets r : list PrimFloat.float) :
  Binary64.interpolate lam flux targets = ok r ->
  List.length r = List.length targets.
Proof.
  unfold Binary64.interpolate.
  destruct (Binary64.digitize _ _) as [|index] eqn:Hd; [discriminate|].
  cbn. intros Hr. apply mapM_Forall2 in Hr.
  rewrite <- (Forall2_length _ _ _ Hr), List.length_combine.
  unfold Binary64.digitize in Hd. destruct (_ =? 0)%Z; [discriminate|].
  apply ok_inj in Hd. subst index. unfold clip.
  rewrite !List.length_map. lia.
Qed.

Lemma qso_spectrum_length_binary64 (bins : list PrimFloat.float)
    (data : list (list PrimFloat.float)) (z : PrimFloat.float)
    (r : list PrimFloat.float) :
  Binary64._get_qso_spectrum bins data z = ok r ->
  List.length r = List.length bins.
Proof.
  unfold Binary64._get_qso_spectrum.
  destruct (Binary64.column data 0) as [|lam]; [discriminate|]. cbn.
  destruct (Binary64.column data 1) as [|flux]; [discriminate|]. cbn.
  apply interpolate_length_binary64.
Qed.

Lemma milky_way_length_binary64 (bins : list PrimFloat.float)
    (data : list (list PrimFloat.float)) (r : list PrimFloat.float) :
  Binary64._get_milky_way_foreground bins data = ok r ->
  List.length r = List.length bins.
Proof.
  unfold Binary64._get_milky_way_foreground.
  destruct (Binary64.column data 0) as [|lam]; [discriminate|]. cbn.
  destruct (Binary64.column data 1) as [|flux]; [discriminate|]. cbn.
  destruct (Binary64.interpolate _ _ _) as [|my_flux] eqn:Hi; [discriminate|]. cbn.
  intros H. apply ok_inj in H. subst r.
  apply map2_length. symmetry. exact (interpolate_length_binary64 _ _ _ _ Hi).
Qed.

(** ** C6: interpolation at a tabulated wavelength *)





(** ** C3: the sign of the flux field after each stage *)

(** C3, as stated, fails at every stage.  Beyond the table a template is
    extrapolated along its edge segment: a continuum that falls to 0 at
    1001 angstrom is -1 at 1002 angstrom, and a foreground that rises by
    0.1 over the 0.0444 angstrom before 1799.9444 is below zero at
    1799 angstrom.  A kernel with negative side lobes leaves a negative
    flux beside a peak.  A negative variate takes a flux of 1 below zero.
    And on doubles rounding is enough: the table (1000, 0), (1007, 0.9)
    has no negative flux, and read at 1000, inside it, it gives -2^-53. *)
Lemma stages_can_go_negative :
  (Forall nonneg [Finite 1] /\
   add_qso_spectrum (Examples.generator [1002] (Some [Finite 1])) None 0
       (Some "qso.txt"%string) Examples.qso_world
     = ok (Examples.generator [1002] (Some [Finite (-1)]), [Finite (-1)]) /\
   ~ nonneg (Finite (-1))) /\
  (add_milky_way_foreground (Examples.generator [1799] (Some [Finite 1])) None
       (Some "mw.txt"%string) Examples.mw_world
     = ok (Examples.generator [1799]
             (Some [Finite (-58920000000 # 44400000000)]),
           [Finite (-58920000000 # 44400000000)]) /\
   ~ nonneg (Finite (-58920000000 # 44400000000))) /\
  (Forall nonneg [Finite 1; Finite 0; Finite 0] /\
   fst (apply_lsf Examples.sharpening_reader
          (Examples.generator [1; 2; 3] (Some [Finite 1; Finite 0; Finite 0]))
          None None None (Examples.world_of ∅))
     = ok (Examples.generator [1; 2; 3]
             (Some [Finite (4 # 2); Finite (-2 # 4); Finite (0 # 2)])) /\
   ~ nonneg (Finite (-2 # 4))) /\
  (Forall nonneg [Finite 1; Finite 1] /\
   returned_array
     (add_gaussian_noise Examples.variates
        (Examples.generator [1; 2] (Some [Finite 1; Finite 1]))
        1 None None (Some 0%Z) (Examples.world_of ∅))
     = ok [Finite (-2); Finite (-1 # 2)] /\
   ~ nonneg (Finite (-2))) /\
  (forallb Binary64.nonneg Binary64.unit_flux = true /\
   forallb (forallb Binary64.nonneg) Binary64.ramp_rows = true /\
   Binary64.add_qso_spectrum Binary64.unit_flux Binary64.at_1000
       Binary64.ramp_rows PrimFloat.zero = ok [Binary64.minus_half_epsilon] /\
   PrimFloat.ltb Binary64.minus_half_epsilon PrimFloat.zero = true /\
   Binary64.nonneg Binary64.minus_half_epsilon = false).
Proof.
  assert (Hneg : forall q, q < 0 -> ~ nonneg (Finite q)).
  { intros q Hq H. cbn in H. lra. }
  split; [|split; [|split; [|split]]].
  - split; [repeat constructor; discriminate|].
    split; [vm_compute; reflexivity | apply Hneg; reflexivity].
  - split; [vm_compute; reflexivity | apply Hneg; reflexivity].
  - split; [repeat constructor; discriminate|].
    split; [vm_compute; reflexivity | apply Hneg; reflexivity].
  - split; [repeat constructor; discriminate|].
    split; [vm_compute; reflexivity | apply Hneg; reflexivity].
  - split; [vm_compute; reflexivity|].
    split; [vm_compute; reflexivity|].
    split; [vm_compute; reflexivity|].
    split; vm_compute; reflexivity.
Qed.

Lemma map2_lookup_inv {A B C} (f : A -> B -> C) (a : list A) (b : list B)
    (i : nat) (c : C) :
  map2 f a b !! i = Some c ->
  exists x y, a !! i = Some x /\ b !! i = Some y /\ c = f x y.
Proof.
  revert b i. induction a as [|x a IH]; intros [|y b] [|i] H;
    cbn in *; try discriminate.
  - injection H as <-. exists x, y. repeat split.
  - apply IH. exact H.
Qed.

Lemma multiply_in_place_binary64 (f s : list PrimFloat.float) :
  List.length s = List.length f ->
  Binary64.multiply_in_place f s = ok (map2 PrimFloat.mul f s).
Proof.
  intros H. unfold Binary64.multiply_in_place. rewrite H, Nat.eqb_refl.
  reflexivity.
Qed.

Lemma qso_stage_binary64
    (f bins : list PrimFloat.float) (data : list (list PrimFloat.float))
    (z : PrimFloat.float) (lam spectrum : list PrimFloat.float) :
  Binary64.column data 0 = ok lam ->
  Binary64.no_nan (Binary64.shifted z lam) = true ->
  Binary64.no_nan bins = true ->
  Binary64._get_qso_spectrum bins data z = ok spectrum ->
  List.length f = List.length bins ->
  exists new,
    Binary64.add_qso_spectrum f bins data z = ok new /\
    List.length new = List.length f /\
    forall (i : nat) (x s : PrimFloat.float),
      f !! i = Some x -> spectrum !! i = Some s ->
      new !! i = Some (PrimFloat.mul x s) /\
      (Binary64.nonneg x = true -> Binary64.finite x = true ->
       Binary64.nonneg s = true -> Binary64.finite s = true ->
       Binary64.nonneg (PrimFloat.mul x s) = true).
Proof.
  intros _ _ _ Hs Hlen.
  pose proof (qso_spectrum_length_binary64 _ _ _ _ Hs) as Hl.
  exists (map2 PrimFloat.mul f spectrum). split; [|split].
  - unfold Binary64.add_qso_spectrum. rewrite Hs. cbn.
    apply multiply_in_place_binary64. congruence.
  - apply map2_length. congruence.
  - intros i x s Hx Hsi. split; [apply map2_lookup; assumption|].
    apply mul_nonneg.
Qed.

Lemma milky_way_stage_binary64
    (f bins : list PrimFloat.float) (data : list (list PrimFloat.float))
    (lam spectrum : list PrimFloat.float) :
  Binary64.column data 0 = ok lam ->
  Binary64.no_nan lam = true ->
  Binary64.no_nan bins = true ->
  Binary64._get_milky_way_foreground bins data = ok spectrum ->
  List.length f = List.length bins ->
  exists new,
    Binary64.add_milky_way_foreground f bins data = ok new /\
    List.length new = List.length f /\
    forall (i : nat) (x s l : PrimFloat.float),
      f !! i = Some x -> spectrum !! i = Some s -> bins !! i = Some l ->
      new !! i = Some (PrimFloat.mul x s) /\
      (PrimFloat.ltb Binary64.MW_limit l = true -> s = PrimFloat.one) /\
      (Binary64.nonneg x = true -> Binary64.finite x = true ->
       PrimFloat.ltb Binary64.MW_limit l = true \/
       (Binary64.nonneg s = true /\ Binary64.finite s = true) ->
       Binary64.nonneg (PrimFloat.mul x s) = true).
Proof.
  intros _ _ _ Hs Hlen.
  pose proof (milky_way_length_binary64 _ _ _ Hs) as Hl.
  exists (map2 PrimFloat.mul f spectrum). split; [|split].
  - unfold Binary64.add_milky_way_foreground. rewrite Hs. cbn.
    apply multiply_in_place_binary64. congruence.
  - apply map2_length. congruence.
  - intros i x s l Hx Hsi Hli.
    assert (Hone : PrimFloat.ltb Binary64.MW_limit l = true -> s = PrimFloat.one).
    { intros Hgt. unfold Binary64._get_milky_way_foreground in Hs.
      destruct (Binary64.column data 0) as [|lam']; [discriminate|]. cbn in Hs.
      destruct (Binary64.column data 1) as [|flux]; [discriminate|]. cbn in Hs.
      destruct (Binary64.interpolate _ _ _) as [|my_flux]; [discriminate|].
      cbn in Hs. apply ok_inj in Hs. subst spectrum.
      apply map2_lookup_inv in Hsi as (l' & y & Hl' & _ & ->).
      assert (l' = l) by congruence. subst l'. unfold Binary64.MW_limit in Hgt. cbv beta. rewrite Hgt. reflexivity. }
    split; [apply map2_lookup; assumption|]. split; [exact Hone|].
    intros Hx0 Hxf [Hgt|[Hs0 Hsf]].
    + rewrite (Hone Hgt). apply mul_nonneg; try assumption; reflexivity.
    + apply mul_nonneg; assumption.
Qed.

Lemma lsf_stage_nonneg
    (LSF_kernel : option string -> option Z -> option string -> World -> result (list Q))
    (kernel : list Q) (g : SpectrumGenerator) (function : option string)
    (width : option Z) (filename : option string) (w : World) (f : list npfloat) :
  (forall a b c w', LSF_kernel a b c w' = ok kernel) ->
  (function = None -> width = None -> filename = None ->
   lsf_kernel (instrument g) <> None) ->
  flux_field g = Some f ->
  kernel <> [] -> f <> [] ->
  Forall (fun k => 0 <= k) kernel ->
  Forall nonneg f ->
  exists g' flux,
    fst (apply_lsf LSF_kernel g function width filename w) = ok g' /\
    flux_field g' = Some flux /\ Forall nonneg flux.
Proof.
  intros HK Hsrc Hf Hk Hne Hkpos Hfpos.
  rewrite (apply_lsf_outcome _ kernel _ _ _ _ _ f HK Hsrc Hf).
  destruct (convolve_same_total (List.map Finite kernel) f) as [flux Hflux];
    [destruct kernel; [contradiction | discriminate] | exact Hne |].
  rewrite Hflux. cbn.
  exists (with_flux_field g (Some flux)), flux.
  split; [reflexivity|]. split; [reflexivity|].
  apply (convolve_same_nonneg (List.map Finite kernel) f); [|assumption..].
  clear -Hkpos. induction Hkpos; cbn; constructor; assumption.
Qed.

Lemma noise_stage_values (gauss_stream : Z -> nat -> Q)
    (g : SpectrumGenerator) (snr : Q) (n_bins : option Z)
    (out : option (list npfloat)) (s : Z) (w : World) (f : list npfloat) :
  (0 <= s < 2 ^ 32)%Z ->
  0 < snr ->
  target_array g out = Some f ->
  match n_bins with
  | None => List.length (lambda_bins g) = List.length f
  | Some n => n = Z.of_nat (List.length f)
  end ->
  exists new,
    returned_array (add_gaussian_noise gauss_stream g snr n_bins out (Some s) w)
      = ok new /\
    List.length new = List.length f /\
    forall (i : nat) (x : npfloat),
      f !! i = Some x ->
      new !! i = Some (fadd x (Finite (0 + 1 / snr * gauss_stream s i))).
Proof.
  intros Hs Hsnr Ht Hn. unfold returned_array. rewrite noise_outcome_eq, Ht.
  assert (E1 : ((0 <=? s) && (s <? 2 ^ 32))%Z = true).
  { apply andb_true_iff. split; [apply Z.leb_le | apply Z.ltb_lt]; lia. }
  assert (E2 : Qeq_bool snr 0 = false).
  { destruct (Qeq_bool snr 0) eqn:E; [|reflexivity].
    apply Qeq_bool_iff in E. lra. }
  assert (E3 : Qlt_bool (1 / snr) 0 = false).
  { destruct (Qlt_bool (1 / snr) 0) eqn:E; [|reflexivity].
    apply Qlt_bool_iff in E. exfalso.
    assert (0 < 1 / snr) by (apply Qlt_shift_div_l; lra). lra. }
  assert (En : match n_bins with
               | None => Z.of_nat (List.length (lambda_bins g))
               | Some n => n
               end = Z.of_nat (List.length f)).
  { destruct n_bins; congruence. }
  rewrite E1, E2. cbv zeta. rewrite E3, En.
  destruct (Z.ltb_spec (Z.of_nat (List.length f)) 0) as [?|_]; [lia|].
  rewrite Nat2Z.id. unfold add_in_place, inplace.
  rewrite List.length_map, List.length_seq, Nat.eqb_refl. cbn.
  eexists. split; [reflexivity|]. split.
  - apply map2_length. rewrite List.length_map, List.length_seq. reflexivity.
  - intros i x Hx. apply map2_lookup; [exact Hx|].
    rewrite lookup_map, lookup_seq_lt by exact (lookup_lt_Some _ _ _ Hx).
    reflexivity.
Qed.

(** C3 (amended).  On doubles, for a table and bins without [nan], the
    QSO stage and the Milky-Way stage multiply every entry of the flux
    field by the interpolated template value of its bin; an entry that is
    finite and not negative stays not
    negative wherever that value is finite and not negative, and in the
    Milky-Way stage at every bin beyond 1799.9444, where the value is 1.
    The LSF stage keeps a flux field non-negative when no kernel weight is
    negative.  The noise stage turns entry [i] into that entry plus
    [1/snr] times the [i]-th variate, whatever its sign. *)
Theorem stages_and_nonnegative_flux :
  (forall (f lambda_bins : list PrimFloat.float)
          (data : list (list PrimFloat.float)) (redshift : PrimFloat.float)
          (qso_lambda qso_spectrum : list PrimFloat.float),
     Binary64.column data 0 = ok qso_lambda ->
     Binary64.no_nan (Binary64.shifted redshift qso_lambda) = true ->
     Binary64.no_nan lambda_bins = true ->
     Binary64._get_qso_spectrum lambda_bins data redshift = ok qso_spectrum ->
     List.length f = List.length lambda_bins ->
     exists new,
       Binary64.add_qso_spectrum f lambda_bins data redshift = ok new /\
       List.length new = List.length f /\
       forall (i : nat) (x s : PrimFloat.float),
         f !! i = Some x -> qso_spectrum !! i = Some s ->
         new !! i = Some (PrimFloat.mul x s) /\
         (Binary64.nonneg x = true -> Binary64.finite x = true ->
          Binary64.nonneg s = true -> Binary64.finite s = true ->
          Binary64.nonneg (PrimFloat.mul x s) = true)) /\
  (forall (f lambda_bins : list PrimFloat.float)
          (data : list (list PrimFloat.float))
          (MW_lambda MW_spectrum : list PrimFloat.float),
     Binary64.column data 0 = ok MW_lambda ->
     Binary64.no_nan MW_lambda = true ->
     Binary64.no_nan lambda_bins = true ->
     Binary64._get_milky_way_foreground lambda_bins data = ok MW_spectrum ->
     List.length f = List.length lambda_bins ->
     exists new,
       Binary64.add_milky_way_foreground f lambda_bins data = ok new /\
       List.length new = List.length f /\
       forall (i : nat) (x s l : PrimFloat.float),
         f !! i = Some x -> MW_spectrum !! i = Some s ->
         lambda_bins !! i = Some l ->
         new !! i = Some (PrimFloat.mul x s) /\
         (PrimFloat.ltb Binary64.MW_limit l = true -> s = PrimFloat.one) /\
         (Binary64.nonneg x = true -> Binary64.finite x = true ->
          PrimFloat.ltb Binary64.MW_limit l = true \/
          (Binary64.nonneg s = true /\ Binary64.finite s = true) ->
          Binary64.nonneg (PrimFloat.mul x s) = true)) /\
  (forall LSF_kernel kernel g function width filename w f,
     (forall a b c w', LSF_kernel a b c w' = ok kernel) ->
     (function = None -> width = None -> filename = None ->
      lsf_kernel (instrument g) <> None) ->
     flux_field g = Some f ->
     kernel <> [] -> f <> [] ->
     Forall (fun k => 0 <= k) kernel ->
     Forall nonneg f ->
     exists g' flux,
       fst (apply_lsf LSF_kernel g function width filename w) = ok g' /\
       flux_field g' = Some flux /\ Forall nonneg flux) /\
  (forall gauss_stream g snr n_bins out s w f,
     (0 <= s < 2 ^ 32)%Z ->
     0 < snr ->
     target_array g out = Some f ->
     match n_bins with
     | None => List.length (lambda_bins g) = List.length f
     | Some n => n = Z.of_nat (List.length f)
     end ->
     exists new,
       returned_array (add_gaussian_noise gauss_stream g snr n_bins out (Some s) w)
         = ok new /\
       List.length new = List.length f /\
       forall (i : nat) (x : npfloat),
         f !! i = Some x ->
         new !! i = Some (fadd x (Finite (0 + 1 / snr * gauss_stream s i)))).
Proof.
  split; [exact qso_stage_binary64|].
  split; [exact milky_way_stage_binary64|].
  split; [exact lsf_stage_nonneg | exact noise_stage_values].
Qed.

Lemma stages_and_nonnegative_flux_witness :
  (exists new,
     Binary64.add_qso_spectrum Binary64.unit_flux Binary64.at_1003
         Binary64.rising_rows PrimFloat.zero = ok new /\
     List.length new = 1%nat /\
     exists y, new !! 0%nat = Some y /\ Binary64.nonneg y = true) /\
  (exists new,
     Binary64.add_milky_way_foreground Binary64.unit_flux Binary64.at_1800
         Binary64.mw_rows = ok new /\
     List.length new = 1%nat /\
     exists y, new !! 0%nat = Some y /\ Binary64.nonneg y = true) /\
  (exists g' flux,
     fst (apply_lsf Examples.boxcar_reader
            (Examples.generator [1; 2; 3] (Some [Finite 1; Finite 0; Finite 1]))
            None None None (Examples.world_of ∅)) = ok g' /\
     flux_field g' = Some flux /\ Forall nonneg flux) /\
  (exists new,
     returned_array
       (add_gaussian_noise Examples.variates
          (Examples.generator [1; 2] (Some [Finite 1; Finite 0]))
          10 None None (Some 42%Z) (Examples.world_of ∅)) = ok new /\
     List.length new = 2%nat /\
     new !! 1%nat
     = Some (fadd (Finite 0) (Finite (0 + 1 / 10 * Examples.variates 42 1)))).
Proof.
  destruct stages_and_nonnegative_flux as (Hqso & Hmw & Hlsf & Hnoise).
  split; [|split; [|split]].
  - destruct (Hqso Binary64.unit_flux Binary64.at_1003 Binary64.rising_rows
                PrimFloat.zero _ _ eq_refl eq_refl eq_refl eq_refl eq_refl)
      as [new [Hnew [Hlen Hat]]].
    exists new. split; [exact Hnew|]. split; [exact Hlen|].
    destruct (Hat 0%nat _ _ eq_refl eq_refl) as [Hy Hsign].
    eexists. split; [exact Hy|]. apply Hsign; reflexivity.
  - destruct (Hmw Binary64.unit_flux Binary64.at_1800 Binary64.mw_rows
                _ _ eq_refl eq_refl eq_refl eq_refl eq_refl)
      as [new [Hnew [Hlen Hat]]].
    exists new. split; [exact Hnew|]. split; [exact Hlen|].
    destruct (Hat 0%nat _ _ _ eq_refl eq_refl eq_refl) as [Hy [_ Hsign]].
    eexists. split; [exact Hy|].
    apply Hsign; [reflexivity | reflexivity | left; reflexivity].
  - apply (Hlsf Examples.boxcar_reader Examples.boxcar3
             (Examples.generator [1; 2; 3] (Some [Finite 1; Finite 0; Finite 1]))
             None None None (Examples.world_of ∅)
             [Finite 1; Finite 0; Finite 1]);
      try reflexivity; try discriminate;
      repeat constructor; cbn; lra.
  - destruct (Hnoise Examples.variates
                (Examples.generator [1; 2] (Some [Finite 1; Finite 0]))
                10 None None 42%Z (Examples.world_of ∅) [Finite 1; Finite 0])
      as [new [Hnew [Hlen Hval]]];
      [lia | reflexivity | reflexivity | reflexivity |].
    exists new. split; [exact Hnew|]. split; [exact Hlen|].
    apply Hval. reflexivity.
Defined.

(** ** Two further facts *)

(** A redshift above -1 keeps a strictly increasing table strictly
    increasing, so the condition of C6 holds for every such table. *)
Lemma shift_keeps_increasing (redshift : Q) (lam : list Q) :
  0 < 1 + redshift ->
  strictly_increasing lam = true ->
  strictly_increasing (List.map (fun l => l + l * redshift) lam) = true.
Proof.
  intros Hz. induction lam as [|a [|b r] IH]; intros H; try reflexivity.
  cbn [strictly_increasing] in H. apply andb_true_iff in H as [Hab Hr].
  change (List.map (fun l => l + l * redshift) (a :: b :: r))
    with ((a + a * redshift)
          :: List.map (fun l => l + l * redshift) (b :: r)).
  specialize (IH Hr).
  change (List.map (fun l => l + l * redshift) (b :: r))
    with ((b + b * redshift) :: List.map (fun l => l + l * redshift) r) in *.
  cbn [strictly_increasing]. apply andb_true_iff. split; [|exact IH].
  apply Qlt_bool_iff in Hab. apply Qlt_bool_iff.
  assert (0 < (b - a) * (1 + redshift)) by (apply Qmult_lt_0_compat; lra).
  lra.
Qed.

(** The flat spectrum has one entry of 1 for each bin. *)
Lemma make_flat_spectrum_shape (g : SpectrumGenerator) :
  flux_field (fst (make_flat_spectrum g)) = Some (snd (snd (make_flat_spectrum g))) /\
  List.length (snd (snd (make_flat_spectrum g))) = List.length (lambda_bins g) /\
  Forall nonneg (snd (snd (make_flat_spectrum g))).
Proof.
  cbn. split; [reflexivity|]. split; [apply List.repeat_length|].
  induction (List.length (lambda_bins g)); cbn; constructor;
    [discriminate | assumption].
Qed.

(** * Further properties of the generator *)

(** ** Interpolation, row by row *)

Lemma feq_refl (a : npfloat) : feq a a.
Proof. destruct a; cbn; [reflexivity | exact I]. Qed.


Lemma feq_trans (a b c : npfloat) : feq a b -> feq b c -> feq a c.
Proof.
  destruct a, b, c; cbn; try tauto. intros H1 H2. rewrite H1. exact H2.
Qed.

(** On a strictly increasing table every entry of the result is the value
    of the segment that ends at the row of its target. *)
Lemma interpolate_values (lam flux targets : list Q) :
  List.length lam = List.length flux ->
  strictly_increasing lam = true ->
  (2 <= List.length lam)%nat ->
  exists r,
    interpolate lam flux targets = ok r /\
    Forall2
      (fun x y =>
         exists f_i f_p l_i l_p,
           flux !! Z.to_nat (row_of lam x) = Some f_i /\
           flux !! Z.to_nat (row_of lam x - 1) = Some f_p /\
           lam !! Z.to_nat (row_of lam x) = Some l_i /\
           lam !! Z.to_nat (row_of lam x - 1) = Some l_p /\
           l_p < l_i /\
           y = Finite ((f_i - f_p) / (l_i - l_p) * (x - l_i) + f_i))
      targets r.
Proof.
  intros Hlen Hs Hn.
  destruct (interpolate_rows lam flux targets Hlen Hn) as [r [Hr Hrows]].
  { rewrite (increasing_is_monotonic lam Hs). discriminate. }
  exists r. split; [exact Hr|].
  eapply Forall2_impl; [exact Hrows|].
  intros x y Hval. cbn in Hval.
  destruct (interpolate1_value lam flux x (row_of lam x) Hlen Hs
              (row_of_range lam x Hn))
    as (f_i & f_p & l_i & l_p & Hfi & Hfp & Hli & Hlp & Hlt & E).
  rewrite E in Hval. apply ok_inj in Hval.
  exists f_i, f_p, l_i, l_p. repeat (split; [assumption|]). symmetry; exact Hval.
Qed.

Lemma searchsorted_right_scaled (c : Q) (lam lam' : list Q) (x x' : Q) :
  0 < c ->
  Forall2 (fun l l' => l' == c * l) lam lam' ->
  x' == c * x ->
  searchsorted_right lam' x' = searchsorted_right lam x.
Proof.
  intros Hc Hrel Hx. unfold searchsorted_right.
  induction Hrel as [|l l' lam lam' Hl _ IH]; [reflexivity|].
  cbn [List.filter].
  assert (E : Qle_bool l' x' = Qle_bool l x).
  { destruct (Qle_bool l x) eqn:E1.
    - apply Qle_bool_iff in E1. apply Qle_bool_iff.
      rewrite Hl, Hx. apply Qmult_le_l; assumption.
    - apply Qle_bool_false in E1. apply Qle_bool_false.
      rewrite Hl, Hx. apply Qmult_lt_l; assumption. }
  rewrite E. destruct (Qle_bool l x); cbn [List.length]; rewrite IH; reflexivity.
Qed.

Lemma row_of_scaled (c : Q) (lam lam' : list Q) (x x' : Q) :
  0 < c ->
  strictly_increasing lam = true ->
  strictly_increasing lam' = true ->
  Forall2 (fun l l' => l' == c * l) lam lam' ->
  x' == c * x ->
  row_of lam' x' = row_of lam x.
Proof.
  intros Hc Hs Hs' Hrel Hx.
  rewrite (row_of_increasing lam' x' Hs'), (row_of_increasing lam x Hs).
  rewrite (searchsorted_right_scaled c lam lam' x x' Hc Hrel Hx).
  rewrite <- (Forall2_length _ _ _ Hrel). reflexivity.
Qed.

Lemma segment_scaled (c f_i f_p l_i l_p l_i' l_p' x x' : Q) :
  0 < c -> l_p < l_i ->
  l_i' == c * l_i -> l_p' == c * l_p -> x' == c * x ->
  (f_i - f_p) / (l_i' - l_p') * (x' - l_i') + f_i
  == (f_i - f_p) / (l_i - l_p) * (x - l_i) + f_i.
Proof.
  intros Hc Hlt Hi Hp Hx. rewrite Hi, Hp, Hx. field. split; [lra|].
  assert (0 < c * (l_i - l_p)) by (apply Qmult_lt_0_compat; lra). lra.
Qed.

(** Two tables that differ by a positive factor, read at targets that
    differ by the same factor, give the same values. *)
Lemma interpolate_scaled (c : Q) (lam lam' flux targets targets' : list Q) :
  0 < c ->
  List.length lam = List.length flux ->
  (2 <= List.length lam)%nat ->
  strictly_increasing lam = true ->
  strictly_increasing lam' = true ->
  Forall2 (fun l l' => l' == c * l) lam lam' ->
  Forall2 (fun x x' => x' == c * x) targets targets' ->
  exists r r',
    interpolate lam flux targets = ok r /\
    interpolate lam' flux targets' = ok r' /\
    Forall2 feq r' r.
Proof.
  intros Hc Hlen Hn Hs Hs' Hrel Htar.
  pose proof (Forall2_length _ _ _ Hrel) as Hll.
  destruct (interpolate_values lam flux targets Hlen Hs Hn) as [r [Hr Hv]].
  destruct (interpolate_values lam' flux targets') as [r' [Hr' Hv']];
    [congruence | exact Hs' | lia |].
  exists r, r'. split; [exact Hr|]. split; [exact Hr'|].
  apply Forall2_same_length_lookup. split.
  { rewrite <- (Forall2_length _ _ _ Hv'), <- (Forall2_length _ _ _ Hv).
    symmetry. exact (Forall2_length _ _ _ Htar). }
  intros i y' y Hy' Hy.
  destruct (Forall2_lookup_r _ _ _ _ _ Hv Hy)
    as (x & Hx & f_i & f_p & l_i & l_p & Hfi & Hfp & Hli & Hlp & Hlt & ->).
  destruct (Forall2_lookup_r _ _ _ _ _ Hv' Hy')
    as (x' & Hx' & f_i' & f_p' & l_i' & l_p' & Hfi' & Hfp' & Hli' & Hlp' & Hlt' & ->).
  pose proof (Forall2_lookup_lr _ _ _ _ _ _ Htar Hx Hx') as Hxx. cbn in Hxx.
  rewrite (row_of_scaled c lam lam' x x' Hc Hs Hs' Hrel Hxx) in *.
  assert (f_i' = f_i) by congruence. assert (f_p' = f_p) by congruence. subst.
  pose proof (Forall2_lookup_lr _ _ _ _ _ _ Hrel Hli Hli') as Ei.
  pose proof (Forall2_lookup_lr _ _ _ _ _ _ Hrel Hlp Hlp') as Ep.
  cbn in Ei, Ep. cbn. apply segment_scaled with (c := c); assumption.
Qed.

Lemma Forall2_of_maps {A B C} (R : B -> C -> Prop) (f : A -> B) (h : A -> C)
    (l : list A) :
  (forall a, R (f a) (h a)) -> Forall2 R (List.map f l) (List.map h l).
Proof. intros H. induction l; cbn; constructor; auto. Qed.


Lemma qso_spectrum_of_table
    (g : SpectrumGenerator) (redshift : Q) (filename : option string)
    (w : World) (data : list (list Q)) (lam flux : list Q) :
  loadtxt w (or_default filename (template_path w "qso_background_COS_HST.txt"))
    = ok data ->
  column data 0 = ok lam ->
  column data 1 = ok flux ->
  _get_qso_spectrum g redshift filename w
  = interpolate (List.map (fun l => l + l * redshift) lam) flux (lambda_bins g).
Proof.
  intros Hload Hlam Hflux. unfold _get_qso_spectrum.
  rewrite Hload; cbn. rewrite Hlam; cbn. rewrite Hflux; cbn. reflexivity.
Qed.


(** ** X1: a redshift rescales the wavelength axis *)

(** X1: for a strictly increasing table and a redshift above -1, the QSO
    spectrum at redshift [z] read at the wavelengths [(1 + z) * x] equals,
    entry by entry, the spectrum at redshift 0 read at the wavelengths
    [x]. *)
Theorem qso_redshift_rescales_wavelengths
    (g0 gz : SpectrumGenerator) (z : Q) (filename : option string)
    (w : World) (data : list (list Q)) (lam flux : list Q) :
  loadtxt w (or_default filename (template_path w "qso_background_COS_HST.txt"))
    = ok data ->
  column data 0 = ok lam ->
  column data 1 = ok flux ->
  strictly_increasing lam = true ->
  0 < 1 + z ->
  Forall2 (fun x x' => x' == (1 + z) * x) (lambda_bins g0) (lambda_bins gz) ->
  exists r0 rz,
    _get_qso_spectrum g0 0 filename w = ok r0 /\
    _get_qso_spectrum gz z filename w = ok rz /\
    Forall2 feq rz r0.
Proof.
  intros Hload Hlam Hflux Hs Hz Hbins.
  destruct (column_length _ _ _ Hlam) as [Ll Hn].
  destruct (column_length _ _ _ Hflux) as [Lf _].
  rewrite (qso_spectrum_of_table g0 0 filename w data lam flux Hload Hlam Hflux).
  rewrite (qso_spectrum_of_table gz z filename w data lam flux Hload Hlam Hflux).
  apply (interpolate_scaled (1 + z)); try assumption.
  - rewrite List.length_map. congruence.
  - rewrite List.length_map. lia.
  - apply shift_keeps_increasing; [lra | exact Hs].
  - apply shift_keeps_increasing; assumption.
  - apply Forall2_of_maps. intros l. ring.
Qed.

Lemma qso_redshift_rescales_wavelengths_witness :
  exists r0 rz,
    _get_qso_spectrum (Examples.generator [1000; 2001 # 2; 1002] None) 0
        (Some "qso.txt"%string) Examples.qso_world = ok r0 /\
    _get_qso_spectrum (Examples.generator [3000; 6003 # 2; 3006] None) 2
        (Some "qso.txt"%string) Examples.qso_world = ok rz /\
    Forall2 feq rz r0.
Proof.
  apply (qso_redshift_rescales_wavelengths
           (Examples.generator [1000; 2001 # 2; 1002] None)
           (Examples.generator [3000; 6003 # 2; 3006] None) 2
           (Some "qso.txt"%string) Examples.qso_world Examples.qso_rows
           [1000; 1001] [1; 0]);
    try (vm_compute; reflexivity).
  repeat constructor.
Defined.

(** ** X2: beyond the table the edge segments are continued *)

Lemma row_of_below (lam : list Q) (x lo : Q) :
  strictly_increasing lam = true ->
  (2 <= List.length lam)%nat ->
  lam !! 0%nat = Some lo -> x < lo ->
  row_of lam x = 1%Z.
Proof.
  intros Hs Hn Hlo Hx. rewrite (row_of_increasing lam x Hs).
  assert (Hm : searchsorted_right lam x = 0%nat).
  { destruct (searchsorted_right lam x) as [|m] eqn:E; [reflexivity|]. exfalso.
    destruct (searchsorted_right_split lam x 0 lo Hs Hlo) as [Hin _].
    assert (lo <= x) by (apply Hin; lia). lra. }
  rewrite Hm. unfold clip1. lia.
Qed.

Lemma row_of_above (lam : list Q) (x hi : Q) :
  strictly_increasing lam = true ->
  (2 <= List.length lam)%nat ->
  lam !! (List.length lam - 1)%nat = Some hi -> hi <= x ->
  row_of lam x = (Z.of_nat (List.length lam) - 1)%Z.
Proof.
  intros Hs Hn Hhi Hx. rewrite (row_of_increasing lam x Hs).
  pose proof (searchsorted_right_bound lam x) as Hb.
  assert (Hm : searchsorted_right lam x = List.length lam).
  { destruct (Nat.eq_dec (searchsorted_right lam x) (List.length lam)) as [E|NE];
      [exact E|]. exfalso.
    destruct (searchsorted_right_split lam x _ hi Hs Hhi) as [_ Hout].
    assert (x < hi) by (apply Hout; lia). lra. }
  rewrite Hm. unfold clip1. lia.
Qed.

(** X2: a target below the first tabulated wavelength is given the value of
    the first segment continued to the left, and a target at or beyond the
    last one the value of the last segment continued to the right. *)
Theorem qso_spectrum_continues_edge_segments
    (g : SpectrumGenerator) (redshift : Q) (filename : option string)
    (w : World) (data : list (list Q)) (lam flux : list Q)
    (l0 l1 f0 f1 lp hi fp fh : Q) :
  loadtxt w (or_default filename (template_path w "qso_background_COS_HST.txt"))
    = ok data ->
  column data 0 = ok lam ->
  column data 1 = ok flux ->
  strictly_increasing (List.map (fun l => l + l * redshift) lam) = true ->
  List.map (fun l => l + l * redshift) lam !! 0%nat = Some l0 ->
  List.map (fun l => l + l * redshift) lam !! 1%nat = Some l1 ->
  flux !! 0%nat = Some f0 ->
  flux !! 1%nat = Some f1 ->
  List.map (fun l => l + l * redshift) lam !! (List.length lam - 2)%nat = Some lp ->
  List.map (fun l => l + l * redshift) lam !! (List.length lam - 1)%nat = Some hi ->
  flux !! (List.length lam - 2)%nat = Some fp ->
  flux !! (List.length lam - 1)%nat = Some fh ->
  exists r,
    _get_qso_spectrum g redshift filename w = ok r /\
    forall (i : nat) (x : Q),
      lambda_bins g !! i = Some x ->
      (x < l0 ->
       r !! i = Some (Finite ((f1 - f0) / (l1 - l0) * (x - l1) + f1))) /\
      (hi <= x ->
       r !! i = Some (Finite ((fh - fp) / (hi - lp) * (x - hi) + fh))).
Proof.
  intros Hload Hlam Hflux Hs H0 H1 Hf0 Hf1 Hp Hh Hfp Hfh.
  destruct (column_length _ _ _ Hlam) as [Ll Hn].
  destruct (column_length _ _ _ Hflux) as [Lf _].
  rewrite (qso_spectrum_of_table g redshift filename w data lam flux Hload Hlam Hflux).
  set (shifted := List.map (fun l => l + l * redshift) lam) in *.
  assert (Hsl : List.length shifted = List.length lam)
    by (subst shifted; apply List.length_map).
  destruct (interpolate_values shifted flux (lambda_bins g)) as [r [Hr Hv]];
    [congruence | exact Hs | lia |].
  exists r. split; [exact Hr|].
  intros i x Hx.
  destruct (Forall2_lookup_l _ _ _ _ _ Hv Hx)
    as (y & Hy & f_i & f_p & l_i & l_p & Hfi & Hfp' & Hli & Hlp & Hlt & ->).
  split; intros Hcase.
  - assert (Hrow : row_of shifted x = 1%Z)
      by (apply (row_of_below shifted x l0 Hs); [lia | exact H0 | exact Hcase]).
    rewrite Hrow in *.
    change (Z.to_nat 1) with 1%nat in *.
    change (Z.to_nat (1 - 1)) with 0%nat in *.
    rewrite Hy. repeat f_equal; congruence.
  - assert (Hrow : row_of shifted x = (Z.of_nat (List.length shifted) - 1)%Z)
      by (apply (row_of_above shifted x hi Hs);
          [lia | rewrite Hsl; exact Hh | exact Hcase]).
    rewrite Hrow in *.
    replace (Z.to_nat (Z.of_nat (List.length shifted) - 1))
      with (List.length lam - 1)%nat in * by lia.
    replace (Z.to_nat (Z.of_nat (List.length shifted) - 1 - 1))
      with (List.length lam - 2)%nat in * by lia.
    rewrite Hy. repeat f_equal; congruence.
Qed.

Lemma qso_spectrum_continues_edge_segments_witness :
  exists r,
    _get_qso_spectrum (Examples.generator [999; 1003] None) 0
        (Some "qso.txt"%string) Examples.qso_world = ok r /\
    r !! 0%nat
    = Some (Finite ((0 - 1) / (1001 + 1001 * 0 - (1000 + 1000 * 0))
                    * (999 - (1001 + 1001 * 0)) + 0)) /\
    r !! 1%nat
    = Some (Finite ((0 - 1) / (1001 + 1001 * 0 - (1000 + 1000 * 0))
                    * (1003 - (1001 + 1001 * 0)) + 0)).
Proof.
  destruct (qso_spectrum_continues_edge_segments
              (Examples.generator [999; 1003] None) 0
              (Some "qso.txt"%string) Examples.qso_world Examples.qso_rows
              [1000; 1001] [1; 0]
              (1000 + 1000 * 0) (1001 + 1001 * 0) 1 0
              (1000 + 1000 * 0) (1001 + 1001 * 0) 1 0)
    as [r [Hr Hedge]]; try reflexivity.
  exists r. split; [exact Hr|]. split.
  - destruct (Hedge 0%nat 999 eq_refl) as [Hlow _].
    apply Hlow. vm_compute; reflexivity.
  - destruct (Hedge 1%nat 1003 eq_refl) as [_ Hhigh].
    apply Hhigh. vm_compute; discriminate.
Defined.

(** ** X3: inside the table the exact values stay within the tabulated fluxes *)

Lemma segment_between_bounds (f_i f_p l_i l_p x m M : Q) :
  l_p < l_i -> l_p <= x -> x <= l_i ->
  m <= f_p -> f_p <= M -> m <= f_i -> f_i <= M ->
  m <= (f_i - f_p) / (l_i - l_p) * (x - l_i) + f_i /\
  (f_i - f_p) / (l_i - l_p) * (x - l_i) + f_i <= M.
Proof.
  intros Hlt H1 H2 Hpm HpM Him HiM.
  pose proof (segment_between_nonneg (f_i - m) (f_p - m) l_i l_p x Hlt H1 H2) as Hlow.
  pose proof (segment_between_nonneg (M - f_i) (M - f_p) l_i l_p x Hlt H1 H2) as Hup.
  assert (E1 : (f_i - m - (f_p - m)) / (l_i - l_p) * (x - l_i) + (f_i - m)
               == (f_i - f_p) / (l_i - l_p) * (x - l_i) + f_i - m)
    by (field; lra).
  assert (E2 : (M - f_i - (M - f_p)) / (l_i - l_p) * (x - l_i) + (M - f_i)
               == M - ((f_i - f_p) / (l_i - l_p) * (x - l_i) + f_i))
    by (field; lra).
  rewrite E1 in Hlow. rewrite E2 in Hup.
  split; [assert (0 <= f_p - m) by lra; assert (0 <= f_i - m) by lra
         | assert (0 <= M - f_p) by lra; assert (0 <= M - f_i) by lra];
    [specialize (Hlow ltac:(assumption) ltac:(assumption))
    | specialize (Hup ltac:(assumption) ltac:(assumption))]; lra.
Qed.

(** X3: in exact arithmetic, at a target between the first and the last
    (shifted) tabulated wavelength the QSO spectrum is finite and lies
    between any lower and upper bound of the tabulated fluxes.  On doubles
    rounding can leave a value just outside these bounds. *)
Theorem qso_spectrum_within_tabulated_range
    (g : SpectrumGenerator) (redshift : Q) (filename : option string)
    (w : World) (data : list (list Q)) (lam flux : list Q) (lo hi m M : Q) :
  loadtxt w (or_default filename (template_path w "qso_background_COS_HST.txt"))
    = ok data ->
  column data 0 = ok lam ->
  column data 1 = ok flux ->
  strictly_increasing (List.map (fun l => l + l * redshift) lam) = true ->
  List.map (fun l => l + l * redshift) lam !! 0%nat = Some lo ->
  List.map (fun l => l + l * redshift) lam !! (List.length lam - 1)%nat = Some hi ->
  Forall (fun v => m <= v /\ v <= M) flux ->
  exists r,
    _get_qso_spectrum g redshift filename w = ok r /\
    forall (i : nat) (x : Q),
      lambda_bins g !! i = Some x -> lo <= x -> x <= hi ->
      exists y, r !! i = Some (Finite y) /\ m <= y /\ y <= M.
Proof.
  intros Hload Hlam Hflux Hs Hlo Hhi Hbound.
  destruct (column_length _ _ _ Hlam) as [Ll Hn].
  destruct (column_length _ _ _ Hflux) as [Lf _].
  rewrite (qso_spectrum_of_table g redshift filename w data lam flux Hload Hlam Hflux).
  set (shifted := List.map (fun l => l + l * redshift) lam) in *.
  assert (Hsl : List.length shifted = List.length lam)
    by (subst shifted; apply List.length_map).
  destruct (interpolate_values shifted flux (lambda_bins g)) as [r [Hr Hv]];
    [congruence | exact Hs | lia |].
  exists r. split; [exact Hr|].
  intros i x Hx Hge Hle.
  destruct (Forall2_lookup_l _ _ _ _ _ Hv Hx)
    as (y & Hy & f_i & f_p & l_i & l_p & Hfi & Hfp & Hli & Hlp & Hlt & ->).
  eexists. split; [exact Hy|].
  destruct (row_of_brackets shifted x lo hi Hs) as (l_p' & l_i' & Hp' & Hi' & H1 & H2 & _);
    [lia | exact Hlo | rewrite Hsl; exact Hhi | exact Hge | exact Hle |].
  assert (l_p' = l_p) by congruence. assert (l_i' = l_i) by congruence. subst.
  rewrite Forall_lookup in Hbound.
  destruct (Hbound _ _ Hfp) as [? ?]. destruct (Hbound _ _ Hfi) as [? ?].
  apply segment_between_bounds; assumption.
Qed.

Lemma qso_spectrum_within_tabulated_range_witness :
  exists r,
    _get_qso_spectrum (Examples.generator [2001 # 2] None) 0
        (Some "qso.txt"%string) Examples.qso_world = ok r /\
    exists y, r !! 0%nat = Some (Finite y) /\ 0 <= y /\ y <= 1.
Proof.
  destruct (qso_spectrum_within_tabulated_range
              (Examples.generator [2001 # 2] None) 0
              (Some "qso.txt"%string) Examples.qso_world Examples.qso_rows
              [1000; 1001] [1; 0] (1000 + 1000 * 0) (1001 + 1001 * 0) 0 1)
    as [r [Hr Hin]]; try reflexivity.
  - repeat constructor; cbn; lra.
  - exists r. split; [exact Hr|].
    apply (Hin 0%nat (2001 # 2)); [reflexivity | |]; vm_compute; discriminate.
Defined.

(** ** X4: the Milky-Way foreground is the plain interpolation up to the limit *)



(** ** X5: the two multiplicative stages commute *)

Lemma interpolate_length (lam flux targets : list Q) (r : list npfloat) :
  interpolate lam flux targets = ok r -> List.length r = List.length targets.
Proof.
  unfold interpolate. destruct (digitize _ _) as [|index] eqn:Hd; [discriminate|].
  cbn. intros Hr. apply mapM_Forall2 in Hr.
  rewrite <- (Forall2_length _ _ _ Hr), List.length_combine.
  unfold digitize in Hd. destruct (_ =? 0)%Z; [discriminate|].
  apply ok_inj in Hd. subst index. unfold clip.
  rewrite !List.length_map. lia.
Qed.

Lemma qso_spectrum_length (g : SpectrumGenerator) (redshift : Q)
    (filename : option string) (w : World) (r : list npfloat) :
  _get_qso_spectrum g redshift filename w = ok r ->
  List.length r = List.length (lambda_bins g).
Proof.
  unfold _get_qso_spectrum.
  destruct (loadtxt _ _) as [|data]; [discriminate|]. cbn.
  destruct (column data 0) as [|lam]; [discriminate|]. cbn.
  destruct (column data 1) as [|flux]; [discriminate|]. cbn.
  apply interpolate_length.
Qed.

Lemma milky_way_length (g : SpectrumGenerator)
    (filename : option string) (w : World) (r : list npfloat) :
  _get_milky_way_foreground g filename w = ok r ->
  List.length r = List.length (lambda_bins g).
Proof.
  unfold _get_milky_way_foreground.
  destruct (loadtxt _ _) as [|data]; [discriminate|]. cbn.
  destruct (column data 0) as [|lam]; [discriminate|]. cbn.
  destruct (column data 1) as [|flux]; [discriminate|]. cbn.
  destruct (interpolate _ _ _) as [|my_flux] eqn:Hi; [discriminate|]. cbn.
  intros H. apply ok_inj in H. subst r.
  apply map2_length. symmetry. exact (interpolate_length _ _ _ _ Hi).
Qed.

Lemma inplace_same_length (op : npfloat -> npfloat -> npfloat)
    (out other : list npfloat) :
  List.length other = List.length out ->
  inplace op out other = ok (map2 op out other).
Proof. intros H. unfold inplace. rewrite H, Nat.eqb_refl. reflexivity. Qed.

Lemma fmul_swap (a b c : npfloat) :
  feq (fmul (fmul a b) c) (fmul (fmul a c) b).
Proof. destruct a, b, c; cbn; try exact I. ring. Qed.

Lemma map2_fmul_swap (f p q : list npfloat) :
  List.length p = List.length f -> List.length q = List.length f ->
  Forall2 feq (map2 fmul (map2 fmul f p) q) (map2 fmul (map2 fmul f q) p).
Proof.
  revert p q. induction f as [|a f IH]; intros [|b p] [|c q] Hp Hq;
    cbn in *; try discriminate; constructor.
  - apply fmul_swap.
  - apply IH; lia.
Qed.

(** X5: when both templates can be read and the generator's flux field has
    one entry for each bin, applying the QSO spectrum and then the
    Milky-Way foreground leaves the same flux field as applying them in the
    other order. *)
Theorem template_stages_commute
    (g : SpectrumGenerator) (redshift : Q) (qso_file mw_file : option string)
    (w : World) (rq rm f : list npfloat) :
  _get_qso_spectrum g redshift qso_file w = ok rq ->
  _get_milky_way_foreground g mw_file w = ok rm ->
  flux_field g = Some f ->
  List.length f = List.length (lambda_bins g) ->
  exists g1 a1 g12 a12 g2 a2 g21 a21,
    add_qso_spectrum g None redshift qso_file w = ok (g1, a1) /\
    add_milky_way_foreground g1 None mw_file w = ok (g12, a12) /\
    add_milky_way_foreground g None mw_file w = ok (g2, a2) /\
    add_qso_spectrum g2 None redshift qso_file w = ok (g21, a21) /\
    flux_field g12 = Some a12 /\
    flux_field g21 = Some a21 /\
    Forall2 feq a12 a21.
Proof.
  intros Hq Hm Hf Hlen.
  pose proof (qso_spectrum_length _ _ _ _ _ Hq) as Lq.
  pose proof (milky_way_length _ _ _ _ Hm) as Lm.
  set (a1 := map2 fmul f rq). set (a2 := map2 fmul f rm).
  assert (L1 : List.length a1 = List.length f)
    by (apply map2_length; congruence).
  assert (L2 : List.length a2 = List.length f)
    by (apply map2_length; congruence).
  exists (with_flux_field g (Some a1)), a1,
         (with_flux_field (with_flux_field g (Some a1)) (Some (map2 fmul a1 rm))),
         (map2 fmul a1 rm),
         (with_flux_field g (Some a2)), a2,
         (with_flux_field (with_flux_field g (Some a2)) (Some (map2 fmul a2 rq))),
         (map2 fmul a2 rq).
  assert (Hq1 : add_qso_spectrum g None redshift qso_file w
                = ok (with_flux_field g (Some a1), a1)).
  { unfold add_qso_spectrum. rewrite Hq. cbn. rewrite Hf. cbn.
    rewrite inplace_same_length by congruence. reflexivity. }
  assert (Hm2 : add_milky_way_foreground g None mw_file w
                = ok (with_flux_field g (Some a2), a2)).
  { unfold add_milky_way_foreground. rewrite Hm. cbn. rewrite Hf. cbn.
    rewrite inplace_same_length by congruence. reflexivity. }
  split; [exact Hq1|]. split.
  { unfold add_milky_way_foreground.
    change (_get_milky_way_foreground (with_flux_field g (Some a1)) mw_file w)
      with (_get_milky_way_foreground g mw_file w).
    rewrite Hm. cbn.
    rewrite inplace_same_length by congruence. reflexivity. }
  split; [exact Hm2|]. split.
  { unfold add_qso_spectrum.
    change (_get_qso_spectrum (with_flux_field g (Some a2)) redshift qso_file w)
      with (_get_qso_spectrum g redshift qso_file w).
    rewrite Hq. cbn.
    rewrite inplace_same_length by congruence. reflexivity. }
  split; [reflexivity|]. split; [reflexivity|].
  apply map2_fmul_swap; congruence.
Qed.

Lemma template_stages_commute_witness :
  exists g1 a1 g12 a12 g2 a2 g21 a21,
    add_qso_spectrum
        (Examples.generator [1000; 2001 # 2] (Some [Finite 1; Finite 2]))
        None 0 (Some "qso.txt"%string)
        (Examples.world_of (<["qso.txt"%string := TextFile Examples.qso_rows]>
                              (<["mw.txt"%string := TextFile Examples.mw_rows]> ∅)))
      = ok (g1, a1) /\
    add_milky_way_foreground g1 None (Some "mw.txt"%string)
        (Examples.world_of (<["qso.txt"%string := TextFile Examples.qso_rows]>
                              (<["mw.txt"%string := TextFile Examples.mw_rows]> ∅)))
      = ok (g12, a12) /\
    add_milky_way_foreground
        (Examples.generator [1000; 2001 # 2] (Some [Finite 1; Finite 2]))
        None (Some "mw.txt"%string)
        (Examples.world_of (<["qso.txt"%string := TextFile Examples.qso_rows]>
                              (<["mw.txt"%string := TextFile Examples.mw_rows]> ∅)))
      = ok (g2, a2) /\
    add_qso_spectrum g2 None 0 (Some "qso.txt"%string)
        (Examples.world_of (<["qso.txt"%string := TextFile Examples.qso_rows]>
                              (<["mw.txt"%string := TextFile Examples.mw_rows]> ∅)))
      = ok (g21, a21) /\
    flux_field g12 = Some a12 /\
    flux_field g21 = Some a21 /\
    Forall2 feq a12 a21.
Proof.
  eapply (template_stages_commute
            (Examples.generator [1000; 2001 # 2] (Some [Finite 1; Finite 2]))
            0 (Some "qso.txt"%string) (Some "mw.txt"%string)).
  - vm_compute; reflexivity.
  - vm_compute; reflexivity.
  - reflexivity.
  - reflexivity.
Defined.

(** ** X6: a flat spectrum times the template is the template *)

Lemma map2_fmul_ones (n : nat) (r : list npfloat) :
  List.length r = n ->
  Forall2 feq (map2 fmul (List.repeat (Finite 1) n) r) r.
Proof.
  revert r. induction n as [|n IH]; intros [|y r] H; cbn in *;
    try discriminate; constructor.
  - destruct y; cbn; [ring | exact I].
  - apply IH. lia.
Qed.

(** X6: after [make_flat_spectrum], applying the QSO spectrum leaves the
    generator with the interpolated QSO spectrum itself as its flux
    field. *)
Theorem flat_spectrum_takes_template
    (g : SpectrumGenerator) (redshift : Q) (filename : option string)
    (w : World) (rq : list npfloat) :
  _get_qso_spectrum g redshift filename w = ok rq ->
  exists g' a,
    add_qso_spectrum (fst (make_flat_spectrum g)) None redshift filename w
      = ok (g', a) /\
    flux_field g' = Some a /\
    lambda_bins g' = lambda_bins g /\
    Forall2 feq a rq.
Proof.
  intros Hq. pose proof (qso_spectrum_length _ _ _ _ _ Hq) as Lq.
  unfold add_qso_spectrum. cbn [make_flat_spectrum fst].
  change (_get_qso_spectrum (with_flux_field g _) redshift filename w)
    with (_get_qso_spectrum g redshift filename w).
  rewrite Hq. cbn.
  rewrite inplace_same_length by (rewrite List.repeat_length; exact Lq).
  eexists _, _. split; [reflexivity|]. split; [reflexivity|].
  split; [reflexivity|]. apply map2_fmul_ones. exact Lq.
Qed.

Lemma flat_spectrum_takes_template_witness :
  exists g' a,
    add_qso_spectrum
        (fst (make_flat_spectrum (Examples.generator [1000; 2001 # 2] None)))
        None 0 (Some "qso.txt"%string) Examples.qso_world = ok (g', a) /\
    flux_field g' = Some a /\
    lambda_bins g' = [1000; 2001 # 2] /\
    Forall2 feq a
      [Finite ((0 - 1) / (1001 + 1001 * 0 - (1000 + 1000 * 0))
               * (1000 - (1001 + 1001 * 0)) + 0);
       Finite ((0 - 1) / (1001 + 1001 * 0 - (1000 + 1000 * 0))
               * ((2001 # 2) - (1001 + 1001 * 0)) + 0)].
Proof.
  apply (flat_spectrum_takes_template
           (Examples.generator [1000; 2001 # 2] None) 0
           (Some "qso.txt"%string) Examples.qso_world).
  reflexivity.
Defined.

(** ** X7 to X10: more on the noise stage *)

Lemma zero_snr_test (snr : Q) : 0 < snr -> Qeq_bool snr 0 = false.
Proof.
  intros H. destruct (Qeq_bool snr 0) eqn:E; [|reflexivity].
  apply Qeq_bool_iff in E. lra.
Qed.

Lemma scale_test (snr : Q) : 0 < snr -> Qlt_bool (1 / snr) 0 = false.
Proof.
  intros H. destruct (Qlt_bool (1 / snr) 0) eqn:E; [|reflexivity].
  apply Qlt_bool_iff in E. exfalso.
  assert (0 < 1 / snr) by (apply Qlt_shift_div_l; lra). lra.
Qed.

Lemma seed_test (s : Z) :
  (0 <= s < 2 ^ 32)%Z -> ((0 <=? s) && (s <? 2 ^ 32))%Z = true.
Proof.
  intros H. apply andb_true_iff. split; [apply Z.leb_le | apply Z.ltb_lt]; lia.
Qed.

(** A seeded call on the generator's own flux field, with the default
    number of draws. *)
Lemma noise_on_own_flux (gauss_stream : Z -> nat -> Q)
    (g : SpectrumGenerator) (snr : Q) (s : Z) (w : World) (f : list npfloat) :
  (0 <= s < 2 ^ 32)%Z ->
  0 < snr ->
  flux_field g = Some f ->
  List.length (lambda_bins g) = List.length f ->
  fst (add_gaussian_noise gauss_stream g snr None None (Some s) w)
  = ok (with_flux_field g
          (Some (map2 fadd f
                   (List.map (fun k => Finite (0 + 1 / snr * gauss_stream s k))
                             (List.seq 0 (List.length f))))),
        map2 fadd f
          (List.map (fun k => Finite (0 + 1 / snr * gauss_stream s k))
                    (List.seq 0 (List.length f)))).
Proof.
  intros Hs Hsnr Hf Hn. rewrite noise_outcome_eq.
  rewrite (seed_test s Hs), (zero_snr_test snr Hsnr). cbv zeta.
  rewrite (scale_test snr Hsnr), Hn.
  destruct (Z.ltb_spec (Z.of_nat (List.length f)) 0) as [?|_]; [lia|].
  rewrite Nat2Z.id. cbn [target_array]. rewrite Hf. unfold add_in_place.
  rewrite inplace_same_length
    by (rewrite List.length_map, List.length_seq; reflexivity).
  reflexivity.
Qed.

Lemma noise_lookup (gauss_stream : Z -> nat -> Q) (snr : Q) (s : Z)
    (f : list npfloat) (n i : nat) (x : npfloat) :
  f !! i = Some x -> (i < n)%nat ->
  map2 fadd f
    (List.map (fun k => Finite (0 + 1 / snr * gauss_stream s k)) (List.seq 0 n))
    !! i
  = Some (fadd x (Finite (0 + 1 / snr * gauss_stream s i))).
Proof.
  intros Hx Hi. apply map2_lookup; [exact Hx|].
  rewrite lookup_map, lookup_seq_lt by exact Hi. reflexivity.
Qed.

(** X7: two successive calls with the same seed on the generator's own
    flux field do not reproduce the first result: the second call draws
    the same samples again and adds them to the flux that already carries
    them. *)
Theorem seeded_noise_accumulates (gauss_stream : Z -> nat -> Q)
    (g : SpectrumGenerator) (snr : Q) (s : Z) (w : World) (f : list npfloat) :
  (0 <= s < 2 ^ 32)%Z ->
  0 < snr ->
  flux_field g = Some f ->
  List.length (lambda_bins g) = List.length f ->
  exists g1 a1 g2 a2,
    fst (add_gaussian_noise gauss_stream g snr None None (Some s) w) = ok (g1, a1) /\
    fst (add_gaussian_noise gauss_stream g1 snr None None (Some s)
           (snd (add_gaussian_noise gauss_stream g snr None None (Some s) w)))
      = ok (g2, a2) /\
    flux_field g2 = Some a2 /\
    forall (i : nat) (x : npfloat),
      f !! i = Some x ->
      a1 !! i = Some (fadd x (Finite (0 + 1 / snr * gauss_stream s i))) /\
      a2 !! i = Some (fadd (fadd x (Finite (0 + 1 / snr * gauss_stream s i)))
                           (Finite (0 + 1 / snr * gauss_stream s i))).
Proof.
  intros Hs Hsnr Hf Hn.
  set (noise := List.map (fun k => Finite (0 + 1 / snr * gauss_stream s k))
                         (List.seq 0 (List.length f))).
  set (a1 := map2 fadd f noise).
  assert (L1 : List.length a1 = List.length f).
  { apply map2_length. subst noise.
    rewrite List.length_map, List.length_seq. reflexivity. }
  pose proof (noise_on_own_flux gauss_stream g snr s w f Hs Hsnr Hf Hn) as H1.
  fold noise in H1. fold a1 in H1.
  pose proof (noise_on_own_flux gauss_stream (with_flux_field g (Some a1)) snr s
                (snd (add_gaussian_noise gauss_stream g snr None None (Some s) w))
                a1 Hs Hsnr eq_refl) as H2.
  cbn [lambda_bins with_flux_field] in H2. rewrite L1 in H2.
  specialize (H2 Hn). fold noise in H2.
  eexists _, _, _, _. split; [exact H1|]. split; [exact H2|].
  split; [reflexivity|].
  intros i x Hx. pose proof (lookup_lt_Some _ _ _ Hx) as Hi.
  assert (Ha1 : a1 !! i = Some (fadd x (Finite (0 + 1 / snr * gauss_stream s i))))
    by (apply noise_lookup; assumption).
  split; [exact Ha1|]. apply noise_lookup; assumption.
Qed.

Lemma seeded_noise_accumulates_witness :
  exists g1 a1 g2 a2,
    fst (add_gaussian_noise Examples.variates
           (Examples.generator [1; 2] (Some [Finite 1; Finite 1]))
           10 None None (Some 42%Z) (Examples.world_of ∅)) = ok (g1, a1) /\
    fst (add_gaussian_noise Examples.variates g1 10 None None (Some 42%Z)
           (snd (add_gaussian_noise Examples.variates
                   (Examples.generator [1; 2] (Some [Finite 1; Finite 1]))
                   10 None None (Some 42%Z) (Examples.world_of ∅))))
      = ok (g2, a2) /\
    flux_field g2 = Some a2 /\
    a1 !! 0%nat
    = Some (fadd (Finite 1) (Finite (0 + 1 / 10 * Examples.variates 42 0%nat))) /\
    a2 !! 0%nat
    = Some (fadd (fadd (Finite 1) (Finite (0 + 1 / 10 * Examples.variates 42 0%nat)))
                 (Finite (0 + 1 / 10 * Examples.variates 42 0%nat))).
Proof.
  destruct (seeded_noise_accumulates Examples.variates
              (Examples.generator [1; 2] (Some [Finite 1; Finite 1]))
              10 42%Z (Examples.world_of ∅) [Finite 1; Finite 1])
    as (g1 & a1 & g2 & a2 & H1 & H2 & Hf & Hval);
    [lia | reflexivity | reflexivity | reflexivity |].
  exists g1, a1, g2, a2. split; [exact H1|]. split; [exact H2|].
  split; [exact Hf|]. apply (Hval 0%nat (Finite 1)). reflexivity.
Defined.

(** X8: with [n_bins=1] a single sample is drawn and added to every entry
    of the target array. *)
Theorem single_draw_shifts_every_bin (gauss_stream : Z -> nat -> Q)
    (g : SpectrumGenerator) (snr : Q) (out : option (list npfloat))
    (s : Z) (w : World) (f : list npfloat) :
  (0 <= s < 2 ^ 32)%Z ->
  0 < snr ->
  target_array g out = Some f ->
  exists new,
    returned_array
      (add_gaussian_noise gauss_stream g snr (Some 1%Z) out (Some s) w) = ok new /\
    List.length new = List.length f /\
    forall (i : nat) (x : npfloat),
      f !! i = Some x ->
      new !! i = Some (fadd x (Finite (0 + 1 / snr * gauss_stream s 0%nat))).
Proof.
  intros Hs Hsnr Ht. unfold returned_array. rewrite noise_outcome_eq, Ht.
  rewrite (seed_test s Hs), (zero_snr_test snr Hsnr). cbv zeta.
  rewrite (scale_test snr Hsnr).
  change (1 <? 0)%Z with false. change (Z.to_nat 1) with 1%nat.
  cbn [List.seq List.map]. unfold add_in_place, inplace. cbn [List.length].
  destruct (Nat.eqb_spec 1 (List.length f)) as [E|NE].
  - destruct f as [|x [|x' f]]; try discriminate. cbn.
    eexists. split; [reflexivity|]. split; [reflexivity|].
    intros [|i] y Hy; cbn in Hy; [|discriminate].
    injection Hy as <-. reflexivity.
  - cbn. eexists. split; [reflexivity|]. split; [apply List.length_map|].
    intros i x Hx. rewrite lookup_map, Hx. reflexivity.
Qed.

Lemma single_draw_shifts_every_bin_witness :
  exists new,
    returned_array
      (add_gaussian_noise Examples.variates
         (Examples.generator [1; 2; 3] (Some [Finite 1; Finite 2; Finite 3]))
         10 (Some 1%Z) None (Some 42%Z) (Examples.world_of ∅)) = ok new /\
    List.length new = 3%nat /\
    new !! 2%nat
    = Some (fadd (Finite 3) (Finite (0 + 1 / 10 * Examples.variates 42 0%nat))).
Proof.
  destruct (single_draw_shifts_every_bin Examples.variates
              (Examples.generator [1; 2; 3] (Some [Finite 1; Finite 2; Finite 3]))
              10 None 42%Z (Examples.world_of ∅) [Finite 1; Finite 2; Finite 3])
    as (new & Hrun & Hlen & Hval); [lia | reflexivity | reflexivity |].
  exists new. split; [exact Hrun|]. split; [exact Hlen|].
  apply Hval. reflexivity.
Defined.

(** X9: a number of draws that is neither 1 nor the length of the target
    array cannot be added to it: the call raises ValueError. *)
Theorem mismatched_draws_are_refused (gauss_stream : Z -> nat -> Q)
    (g : SpectrumGenerator) (snr : Q) (n : Z) (out : option (list npfloat))
    (s : Z) (w : World) (f : list npfloat) :
  (0 <= s < 2 ^ 32)%Z ->
  0 < snr ->
  target_array g out = Some f ->
  (0 <= n)%Z -> n <> 1%Z -> n <> Z.of_nat (List.length f) ->
  returned_array
    (add_gaussian_noise gauss_stream g snr (Some n) out (Some s) w)
  = raise (ValueError "operands could not be broadcast together").
Proof.
  intros Hs Hsnr Ht Hn0 Hn1 Hnf. unfold returned_array.
  rewrite noise_outcome_eq, Ht.
  rewrite (seed_test s Hs), (zero_snr_test snr Hsnr). cbv zeta.
  rewrite (scale_test snr Hsnr).
  destruct (Z.ltb_spec n 0) as [?|_]; [lia|].
  unfold add_in_place, inplace. rewrite List.length_map, List.length_seq.
  destruct (Nat.eqb_spec (Z.to_nat n) (List.length f)) as [E|_]; [lia|].
  destruct (Z.to_nat n) as [|[|k]] eqn:E; [reflexivity | lia | reflexivity].
Qed.

Lemma mismatched_draws_are_refused_witness :
  returned_array
    (add_gaussian_noise Examples.variates
       (Examples.generator [1; 2; 3] (Some [Finite 1; Finite 2; Finite 3]))
       10 (Some 2%Z) None (Some 42%Z) (Examples.world_of ∅))
  = raise (ValueError "operands could not be broadcast together").
Proof.
  apply (mismatched_draws_are_refused Examples.variates
           (Examples.generator [1; 2; 3] (Some [Finite 1; Finite 2; Finite 3]))
           10 2%Z None 42%Z (Examples.world_of ∅)
           [Finite 1; Finite 2; Finite 3]);
    first [lia | reflexivity | discriminate].
Defined.

(** X10: a signal-to-noise ratio that is not positive never yields noise:
    zero raises ZeroDivisionError and a negative one ValueError, in both
    cases after the global generator has been reseeded. *)
Theorem nonpositive_snr_fails_after_reseeding (gauss_stream : Z -> nat -> Q)
    (g : SpectrumGenerator) (snr : Q) (n_bins : option Z)
    (out : option (list npfloat)) (s : Z) (w : World) :
  (0 <= s < 2 ^ 32)%Z ->
  (snr == 0 ->
   add_gaussian_noise gauss_stream g snr n_bins out (Some s) w
   = (raise (ZeroDivisionError "float division by zero"),
      set_rng w (gauss_stream s) (urandom w))) /\
  (snr < 0 ->
   add_gaussian_noise gauss_stream g snr n_bins out (Some s) w
   = (raise (ValueError "scale < 0"),
      set_rng w (gauss_stream s) (urandom w))).
Proof.
  intros Hs.
  unfold add_gaussian_noise, Mbind, random_seed, lift, random_normal, Mret,
    Py.bind, ok, raise.
  rewrite (seed_test s Hs). split; intros Hsnr.
  - apply Qeq_bool_iff in Hsnr. rewrite Hsnr. reflexivity.
  - assert (E1 : Qeq_bool snr 0 = false).
    { destruct (Qeq_bool snr 0) eqn:E; [|reflexivity].
      apply Qeq_bool_iff in E. lra. }
    assert (E2 : Qlt_bool (1 / snr) 0 = true).
    { apply Qlt_bool_iff.
      assert (H1 : 0 < / (- snr)) by (apply Qinv_lt_0_compat; lra).
      assert (H2 : 1 / snr == - / (- snr)) by (field; lra).
      rewrite H2. lra. }
    rewrite E1, E2. reflexivity.
Qed.

Lemma nonpositive_snr_fails_after_reseeding_witness :
  add_gaussian_noise Examples.variates
    (Examples.generator [1; 2] (Some [Finite 1; Finite 1]))
    (-3) None None (Some 42%Z) (Examples.world_of ∅)
  = (raise (ValueError "scale < 0"),
     set_rng (Examples.world_of ∅) (Examples.variates 42)
             (urandom (Examples.world_of ∅))).
Proof.
  apply (nonpositive_snr_fails_after_reseeding Examples.variates
           (Examples.generator [1; 2] (Some [Finite 1; Finite 1]))
           (-3) None None 42%Z (Examples.world_of ∅)); [lia|].
  vm_compute; reflexivity.
Defined.

(** ** X11 and X12: the ionization table of a new generator *)

Section ConstructionFacts.

Variable AbsorptionSpectrum_init : Instrument -> result (list Q).
Variable LineDatabase_init : string -> World -> result (list Line).

(** X11: a construction that names an ionization table never returns a
    generator; when the instrument resolves, the bins are laid out and the
    line database is read, what it raises is the NameError of the unbound
    name [filename]. *)
Theorem named_ionization_table_is_never_accepted
    (instrument : instrument_arg) (lambda_min lambda_max : option Q)
    (n_lambda : option Z) (dlambda : option Q) (kernel : option string)
    (line_database table : string) (w : World) :
  (forall g,
     fst (__init__ AbsorptionSpectrum_init LineDatabase_init instrument
            lambda_min lambda_max n_lambda dlambda kernel line_database
            (Some table) w) <> ok g) /\
  (forall i w1 bins lines,
     resolve_instrument instrument lambda_min lambda_max n_lambda dlambda kernel w
       = (ok i, w1) ->
     AbsorptionSpectrum_init i = ok bins ->
     LineDatabase_init line_database
       (mylog_info ("Setting instrument to " +:+ name i) w1) = ok lines ->
     fst (__init__ AbsorptionSpectrum_init LineDatabase_init instrument
            lambda_min lambda_max n_lambda dlambda kernel line_database
            (Some table) w)
     = raise (NameError "global name 'filename' is not defined")).
Proof.
  split.
  - intros g. unfold __init__, Mbind, lift, reading, info, Mret.
    destruct (resolve_instrument _ _ _ _ _ _ w) as [[e|i] w1]; [discriminate|].
    destruct (AbsorptionSpectrum_init i) as [e|bins]; [discriminate|].
    destruct (LineDatabase_init _ _) as [e|lines]; discriminate.
  - intros i w1 bins lines Hi Hb Hl.
    unfold __init__, Mbind, lift, reading, info, Mret.
    unfold ok, raise in *.
    rewrite Hi. cbv beta iota. rewrite Hb. cbv beta iota.
    rewrite Hl. reflexivity.
Qed.

End ConstructionFacts.

Lemma named_ionization_table_is_never_accepted_witness :
  fst (__init__ Examples.two_point_grid Examples.no_lines
         (ArgStr "COS") None None None None None "lines.txt"
         (Some "hm2012_hr.h5"%string) (Examples.world_of ∅))
  = raise (NameError "global name 'filename' is not defined").
Proof.
  eapply (named_ionization_table_is_never_accepted
            Examples.two_point_grid Examples.no_lines);
    reflexivity.
Defined.

Lemma existsb_filter_name (p : string -> bool) (nm : string) (l : list string) :
  existsb (String.eqb nm) (List.filter p l) = true <-> List.In nm l /\ p nm = true.
Proof.
  rewrite List.existsb_exists. split.
  - intros [x [Hin Heq]]. apply String.eqb_eq in Heq. subst x.
    apply List.filter_In in Hin. exact Hin.
  - intros [Hin Hp]. exists nm. split; [|apply String.eqb_refl].
    apply List.filter_In. split; assumption.
Qed.

(** X12: when no table is named, the high-resolution table hm2012_hr.h5 is
    chosen whenever the directory lists it, otherwise hm2012_lr.h5 when that
    is listed, and a directory without any '.h5' file makes the choice fail
    with IndexError; the two named choices log nothing. *)
Theorem default_ionization_table_preference (w : World) (filelist : list string) :
  directories w !! path_join (module_dir w) "../data/ion_balance" = Some filelist ->
  (List.In "hm2012_hr.h5"%string filelist ->
   default_ionization_table w = (ok (ion_balance_path w "hm2012_hr.h5"), w)) /\
  (~ List.In "hm2012_hr.h5"%string filelist ->
   List.In "hm2012_lr.h5"%string filelist ->
   default_ionization_table w = (ok (ion_balance_path w "hm2012_lr.h5"), w)) /\
  ((forall f, List.In f filelist -> endswith f ".h5" = false) ->
   default_ionization_table w = (raise (IndexError "list index out of range"), w)).
Proof.
  intros Hdir. unfold default_ionization_table, listdir. rewrite Hdir.
  unfold ok, raise. cbv beta iota.
  split; [|split].
  - intros Hin.
    assert (E : existsb (String.eqb "hm2012_hr.h5")
                        (List.filter (fun i => endswith i ".h5") filelist) = true)
      by (apply existsb_filter_name; split; [exact Hin | reflexivity]).
    rewrite E. reflexivity.
  - intros Hno Hin.
    assert (E1 : existsb (String.eqb "hm2012_hr.h5")
                         (List.filter (fun i => endswith i ".h5") filelist) = false).
    { destruct (existsb _ _) eqn:E; [|reflexivity].
      apply existsb_filter_name in E. destruct E as [E _]. contradiction. }
    assert (E2 : existsb (String.eqb "hm2012_lr.h5")
                         (List.filter (fun i => endswith i ".h5") filelist) = true)
      by (apply existsb_filter_name; split; [exact Hin | reflexivity]).
    rewrite E1, E2. reflexivity.
  - intros Hnone.
    assert (E : List.filter (fun i => endswith i ".h5") filelist = []).
    { clear Hdir. induction filelist as [|f l IH]; [reflexivity|].
      cbn [List.filter]. rewrite (Hnone f) by (left; reflexivity).
      apply IH. intros f' Hf'. apply Hnone. right; exact Hf'. }
    rewrite E. reflexivity.
Qed.

Lemma default_ionization_table_preference_witness :
  default_ionization_table
    (mkWorld ∅ (<["trident/../data/ion_balance"%string
                  := ["notes.txt"; "hm2012_lr.h5"; "other.h5"]%string]> ∅)
             [] (fun _ => 0) (fun _ _ => 0) "trident")
  = (ok "trident/../data/ion_balance/hm2012_lr.h5"%string,
     mkWorld ∅ (<["trident/../data/ion_balance"%string
                  := ["notes.txt"; "hm2012_lr.h5"; "other.h5"]%string]> ∅)
             [] (fun _ => 0) (fun _ _ => 0) "trident").
Proof.
  pose (w := mkWorld ∅ (<["trident/../data/ion_balance"%string
                          := ["notes.txt"; "hm2012_lr.h5"; "other.h5"]%string]> ∅)
                     [] (fun _ => 0) (fun _ _ => 0) "trident").
  assert (Hdir : directories w !! path_join (module_dir w) "../data/ion_balance"
                 = Some ["notes.txt"; "hm2012_lr.h5"; "other.h5"]%string)
    by (vm_compute; reflexivity).
  destruct (default_ionization_table_preference w _ Hdir) as (_ & Hlr & _).
  apply Hlr.
  - intros [H|[H|[H|[]]]]; discriminate.
  - right; left; reflexivity.
Defined.

(** ** X13: the presets *)

(** X13: every name of [valid_instruments] is accepted by
    [set_instrument] and binds an instrument that carries that name, has
    bins of 0.01 angstrom and a lower bound below its upper bound; every
    preset but COS comes without a kernel, so that [apply_lsf] without
    arguments raises RuntimeError on it, before anything is logged. *)
Theorem presets_and_their_kernels (s : string) (i : Instrument) :
  dict_get valid_instruments s = Some i ->
  name i = s /\
  dlambda i = Some (1 # 100) /\
  lambda_min i < lambda_max i /\
  (forall g, set_instrument g (ArgStr s) = ok (with_instrument g i)) /\
  (s <> "COS"%string ->
   forall LSF_kernel g w,
     apply_lsf LSF_kernel (with_instrument g i) None None None w
     = (raise (RuntimeError
          "To apply a line spread function, you must specify one or use an instrument where one is defined."),
        w)).
Proof.
  intros Hget.
  assert (Hset : forall g, set_instrument g (ArgStr s) = ok (with_instrument g i)).
  { intros g. unfold set_instrument, set_instrument_value.
    rewrite Hget. reflexivity. }
  unfold valid_instruments in Hget. cbn [dict_get] in Hget.
  repeat match type of Hget with
         | (if String.eqb ?k s then _ else _) = _ =>
             destruct (String.eqb_spec k s) as [<-|_]
         end;
    try discriminate; injection Hget as <-;
    (split; [reflexivity|]); (split; [reflexivity|]);
    (split; [reflexivity|]); (split; [exact Hset|]);
    intros Hne; try (exfalso; apply Hne; reflexivity);
    intros LSF_kernel g w; reflexivity.
Qed.

Lemma presets_and_their_kernels_witness :
  name (preset 1200 1400 (1 # 100) None "HIRES") = "HIRES"%string /\
  set_instrument (Examples.generator [] None) (ArgStr "HIRES")
    = ok (with_instrument (Examples.generator [] None)
            (preset 1200 1400 (1 # 100) None "HIRES")) /\
  apply_lsf Examples.boxcar_reader
    (with_instrument (Examples.generator [] None)
       (preset 1200 1400 (1 # 100) None "HIRES"))
    None None None (Examples.world_of ∅)
  = (raise (RuntimeError
       "To apply a line spread function, you must specify one or use an instrument where one is defined."),
     Examples.world_of ∅).
Proof.
  destruct (presets_and_their_kernels "HIRES"
              (preset 1200 1400 (1 # 100) None "HIRES") eq_refl)
    as (Hname & _ & _ & Hset & Hlsf).
  split; [exact Hname|]. split; [apply Hset|].
  apply Hlsf. discriminate.
Defined.

(** ** X14 and X15: the loop over the active lines *)

Lemma getitem_head {A} (x : A) (l : list A) : getitem (x :: l) 0 = ok x.
Proof. reflexivity. Qed.

Section LineLoop.

Variable Dataset : Type.
Variable determine_fields : Dataset -> string -> bool.
Variable derived_field_list : Dataset -> list string.
Variable add_ion_number_density_field :
  string -> Z -> string -> Dataset -> result Dataset.
Variable atomic_mass : list (string * Q).

Local Abbreviation loop :=
  (resolve_lines Dataset determine_fields derived_field_list
                 add_ion_number_density_field atomic_mass) (only parsing).

Local Abbreviation turn :=
  (resolve_line Dataset determine_fields derived_field_list
                add_ion_number_density_field atomic_mass) (only parsing).

Lemma resolve_lines_app (st : SpectrumGenerator * locals * Dataset)
    (a b : list Line) :
  loop st (a ++ b) = let* st' := loop st a in loop st' b.
Proof.
  revert st. induction a as [|line a IH]; intros st; [reflexivity|].
  cbn [resolve_lines List.app].
  destruct (resolve_line _ _ _ _ _ st line) as [e|st']; [reflexivity|].
  cbn. apply IH.
Qed.

Lemma resolve_lines_known (g : SpectrumGenerator) (loc : locals) (ds : Dataset)
    (lines : list Line) (masses : list Q) :
  Forall (fun line => determine_fields ds (field line) = true) lines ->
  Forall2 (fun line m => dict_get atomic_mass (element line) = Some m)
          lines masses ->
  loop (g, loc, ds) lines
  = ok (mkGenerator (instrument g) (lambda_bins g) (flux_field g)
          (line_database g) (ionization_table g)
          (line_list g
           ++ map2 (fun line m =>
                      mkRegisteredLine (identifier line) (field line)
                        (wavelength line) (f_value line) (gamma line) m 1000)
                   lines masses),
        loc, ds).
Proof.
  intros Hdet Hmass. revert g Hdet.
  induction Hmass as [|line m lines masses Hm _ IH]; intros g Hdet.
  - cbn. rewrite List.app_nil_r. destruct g; reflexivity.
  - inversion Hdet as [|? ? Hline Hrest]; subst.
    cbn [resolve_lines]. unfold resolve_line at 1.
    rewrite Hline, Hm. cbn.
    rewrite (IH _ Hrest). cbn. rewrite <- List.app_assoc. reflexivity.
Qed.

(** X14: when the dataset has the field of every active line, the loop
    asks the ion-balance collaborator for nothing, leaves the dataset and
    the generator's spectrum as they are, and registers the lines in their
    order, each with its atomic mass and the label threshold 1000; it stops
    with KeyError at the first line whose element has no atomic mass. *)
Theorem lines_with_known_fields_are_registered
    (g : SpectrumGenerator) (loc : locals) (ds : Dataset)
    (lines : list Line) (masses : list Q) :
  Forall (fun line => determine_fields ds (field line) = true) lines ->
  Forall2 (fun line m => dict_get atomic_mass (element line) = Some m)
          lines masses ->
  loop (g, loc, ds) lines
  = ok (mkGenerator (instrument g) (lambda_bins g) (flux_field g)
          (line_database g) (ionization_table g)
          (line_list g
           ++ map2 (fun line m =>
                      mkRegisteredLine (identifier line) (field line)
                        (wavelength line) (f_value line) (gamma line) m 1000)
                   lines masses),
        loc, ds) /\
  (forall (line : Line) (rest : list Line),
     determine_fields ds (field line) = true ->
     dict_get atomic_mass (element line) = None ->
     loop (g, loc, ds) (lines ++ line :: rest) = raise (KeyError (element line))).
Proof.
  intros Hdet Hmass. split; [apply resolve_lines_known; assumption|].
  intros line rest Hline Hnone.
  rewrite resolve_lines_app, (resolve_lines_known g loc ds lines masses Hdet Hmass).
  cbn. rewrite Hline, Hnone. reflexivity.
Qed.

(** X15: a field that the dataset cannot determine but lists among its
    derived fields is not parsed at all: on the first such line the loop
    fails with UnboundLocalError, and later it asks the collaborator for
    the element and level left over from the line parsed before. *)
Theorem unparsed_field_uses_stale_ion
    (g : SpectrumGenerator) (ds : Dataset) (line : Line) :
  determine_fields ds (field line) = false ->
  existsb (String.eqb (field line)) (derived_field_list ds) = true ->
  turn (g, (None, None), ds) line = raise (unbound "on_ion") /\
  (forall (e : string) (parts : list string) (level : Z),
     turn (g, (Some (e :: parts), Some level), ds) line
     = let* ds' := add_ion_number_density_field e level (ionization_table g) ds in
       let* mass := match dict_get atomic_mass (element line) with
                    | Some m => ok m
                    | None => raise (KeyError (element line))
                    end in
       ok (with_line g (mkRegisteredLine (identifier line) (field line)
                          (wavelength line) (f_value line) (gamma line) mass 1000),
           (Some (e :: parts), Some level), ds')).
Proof.
  intros Hdet Hlisted. unfold resolve_line, derive_field.
  rewrite Hdet, Hlisted. split; [reflexivity|].
  intros e parts level. cbn [negb]. unfold ok, raise, Py.bind.
  cbn [fst snd]. rewrite (getitem_head e parts). unfold ok.
  destruct (add_ion_number_density_field e level (ionization_table g) ds);
    [reflexivity|].
  cbn [fst snd].
  destruct (dict_get atomic_mass (element line)); reflexivity.
Qed.

End LineLoop.

Lemma lines_with_known_fields_are_registered_witness :
  resolve_lines (list string)
      (fun ds f => existsb (String.eqb f) ds) (fun ds => ds)
      (fun element level table ds => ok ds)
      [("H", 1); ("C", 12)]%string
      (Examples.generator [] None, (None, None),
       ["H_number_density"; "O_p5_number_density"]%string)
      [mkLine "Ly a" "H_number_density" 1216 (4 # 10) 469000000 "H"]
  = ok (mkGenerator Examples.COS [] None [] "hm2012_hr.h5"
          [mkRegisteredLine "Ly a" "H_number_density" 1216 (4 # 10) 469000000 1 1000],
        (None, None), ["H_number_density"; "O_p5_number_density"]%string) /\
  resolve_lines (list string)
      (fun ds f => existsb (String.eqb f) ds) (fun ds => ds)
      (fun element level table ds => ok ds)
      [("H", 1); ("C", 12)]%string
      (Examples.generator [] None, (None, None),
       ["H_number_density"; "O_p5_number_density"]%string)
      ([mkLine "Ly a" "H_number_density" 1216 (4 # 10) 469000000 "H"]
       ++ mkLine "O VI" "O_p5_number_density" 1032 (1 # 10) 416000000 "O" :: [])
  = raise (KeyError "O").
Proof.
  destruct (lines_with_known_fields_are_registered (list string)
              (fun ds f => existsb (String.eqb f) ds) (fun ds => ds)
              (fun element level table ds => ok ds)
              [("H", 1); ("C", 12)]%string
              (Examples.generator [] None) (None, None)
              ["H_number_density"; "O_p5_number_density"]%string
              [mkLine "Ly a" "H_number_density" 1216 (4 # 10) 469000000 "H"]
              [1]) as [Hall Hstop].
  - repeat constructor.
  - repeat constructor.
  - split; [exact Hall|].
    apply (Hstop (mkLine "O VI" "O_p5_number_density" 1032 (1 # 10) 416000000 "O") []);
      reflexivity.
Defined.

Lemma unparsed_field_uses_stale_ion_witness :
  resolve_line (list string) (fun ds f => false) (fun ds => ds)
      (fun element level table ds =>
         ok (("ion " +:+ element +:+ " as listed")%string :: ds))
      [("H", 1); ("O", 16)]%string
      (Examples.generator [] None, (None, None), ["O_p5_number_density"]%string)
      (mkLine "O VI" "O_p5_number_density" 1032 (1 # 10) 416000000 "O")
  = raise (unbound "on_ion") /\
  resolve_line (list string) (fun ds f => false) (fun ds => ds)
      (fun element level table ds =>
         ok (("ion " +:+ element +:+ " as listed")%string :: ds))
      [("H", 1); ("O", 16)]%string
      (Examples.generator [] None, (Some ["C"; "p3"; ""]%string, Some 4%Z),
       ["O_p5_number_density"]%string)
      (mkLine "O VI" "O_p5_number_density" 1032 (1 # 10) 416000000 "O")
  = ok (with_line (Examples.generator [] None)
          (mkRegisteredLine "O VI" "O_p5_number_density" 1032 (1 # 10)
                            416000000 16 1000),
        (Some ["C"; "p3"; ""]%string, Some 4%Z),
        ["ion C as listed"; "O_p5_number_density"]%string).
Proof.
  destruct (unparsed_field_uses_stale_ion (list string) (fun ds f => false)
              (fun ds => ds)
              (fun element level table ds =>
                 ok (("ion " +:+ element +:+ " as listed")%string :: ds))
              [("H", 1); ("O", 16)]%string
              (Examples.generator [] None) ["O_p5_number_density"]%string
              (mkLine "O VI" "O_p5_number_density" 1032 (1 # 10) 416000000 "O")
              eq_refl eq_refl) as [Hfirst Hlater].
  split; [exact Hfirst|]. exact (Hlater "C"%string ["p3"; ""]%string 4%Z).
Defined.

(** ** X16 and X17: field names off the convention *)

Section FieldNameEdges.

Local Open Scope string_scope.
Local Arguments String.append : simpl nomatch.

Lemma slice_to_minus_one (u : string) (a : ascii) :
  PyStr.slice_to (u +:+ String a "") (-1) = u.
Proof.
  unfold PyStr.slice_to. change (-1 <? 0)%Z with true. cbv iota.
  rewrite length_append. cbn [String.length].
  replace (Z.to_nat (Z.max 0 (Z.of_nat (String.length u + 1) + -1)))
    with (String.length u) by lia.
  apply take_chars_app.
Qed.

(** X16: a field name without the marker "number_density" is parsed all
    the same: [find] returns -1, the slice drops the last character, and
    element and level are read off what is left. *)
Theorem field_without_marker_loses_last_character
    (e digits t : string) (c a : ascii) (n : Z) :
  no_underscore e = true ->
  no_underscore (String c digits) = true ->
  PyStr.int digits = ok n ->
  PyStr.find ((e +:+ String "_" (String c digits +:+ String "_" t)) +:+ String a "")
             "number_density" = (-1)%Z ->
  ion_of_field ((e +:+ String "_" (String c digits +:+ String "_" t)) +:+ String a "")
  = ok (e :: String c digits :: PyStr.split "_" t, (n + 1)%Z).
Proof.
  intros He Hs Hint Hfind. unfold ion_of_field.
  rewrite Hfind, slice_to_minus_one.
  rewrite (split_part e _ He), (split_part (String c digits) t Hs).
  destruct (getitem_in_range (e :: String c digits :: PyStr.split "_" t) 1)
    as [v [Hv Hl]]; [cbn [List.length]; lia|].
  rewrite Hv. change (Z.to_nat 1) with 1%nat in Hl.
  change (Some (String c digits) = Some v) in Hl.
  assert (Ev : v = String c digits) by congruence. subst v.
  cbn. rewrite Hint. reflexivity.
Qed.

Lemma field_without_marker_loses_last_character_witness :
  ion_of_field "C_p3_density" = ok (["C"; "p3"; "densit"], 4%Z).
Proof.
  apply (field_without_marker_loses_last_character "C" "3" "densit" "p" "y" 3);
    reflexivity.
Defined.

Lemma tail_is_not_density (c : ascii) (ds t : string) :
  PyStr.startswith ds "e" = false ->
  PyStr.startswith (String c ds +:+ String "_" t) "density" = false.
Proof.
  intros He. cbn [String.append PyStr.startswith].
  destruct (Ascii.eqb "d" c); [|reflexivity]. cbn [andb].
  destruct ds as [|c2 ds]; [reflexivity|].
  cbn [String.append PyStr.startswith] in *.
  destruct (Ascii.eqb "e" c2); [|reflexivity].
  destruct ds; cbn in He; discriminate.
Qed.

(** X17: when the part of the suffix after its first character is not an
    integer, the fallback raises the error of [int] and no field is
    requested. *)
Theorem suffix_that_is_no_integer_is_refused
    (e digits : string) (c : ascii) (err : exn) :
  no_underscore e = true ->
  no_underscore (String c digits) = true ->
  PyStr.startswith digits "e" = false ->
  PyStr.int digits = raise err ->
  ion_of_field (e +:+ "_" +:+ String c digits +:+ "_number_density") = raise err.
Proof.
  intros He Hs Hne Hint. unfold ion_of_field.
  change (e +:+ "_" +:+ String c digits +:+ "_number_density")
    with (e +:+ String "_" (String c digits +:+ String "_" "number_density")).
  unfold PyStr.find.
  rewrite (find_from_skips_part e _ 0 He
             (tail_is_not_density c digits "number_density" Hne)).
  rewrite (find_from_skips_part (String c digits) "number_density" _ Hs eq_refl).
  rewrite find_from_here.
  replace (e +:+ String "_" (String c digits +:+ String "_" "number_density"))
    with ((e +:+ String "_" (String c digits +:+ "_")) +:+ "number_density").
  2:{ rewrite append_assoc. f_equal. simpl. f_equal.
      change (String c (digits +:+ "_")) with (String c digits +:+ "_").
      change (String c (digits +:+ String "_" "number_density"))
        with (String c digits +:+ String "_" "number_density").
      rewrite append_assoc. reflexivity. }
  replace (0 + String.length e + 1 + String.length (String c digits) + 1)%nat
    with (String.length (e +:+ String "_" (String c digits +:+ "_"))).
  2:{ rewrite length_append. simpl. rewrite length_append. simpl. lia. }
  rewrite slice_to_app.
  rewrite (split_part e _ He).
  change (String c digits +:+ "_") with (String c digits +:+ String "_" "").
  rewrite (split_part (String c digits) "" Hs).
  simpl. rewrite Hint. reflexivity.
Qed.

Lemma suffix_that_is_no_integer_is_refused_witness :
  ion_of_field "Mg_plus_number_density"
  = raise (ValueError "invalid literal for int() with base 10").
Proof.
  apply (suffix_that_is_no_integer_is_refused "Mg" "lus" "p"); reflexivity.
Defined.

End FieldNameEdges.

(** ** X18: a kernel of one weight *)

Lemma convolve_full_one_weight (k : npfloat) (f : list npfloat) :
  convolve_full f [k] = List.map (fun x => fmul x k) f.
Proof.
  induction f as [|x f IH]; [reflexivity|].
  cbn [convolve_full List.map add_pad]. rewrite IH. reflexivity.
Qed.

Lemma fmul_comm (a b : npfloat) : feq (fmul a b) (fmul b a).
Proof. destruct a, b; cbn; try exact I. ring. Qed.

(** X18: a kernel of a single weight scales the flux field entry by entry
    and leaves its length and the wavelength bins as they are; the weight 1
    is the kernel that changes nothing. *)
Theorem one_weight_kernel_scales_flux
    (LSF_kernel : option string -> option Z -> option string -> World -> result (list Q))
    (k : Q) (g : SpectrumGenerator) (function : option string)
    (width : option Z) (filename : option string) (w : World) (f : list npfloat) :
  (forall a b c w', LSF_kernel a b c w' = ok [k]) ->
  (function = None -> width = None -> filename = None ->
   lsf_kernel (instrument g) <> None) ->
  flux_field g = Some f ->
  f <> [] ->
  exists g' flux,
    fst (apply_lsf LSF_kernel g function width filename w) = ok g' /\
    flux_field g' = Some flux /\
    lambda_bins g' = lambda_bins g /\
    Forall2 (fun y x => feq y (fmul (Finite k) x)) flux f.
Proof.
  intros HK Hsrc Hf Hne.
  rewrite (apply_lsf_outcome _ [k] _ _ _ _ _ f HK Hsrc Hf).
  destruct f as [|x [|x' f]]; [contradiction| |].
  - cbn. eexists _, _. split; [reflexivity|]. split; [reflexivity|].
    split; [reflexivity|]. constructor; [apply feq_refl | constructor].
  - unfold convolve_same. cbn [List.map].
    change (List.length [Finite k] <? List.length (x :: x' :: f))%nat with true.
    cbv iota beta. change ((List.length [Finite k] - 1) / 2)%nat with 0%nat.
    cbn [List.skipn]. rewrite convolve_full_one_weight.
    rewrite <- (List.length_map (fun x => fmul x (Finite k)) (x :: x' :: f)).
    rewrite List.firstn_all. cbn [Py.bind ok].
    eexists _, _. split; [reflexivity|]. split; [reflexivity|].
    split; [reflexivity|].
    generalize (x :: x' :: f). intros l.
    induction l; cbn; constructor; [apply fmul_comm | assumption].
Qed.

Lemma one_weight_kernel_scales_flux_witness :
  exists g' flux,
    fst (apply_lsf (fun _ _ _ _ => ok [1 # 2])
           (Examples.generator [1; 2; 3] (Some [Finite 1; Finite 2; Finite 3]))
           (Some "boxcar"%string) (Some 1%Z) None (Examples.world_of ∅)) = ok g' /\
    flux_field g' = Some flux /\
    lambda_bins g' = [1; 2; 3] /\
    Forall2 (fun y x => feq y (fmul (Finite (1 # 2)) x)) flux
            [Finite 1; Finite 2; Finite 3].
Proof.
  apply (one_weight_kernel_scales_flux (fun _ _ _ _ => ok [1 # 2]) (1 # 2)
           (Examples.generator [1; 2; 3] (Some [Finite 1; Finite 2; Finite 3]))
           (Some "boxcar"%string) (Some 1%Z) None (Examples.world_of ∅)
           [Finite 1; Finite 2; Finite 3]).
  - reflexivity.
  - discriminate.
  - reflexivity.
  - discriminate.
Defined.

(** ** X19: a flux array that does not fit the grid *)


